(** * Behavioural biometric verification engine (Zenith-iD-Portal)

    A shallow embedding of
      backend/biometrics/services/behavioral_analyzer.py   (mobile analyzer)
      backend/biometrics/services/web_behavior_analyzer.py (web analyzer)
      backend/biometrics/views.py                          (decision mapping)

    Conventions of the embedding.
    - The analyzers receive parsed JSON: a value is [pyval], a dict is an
      association list in insertion order (Python dicts remember it and
      [json.dumps] without sorting would expose it).
    - Python [int] is [Z]; Python [float] is an exact rational [Q]: the
      rounding of binary floating point, infinities and NaN are not modelled.
      The [OverflowError] of [statistics.stdev] is modelled, see below; no
      other overflow is.
    - Every [try ... except Exception] of the source is a [try_except] here,
      and every [logger.warning]/[logger.error] of a handler appends a record
      to the log, so the log tells which exceptions were raised and where they
      were caught.
    - Three interpreter primitives have no exact counterpart over [Q] or are
      left unspecified by Python; they are section variables: the square root
      of [statistics.stdev], which has no value when the float arithmetic of
      [statistics.stdev] overflows, the text [json.dumps] prints for a float,
      and the iteration order of a [set]. *)

From Stdlib Require Import List String Ascii Bool Arith ZArith NArith QArith Qabs Qminmax Lia Lqa.
From Stdlib Require Import DecimalString.
From Stdlib Require Import Permutation Sorted.
Import ListNotations.
Open Scope string_scope.
Open Scope list_scope.

(* ================================================================== *)
(** * Part I - definitions                                             *)
(* ================================================================== *)

(** ** Python values *)

#[local] Unset Elimination Schemes.
Inductive pyval : Type :=
| PNone
| PBool (b : bool)
| PInt (z : Z)
| PFloat (q : Q)
| PStr (s : string)
| PList (l : list pyval)
| PDict (d : list (string * pyval)).
#[local] Set Elimination Schemes.

Inductive exn : Type :=
| AttributeError | TypeError | KeyError | IndexError
| StatisticsError | ZeroDivisionError | ValueError | OverflowError.

(** Result of evaluating an expression that may raise. *)
Inductive res (A : Type) : Type :=
| Ok (a : A)
| Raise (e : exn).
Arguments Ok {A} a.
Arguments Raise {A} e.

Definition rbind {A B} (r : res A) (f : A -> res B) : res B :=
  match r with Ok a => f a | Raise e => Raise e end.

Declare Scope res_scope.
Delimit Scope res_scope with res.
Notation "x <- r ;; k" := (rbind r (fun x => k))
  (at level 61, r at next level, right associativity) : res_scope.

Fixpoint rmap {A B} (f : A -> res B) (l : list A) : res (list B) :=
  match l with
  | [] => Ok []
  | x :: xs =>
      match f x with
      | Raise e => Raise e
      | Ok y => match rmap f xs with Raise e => Raise e | Ok ys => Ok (y :: ys) end
      end
  end.

(** ** Primitive operations on values *)

Fixpoint lookup (k : string) (d : list (string * pyval)) : option pyval :=
  match d with
  | [] => None
  | (k', v) :: r => if String.eqb k k' then Some v else lookup k r
  end.

(** [bool(v)] *)
Definition truthy (v : pyval) : bool :=
  match v with
  | PNone => false
  | PBool b => b
  | PInt z => negb (Z.eqb z 0)
  | PFloat q => negb (Qeq_bool q 0)
  | PStr s => negb (String.eqb s EmptyString)
  | PList l => match l with [] => false | _ => true end
  | PDict d => match d with [] => false | _ => true end
  end.

(** Numeric value of a Python number; [bool] is a subclass of [int]. *)
Definition as_num (v : pyval) : option Q :=
  match v with
  | PBool b => Some (inject_Z (if b then 1 else 0))
  | PInt z => Some (inject_Z z)
  | PFloat q => Some q
  | _ => None
  end.

Definition is_float (v : pyval) : bool :=
  match v with PFloat _ => true | _ => false end.

Definition isinstance_dict (v : pyval) : bool :=
  match v with PDict _ => true | _ => false end.

(** [a == b]: numbers compare by value across [bool], [int] and [float];
    dicts compare without regard to insertion order. *)
Fixpoint py_eq (a b : pyval) {struct a} : bool :=
  match a, b with
  | PNone, PNone => true
  | PStr s, PStr t => String.eqb s t
  | PList l1, PList l2 =>
      (fix go (l1 l2 : list pyval) : bool :=
         match l1, l2 with
         | [], [] => true
         | x :: xs, y :: ys => py_eq x y && go xs ys
         | _, _ => false
         end) l1 l2
  | PDict d1, PDict d2 =>
      Nat.eqb (List.length d1) (List.length d2) &&
      (fix go (d : list (string * pyval)) : bool :=
         match d with
         | [] => true
         | (k, v) :: r =>
             match lookup k d2 with
             | Some w => py_eq v w
             | None => false
             end && go r
         end) d1
  | PBool _, _ | PInt _, _ | PFloat _, _ =>
      match as_num a, as_num b with
      | Some p, Some q => Qeq_bool p q
      | _, _ => false
      end
  | _, _ => false
  end.

(** [hash(v)] succeeds: lists and dicts are unhashable. *)
Definition hashable (v : pyval) : bool :=
  match v with PList _ | PDict _ => false | _ => true end.

Fixpoint is_prefix (p s : string) : bool :=
  match p, s with
  | EmptyString, _ => true
  | String a p', String b s' => Ascii.eqb a b && is_prefix p' s'
  | String _ _, EmptyString => false
  end.

Fixpoint is_substring (p s : string) : bool :=
  is_prefix p s || match s with EmptyString => false | String _ s' => is_substring p s' end.

Fixpoint chars (s : string) : list pyval :=
  match s with
  | EmptyString => []
  | String a s' => PStr (String a EmptyString) :: chars s'
  end.

(** [x in c] *)
Definition py_in (x c : pyval) : res bool :=
  match c with
  | PList l => Ok (existsb (py_eq x) l)
  | PDict d =>
      if hashable x
      then Ok (match x with PStr k => match lookup k d with Some _ => true | None => false end
                          | _ => false end)
      else Raise TypeError
  | PStr s => match x with PStr p => Ok (is_substring p s) | _ => Raise TypeError end
  | _ => Raise TypeError
  end.

(** [for x in v]: the items the iteration yields. *)
Definition py_iter (v : pyval) : res (list pyval) :=
  match v with
  | PList l => Ok l
  | PStr s => Ok (chars s)
  | PDict d => Ok (map (fun kv => PStr (fst kv)) d)
  | _ => Raise TypeError
  end.

(** [len(v)] *)
Definition py_len (v : pyval) : res nat :=
  match v with
  | PList l => Ok (List.length l)
  | PStr s => Ok (String.length s)
  | PDict d => Ok (List.length d)
  | _ => Raise TypeError
  end.

(** [v.get(k, default)]: only a dict has the method. *)
Definition py_get (v : pyval) (k : string) (default : pyval) : res pyval :=
  match v with
  | PDict d => Ok (match lookup k d with Some x => x | None => default end)
  | _ => Raise AttributeError
  end.

(** [v[k]] with a string key. *)
Definition py_item (v : pyval) (k : string) : res pyval :=
  match v with
  | PDict d => match lookup k d with Some x => Ok x | None => Raise KeyError end
  | _ => Raise TypeError
  end.

(** [v[i]] with a non-negative integer index. *)
Definition py_index (v : pyval) (i : nat) : res pyval :=
  match v with
  | PList l => match nth_error l i with Some x => Ok x | None => Raise IndexError end
  | PStr s => match nth_error (chars s) i with Some x => Ok x | None => Raise IndexError end
  | PDict _ => Raise KeyError
  | _ => Raise TypeError
  end.

(** [v.items()] *)
Definition py_items (v : pyval) : res (list (string * pyval)) :=
  match v with
  | PDict d => Ok d
  | _ => Raise AttributeError
  end.

(** A number computed from operands: a [float] if one operand was, else an
    [int] (the callers only build integral values in that case). *)
Definition num_result (float_result : bool) (q : Q) : pyval :=
  if float_result then PFloat (Qred q) else PInt (Qnum q / Zpos (Qden q))%Z.

(** [a - b] *)
Definition py_sub (a b : pyval) : res pyval :=
  match as_num a, as_num b with
  | Some p, Some q => Ok (num_result (is_float a || is_float b) (p - q))
  | _, _ => Raise TypeError
  end.

(** [abs(a)] *)
Definition py_abs (a : pyval) : res pyval :=
  match as_num a with
  | Some p => Ok (num_result (is_float a) (Qabs p))
  | None => Raise TypeError
  end.

(** [a / b], true division: the quotient is a float. *)
Definition py_truediv (a b : pyval) : res pyval :=
  match as_num a, as_num b with
  | Some p, Some q => if Qeq_bool q 0 then Raise ZeroDivisionError else Ok (PFloat (Qred (p / q)))
  | _, _ => Raise TypeError
  end.

(** [a < b] and [a <= b] on numbers; strings and lists are ordered too but
    never against a number. *)
Definition py_lt_num (a : pyval) (q : Q) : res bool :=
  match as_num a with
  | Some p => Ok (negb (Qle_bool q p))
  | None => Raise TypeError
  end.

Definition py_le_num (a : pyval) (q : Q) : res bool :=
  match as_num a with
  | Some p => Ok (Qle_bool p q)
  | None => Raise TypeError
  end.

Definition py_gt_num (a : pyval) (q : Q) : res bool :=
  match as_num a with
  | Some p => Ok (negb (Qle_bool p q))
  | None => Raise TypeError
  end.

(** [max(a, 1)]: the first argument unless [1 > a]. *)
Definition py_max1 (a : pyval) : res pyval :=
  match as_num a with
  | Some p => Ok (if Qle_bool 1 p then a else PInt 1)
  | None => Raise TypeError
  end.

(** [abs(stored - current) / max(stored, 1)], the relative difference every
    matcher computes. *)
Definition relative_difference (stored current : pyval) : res pyval :=
  (d <- py_sub stored current ;;
   a <- py_abs d ;;
   m <- py_max1 stored ;;
   py_truediv a m)%res.

(** ** Statements, local variables and the log *)

Inductive level : Type := WARNING | ERROR.

Record log_record : Type := { lvl : level; msg : string; cause : exn }.

Definition log : Type := list log_record.

(** A block of statements over local variables [S]: it ends with the locals as
    they are then, the records logged meanwhile, and a value or a raised
    exception.  An exception leaves the locals as they were when it was
    raised, which is what a handler that returns a local sees. *)
Definition stmt (S A : Type) : Type := S -> S * log * res A.

Definition ret {S A} (a : A) : stmt S A := fun s => (s, [], Ok a).

Definition bind {S A B} (m : stmt S A) (f : A -> stmt S B) : stmt S B :=
  fun s =>
    match m s with
    | (s1, l1, Raise e) => (s1, l1, Raise e)
    | (s1, l1, Ok a) =>
        match f a s1 with
        | (s2, l2, r) => (s2, l1 ++ l2, r)
        end
    end.

(** An expression evaluated inside a block. *)
Definition eval {S A} (r : res A) : stmt S A := fun s => (s, [], r).

(** A call of a method that handles its own exceptions: it returns a value
    and the records it logged. *)
Definition call {S A} (c : A * log) : stmt S A := fun s => (s, snd c, Ok (fst c)).

Definition get_local {S} : stmt S S := fun s => (s, [], Ok s).

Definition set_local {S} (s' : S) : stmt S unit := fun _ => (s', [], Ok tt).

Declare Scope stmt_scope.
Delimit Scope stmt_scope with stmt.
Notation "x <- m ;; k" := (bind m (fun x => k))
  (at level 61, m at next level, right associativity) : stmt_scope.
Notation "m ;;; k" := (bind m (fun _ => k))
  (at level 61, right associativity) : stmt_scope.

(** [try: body  except Exception as e: logger.<lv>(text); return handler(locals)] *)
Definition try_except {S A} (s0 : S) (body : stmt S A)
    (lv : level) (text : string) (handler : S -> A) : A * log :=
  match body s0 with
  | (_, l, Ok a) => (a, l)
  | (s, l, Raise e) => (handler s, l ++ [{| lvl := lv; msg := text; cause := e |}])
  end.

(** [d[k] = v] on a dict: an existing key keeps its position. *)
Fixpoint dict_set (k : string) (v : pyval) (d : list (string * pyval)) : list (string * pyval) :=
  match d with
  | [] => [(k, v)]
  | (k', v') :: r => if String.eqb k k' then (k, v) :: r else (k', v') :: dict_set k v r
  end.

Definition has_key (k : string) (d : list (string * pyval)) : bool :=
  match lookup k d with Some _ => true | None => false end.

(** [features[k] = v] *)
Definition set_feature (k : string) (v : pyval) : stmt (list (string * pyval)) unit :=
  fun features => (dict_set k v features, [], Ok tt).

(** [[item.get(key, default) for item in coll if item.get(key)]] *)
Definition get_all_truthy (coll : pyval) (key : string) (default : pyval) : res (list pyval) :=
  (items <- py_iter coll ;;
   picked <- rmap (fun item =>
               c <- py_get item key PNone ;;
               if truthy c
               then (v <- py_get item key default ;; Ok (Some v))
               else Ok None) items ;;
   Ok (flat_map (fun o => match o with Some v => [v] | None => [] end) picked))%res.

(** ** The [statistics] module *)

Fixpoint all_nums (l : list pyval) : option (list Q) :=
  match l with
  | [] => Some []
  | x :: xs =>
      match as_num x, all_nums xs with
      | Some q, Some qs => Some (q :: qs)
      | _, _ => None
      end
  end.

Definition Qsum (l : list Q) : Q := fold_right Qplus 0 l.

Definition Qmean (l : list Q) : Q :=
  Qsum l / inject_Z (Z.of_nat (List.length l)).

(** Sum of squared deviations over [n - 1]. *)
Definition Qvariance (l : list Q) : Q :=
  let m := Qmean l in
  Qsum (map (fun x => (x - m) * (x - m)) l) / inject_Z (Z.of_nat (List.length l) - 1).

(** [statistics.mean(data)]: an [int] when every datum is an [int] (or a
    [bool]) and the mean is integral, a [float] otherwise. *)
Definition mean (data : pyval) : res pyval :=
  (items <- py_iter data ;;
   match all_nums items with
   | None => Raise TypeError
   | Some qs =>
       match qs with
       | [] => Raise StatisticsError
       | _ =>
           let m := Qred (Qmean qs) in
           Ok (if existsb is_float items then PFloat m
               else if Pos.eqb (Qden m) 1 then PInt (Qnum m) else PFloat m)
       end
   end)%res.

(** [max(items, key=key)]: the first item whose key is the largest. *)
Fixpoint max_by (key : pyval -> nat) (best : pyval) (rest : list pyval) : pyval :=
  match rest with
  | [] => best
  | x :: xs => max_by key (if Nat.ltb (key best) (key x) then x else best) xs
  end.

(** [l.count(x)] *)
Definition py_count (l : list pyval) (x : pyval) : nat :=
  List.length (filter (py_eq x) l).

(** The elements a [set] built from [l] holds: of equal elements the first
    inserted one stays. *)
Fixpoint dedup (l : list pyval) : list pyval :=
  match l with
  | [] => []
  | x :: xs => x :: filter (fun y => negb (py_eq x y)) (dedup xs)
  end.

(** ** Stand-ins for the open primitives

    To run the model on a concrete input the three primitives need a value.
    These are plain computable choices; no theorem about the engine depends
    on them. *)

(** The square root cut after ten decimals; a variance from [2 ^ 1024] on
    does not fit a float. *)
Definition sqrt_ten_decimals (q : Q) : option Q :=
  if Qle_bool (inject_Z (2 ^ 1024)) q then None
  else Some (Z.sqrt (Qnum q * 10 ^ 20 / Zpos (Qden q)) # 10 ^ 10).

(** A number with six decimals, cut, as in [162.500000]. *)
Definition six_decimals (q : Q) : string :=
  let n := (Z.abs (Qnum q) * 10 ^ 6 / Zpos (Qden q))%Z in
  let frac := NilZero.string_of_uint (N.to_uint (Z.to_N (n mod 10 ^ 6 + 10 ^ 6))) in
  String.append (if (Qnum q <? 0)%Z then "-" else EmptyString)
    (String.append (NilZero.string_of_uint (N.to_uint (Z.to_N (n / 10 ^ 6))))
       (String "." (String.substring 1 6 frac))).

(** A set iterated in insertion order. *)
Definition insertion_order (l : list pyval) : list pyval := l.

Section Engine.

(** The interpreter primitives left open (see the header). *)
Variable float_sqrt : Q -> option Q.
Variable float_repr : Q -> string.
Variable set_order : list pyval -> list pyval.

(** A set of Python has no order of its own: [list(a_set)] is some
    permutation of its elements.  Only the properties of the profile updater
    rely on it. *)
Hypothesis set_order_perm : forall l, Permutation (set_order l) l.

#[local] Set Default Proof Using "Type".

(** [statistics.stdev(data)]: the square root of the sample variance, computed
    in floats; [OverflowError] when [float_sqrt] has no value for it. *)
Definition stdev (data : pyval) : res pyval :=
  (items <- py_iter data ;;
   match all_nums items with
   | None => Raise TypeError
   | Some qs =>
       if Nat.ltb (List.length qs) 2 then Raise StatisticsError
       else match float_sqrt (Qred (Qvariance qs)) with
            | Some root => Ok (PFloat root)
            | None => Raise OverflowError
            end
   end)%res.

(** [set(l)] then iteration: unhashable elements raise. *)
Definition py_set (l : list pyval) : res (list pyval) :=
  if forallb hashable l then Ok (set_order (dedup l)) else Raise TypeError.

(** The two assignments every extractor repeats:
      [features[avg] = statistics.mean(values)]
      [features[std] = statistics.stdev(values) if len(values) > 1 else 0] *)
Definition set_mean_std (avg std : string) (values : pyval)
  : stmt (list (string * pyval)) unit :=
  (m <- eval (mean values) ;;
   set_feature avg m ;;;
   n <- eval (py_len values) ;;
   sd <- (if Nat.ltb 1 n then eval (stdev values) else ret (PInt 0)) ;;
   set_feature std sd)%stmt.

(** ** behavioral_analyzer.py - [BehavioralAnalyzer] *)

Definition _extract_typing_features (typing_pattern : pyval)
  : list (string * pyval) * log :=
  try_except []
    (hold_times <- eval (py_get typing_pattern "key_hold_times" (PList [])) ;;
     flight_times <- eval (py_get typing_pattern "flight_times" (PList [])) ;;
     (if truthy hold_times then
        first <- eval (py_index hold_times 0) ;;
        hold_values <- (if isinstance_dict first
                        then l <- eval (get_all_truthy hold_times "hold_time" (PInt 0)) ;;
                             ret (PList l)
                        else ret hold_times) ;;
        if truthy hold_values
        then set_mean_std "avg_hold_time" "hold_time_std" hold_values
        else ret tt
      else ret tt) ;;;
     (if truthy flight_times
      then set_mean_std "avg_flight_time" "flight_time_std" flight_times
      else ret tt) ;;;
     get_local)%stmt
    WARNING "Failed to extract typing features" (fun features => features).

Definition _extract_touch_features (touch_patterns : pyval)
  : list (string * pyval) * log :=
  try_except []
    (swipe_data <- eval (py_get touch_patterns "swipe_speeds" (PList [])) ;;
     touch_data <- eval (py_get touch_patterns "touch_pressures" (PList [])) ;;
     (if truthy swipe_data
      then set_mean_std "avg_swipe_speed" "swipe_speed_std" swipe_data
      else ret tt) ;;;
     (if truthy touch_data
      then set_mean_std "avg_touch_pressure" "touch_pressure_std" touch_data
      else ret tt) ;;;
     get_local)%stmt
    WARNING "Failed to extract touch features" (fun features => features).

(** The value of a feature just tested to be present. *)
Definition feature (k : string) (features : list (string * pyval)) : res pyval :=
  match lookup k features with Some v => Ok v | None => Raise KeyError end.

(** [stored_profile.get(k)] taken as a condition. *)
Definition get_truthy (v : pyval) (k : string) : res bool :=
  (x <- py_get v k PNone ;; Ok (truthy x))%res.

Definition _verify_typing_pattern (current_typing stored_profile : pyval) : Q * log :=
  try_except tt
    (current_features <- call (_extract_typing_features current_typing) ;;
     let similarity_score := 0 in
     present <- (if has_key "avg_hold_time" current_features
                 then eval (get_truthy stored_profile "typical_hold_times")
                 else ret false) ;;
     similarity_score <-
       (if (present : bool) then
          stored_avg <- eval (py_get stored_profile "avg_typing_speed" (PInt 0)) ;;
          current_avg <- eval (feature "avg_hold_time" current_features) ;;
          difference <- eval (relative_difference stored_avg current_avg) ;;
          le02 <- eval (py_le_num difference (2 # 10)) ;;
          if (le02 : bool) then ret (similarity_score + (7 # 10))
          else
            le04 <- eval (py_le_num difference (4 # 10)) ;;
            if (le04 : bool) then ret (similarity_score + (3 # 10))
            else ret similarity_score
        else ret similarity_score) ;;
     ret (Qmin similarity_score 1))%stmt
    ERROR "Typing pattern verification failed" (fun _ => 0).

Definition _verify_touch_patterns (current_touch stored_profile : pyval) : Q * log :=
  try_except tt
    (current_features <- call (_extract_touch_features current_touch) ;;
     let similarity_score := 0 in
     present <- (if has_key "avg_swipe_speed" current_features
                 then eval (get_truthy stored_profile "avg_swipe_speed")
                 else ret false) ;;
     similarity_score <-
       (if (present : bool) then
          stored_speed <- eval (py_item stored_profile "avg_swipe_speed") ;;
          current_speed <- eval (feature "avg_swipe_speed" current_features) ;;
          difference <- eval (relative_difference stored_speed current_speed) ;;
          le03 <- eval (py_le_num difference (3 # 10)) ;;
          ret (if (le03 : bool) then similarity_score + (5 # 10) else similarity_score)
        else ret similarity_score) ;;
     present <- (if has_key "avg_touch_pressure" current_features
                 then eval (get_truthy stored_profile "typical_touch_pressure")
                 else ret false) ;;
     similarity_score <-
       (if (present : bool) then
          stored_pressure <- eval (py_item stored_profile "typical_touch_pressure") ;;
          current_pressure <- eval (feature "avg_touch_pressure" current_features) ;;
          difference <- eval (relative_difference stored_pressure current_pressure) ;;
          le025 <- eval (py_le_num difference (25 # 100)) ;;
          ret (if (le025 : bool) then similarity_score + (5 # 10) else similarity_score)
        else ret similarity_score) ;;
     ret (Qmin similarity_score 1))%stmt
    ERROR "Touch pattern verification failed" (fun _ => 0).

Definition _verify_device (current_device stored_profile : pyval) : Q * log :=
  try_except tt
    (current_device_id <- eval (py_get current_device "device_id" PNone) ;;
     trusted_devices <- eval (py_get stored_profile "trusted_devices" (PList [])) ;;
     exact <- (if truthy current_device_id
               then eval (py_in current_device_id trusted_devices)
               else ret false) ;;
     if (exact : bool) then ret 1
     else
       let device_similarity := 0 in
       current_os <- eval (py_get current_device "os" PNone) ;;
       stored_characteristics <- eval (py_get stored_profile "device_characteristics" (PDict [])) ;;
       stored_typical_os <- eval (py_get stored_characteristics "typical_os" PNone) ;;
       ret (if truthy current_os && truthy stored_typical_os && py_eq current_os stored_typical_os
            then device_similarity + (5 # 10)
            else device_similarity))%stmt
    ERROR "Device verification failed" (fun _ => 0).

(** [anomalies.append(tag)] *)
Definition append_anomaly (tag : string) : stmt (list string) unit :=
  fun anomalies => (anomalies ++ [tag], [], Ok tt).

Definition _detect_anomalies (current_data stored_profile : pyval) : list string * log :=
  try_except []
    (typing_pattern <- eval (py_get current_data "typing_pattern" (PDict [])) ;;
     current_typing <- call (_extract_typing_features typing_pattern) ;;
     present <- (if has_key "avg_hold_time" current_typing
                 then eval (get_truthy stored_profile "avg_typing_speed")
                 else ret false) ;;
     (if (present : bool) then
        stored_speed <- eval (py_item stored_profile "avg_typing_speed") ;;
        current_speed <- eval (feature "avg_hold_time" current_typing) ;;
        difference <- eval (relative_difference stored_speed current_speed) ;;
        gt05 <- eval (py_gt_num difference (5 # 10)) ;;
        if (gt05 : bool) then append_anomaly "typing_speed_anomaly" else ret tt
      else ret tt) ;;;
     current_device <- eval (py_get current_data "device_characteristics" (PDict [])) ;;
     trusted_devices <- eval (py_get stored_profile "trusted_devices" (PList [])) ;;
     current_device_id <- eval (py_get current_device "device_id" PNone) ;;
     unfamiliar <- (if truthy current_device_id
                    then known <- eval (py_in current_device_id trusted_devices) ;;
                         ret (negb known)
                    else ret false) ;;
     (if (unfamiliar : bool) then append_anomaly "unfamiliar_device" else ret tt) ;;;
     get_local)%stmt
    WARNING "Anomaly detection failed" (fun anomalies => anomalies).

(** The channel of [verify_behavioral_match] guarded by
    [current_data.get(ck) and stored_profile.get(sk)]; the second operand is
    not evaluated when the first is falsy. *)
Definition both_present (current_data : pyval) (ck : string)
    (stored_profile : pyval) (sk : string) : res bool :=
  (c <- py_get current_data ck PNone ;;
   if truthy c then get_truthy stored_profile sk else Ok false)%res.

(** [min(1.0, max(0.0, 1.0 - confidence) + len(anomalies) * penalty)] when
    there are anomalies, [max(0.0, 1.0 - confidence)] when there are none. *)
Definition risk_of (overall_confidence : Q) (anomalies : list string) (penalty : Q) : Q :=
  let risk_score := Qmax 0 (1 - overall_confidence) in
  match anomalies with
  | [] => risk_score
  | _ => Qmin 1 (risk_score + inject_Z (Z.of_nat (List.length anomalies)) * penalty)
  end.

(** The body of the [try] of [verify_behavioral_match]. *)
Definition verify_behavioral_match_body (current_data stored_profile : pyval)
  : stmt unit (bool * Q * Q) :=
  (let confidence_factors := [] in
   typing <- eval (both_present current_data "typing_pattern" stored_profile "typical_hold_times") ;;
   confidence_factors <-
     (if (typing : bool) then
        current_typing <- eval (py_item current_data "typing_pattern") ;;
        typing_confidence <- call (_verify_typing_pattern current_typing stored_profile) ;;
        ret (confidence_factors ++ [typing_confidence * (5 # 10)])
      else ret confidence_factors) ;;
   touch <- eval (both_present current_data "touch_patterns" stored_profile "avg_swipe_speed") ;;
   confidence_factors <-
     (if (touch : bool) then
        current_touch <- eval (py_item current_data "touch_patterns") ;;
        touch_confidence <- call (_verify_touch_patterns current_touch stored_profile) ;;
        ret (confidence_factors ++ [touch_confidence * (3 # 10)])
      else ret confidence_factors) ;;
   device <- eval (get_truthy current_data "device_characteristics") ;;
   confidence_factors <-
     (if (device : bool) then
        current_device <- eval (py_item current_data "device_characteristics") ;;
        device_confidence <- call (_verify_device current_device stored_profile) ;;
        ret (confidence_factors ++ [device_confidence * (2 # 10)])
      else ret confidence_factors) ;;
   let overall_confidence :=
     match confidence_factors with [] => 0 | _ => fold_left Qplus confidence_factors 0 end in
   anomalies <- call (_detect_anomalies current_data stored_profile) ;;
   let risk_score := risk_of overall_confidence anomalies (2 # 10) in
   let is_match := Qle_bool (7 # 10) overall_confidence in
   ret (is_match, overall_confidence, risk_score))%stmt.

Definition verify_behavioral_match (current_data stored_profile : pyval)
  : (bool * Q * Q) * log :=
  try_except tt (verify_behavioral_match_body current_data stored_profile)
    ERROR "Behavioral verification failed" (fun _ => (false, 0, 1)).

(** [[s.get(key, {}) for s in new_samples if s.get(key)]] is [get_all_truthy].
    [_update_typing_profile] and [_update_touch_profile] return the profile
    they are given. *)
Definition _update_typing_profile (profile : pyval) (new_samples : list pyval) : pyval :=
  profile.

Definition _update_touch_profile (profile : pyval) (new_samples : list pyval) : pyval :=
  profile.

(** [device_id not in trusted_devices] on a set, then [add]. *)
Definition set_add_new (device_id : pyval) (trusted_devices : list pyval)
  : res (list pyval) :=
  if truthy device_id then
    if hashable device_id then
      Ok (if existsb (py_eq device_id) trusted_devices
          then trusted_devices
          else trusted_devices ++ [device_id])
    else Raise TypeError
  else Ok trusted_devices.

Fixpoint add_devices (new_samples : list pyval) (trusted_devices : list pyval)
  : res (list pyval) :=
  match new_samples with
  | [] => Ok trusted_devices
  | sample :: rest =>
      (device_id <- py_get sample "device_id" PNone ;;
       trusted_devices <- set_add_new device_id trusted_devices ;;
       add_devices rest trusted_devices)%res
  end.

(** [profile[k] = v] *)
Definition py_setitem (profile : pyval) (k : string) (v : pyval) : res pyval :=
  match profile with
  | PDict d => Ok (PDict (dict_set k v d))
  | _ => Raise TypeError
  end.

(** [_update_device_profile] has no handler of its own: what it raises reaches
    its caller.  It works on the dict it is given and returns it. *)
Definition _update_device_profile (profile : pyval) (new_samples : list pyval)
  : res pyval :=
  (stored <- py_get profile "trusted_devices" (PList []) ;;
   items <- py_iter stored ;;
   trusted_devices <- (if forallb hashable items then Ok (dedup items) else Raise TypeError) ;;
   trusted_devices <- add_devices new_samples trusted_devices ;;
   py_setitem profile "trusted_devices" (PList (set_order trusted_devices)))%res.

(** [v + n] for the [int] that [len] returns. *)
Definition py_add_len (v : pyval) (n : nat) : res pyval :=
  match v with
  | PBool b => Ok (PInt ((if b then 1 else 0) + Z.of_nat n))
  | PInt z => Ok (PInt (z + Z.of_nat n))
  | PFloat q => Ok (PFloat (Qred (q + inject_Z (Z.of_nat n))))
  | _ => Raise TypeError
  end.

(** The local of the block is [profile_data]: the dict the caller passed, as
    updated so far. *)
Definition update_biometric_profile (profile_data new_samples : pyval) : pyval * log :=
  try_except profile_data
    (if negb (truthy new_samples) then get_local
     else
       typing_samples <- eval (get_all_truthy new_samples "typing_pattern" (PDict [])) ;;
       (match typing_samples with
        | [] => ret tt
        | _ => p <- get_local ;; set_local (_update_typing_profile p typing_samples)
        end) ;;;
       touch_samples <- eval (get_all_truthy new_samples "touch_patterns" (PDict [])) ;;
       (match touch_samples with
        | [] => ret tt
        | _ => p <- get_local ;; set_local (_update_touch_profile p touch_samples)
        end) ;;;
       device_samples <- eval (get_all_truthy new_samples "device_characteristics" (PDict [])) ;;
       (match device_samples with
        | [] => ret tt
        | _ => p <- get_local ;;
               p' <- eval (_update_device_profile p device_samples) ;;
               set_local p'
        end) ;;;
       p <- get_local ;;
       count <- eval (py_item p "samples_collected") ;;
       n <- eval (py_len new_samples) ;;
       count' <- eval (py_add_len count n) ;;
       p' <- eval (py_setitem p "samples_collected" count') ;;
       set_local p' ;;;
       get_local)%stmt
    ERROR "Profile update failed" (fun profile_data => profile_data).

(** ** web_behavior_analyzer.py - [WebBehaviorAnalyzer] *)

(** [all(key in m for key in ['x', 'y'])] *)
Definition has_x_y (m : pyval) : res bool :=
  (x <- py_in (PStr "x") m ;;
   if (x : bool) then py_in (PStr "y") m else Ok false)%res.

(** [m[i][key] - m[i-1][key]] *)
Definition delta (cur prev : pyval) (key : string) : res pyval :=
  (a <- py_item cur key ;;
   b <- py_item prev key ;;
   py_sub a b)%res.

(** The loop [for i in range(1, len(mouse_movements))], [n] turns from [i] on. *)
Fixpoint movement_angles_loop (mouse_movements : pyval) (i n : nat)
    (movement_angles : list pyval) : res (list pyval) :=
  match n with
  | O => Ok movement_angles
  | S n' =>
      (cur <- py_index mouse_movements i ;;
       c <- has_x_y cur ;;
       both <- (if (c : bool)
                then prev <- py_index mouse_movements (i - 1) ;; has_x_y prev
                else Ok false) ;;
       movement_angles <-
         (if (both : bool) then
            prev <- py_index mouse_movements (i - 1) ;;
            dx <- delta cur prev "x" ;;
            dy <- delta cur prev "y" ;;
            if negb (py_eq dx (PInt 0))
            then q <- py_truediv dy dx ;;
                 angle <- py_abs q ;;
                 Ok (movement_angles ++ [angle])
            else Ok movement_angles
          else Ok movement_angles) ;;
       movement_angles_loop mouse_movements (S i) n' movement_angles)%res
  end.

Definition _extract_mouse_features (mouse_movements : pyval)
  : list (string * pyval) * log :=
  try_except []
    (if negb (truthy mouse_movements) then get_local
     else
       speeds <- eval (get_all_truthy mouse_movements "speed" (PInt 0)) ;;
       (match speeds with
        | [] => ret tt
        | _ => set_mean_std "avg_mouse_speed" "mouse_speed_std" (PList speeds)
        end) ;;;
       n <- eval (py_len mouse_movements) ;;
       movement_angles <- eval (movement_angles_loop mouse_movements 1 (n - 1) []) ;;
       (match movement_angles with
        | [] => ret tt
        | _ => m <- eval (mean (PList movement_angles)) ;;
               set_feature "avg_movement_angle" m
        end) ;;;
       get_local)%stmt
    WARNING "Mouse feature extraction failed" (fun features => features).

(** [max(set(directions), key=directions.count)] *)
Definition most_common (directions : list pyval) : res pyval :=
  (s <- py_set directions ;;
   match s with
   | [] => Raise ValueError
   | x :: rest => Ok (max_by (py_count directions) x rest)
   end)%res.

Definition _extract_scroll_features (scroll_events : pyval)
  : list (string * pyval) * log :=
  try_except []
    (if negb (truthy scroll_events) then get_local
     else
       speeds <- eval (get_all_truthy scroll_events "speed" (PInt 0)) ;;
       (match speeds with
        | [] => ret tt
        | _ => set_mean_std "avg_scroll_speed" "scroll_speed_std" (PList speeds)
        end) ;;;
       directions <- eval (get_all_truthy scroll_events "direction" (PStr EmptyString)) ;;
       (match directions with
        | [] => ret tt
        | _ => d <- eval (most_common directions) ;;
               set_feature "preferred_direction" d
        end) ;;;
       get_local)%stmt
    WARNING "Scroll feature extraction failed" (fun features => features).

Definition _extract_web_typing_features (keystroke_timing : pyval)
  : list (string * pyval) * log :=
  try_except []
    (if negb (truthy keystroke_timing) then get_local
     else
       hold_times <- eval (get_all_truthy keystroke_timing "hold_time" (PInt 0)) ;;
       flight_times <- eval (get_all_truthy keystroke_timing "next_key_delay" (PInt 0)) ;;
       (match hold_times with
        | [] => ret tt
        | _ => set_mean_std "avg_hold_time" "hold_time_std" (PList hold_times)
        end) ;;;
       (match flight_times with
        | [] => ret tt
        | _ => set_mean_std "avg_flight_time" "flight_time_std" (PList flight_times)
        end) ;;;
       get_local)%stmt
    WARNING "Web typing feature extraction failed" (fun features => features).

(** The fingerprint is assigned as a whole once every field is read: an
    exception leaves it empty. *)
Definition _create_browser_fingerprint (browser_info : pyval)
  : list (string * pyval) * log :=
  try_except []
    (if truthy browser_info then
       user_agent <- eval (py_get browser_info "userAgent" (PStr EmptyString)) ;;
       language <- eval (py_get browser_info "language" (PStr EmptyString)) ;;
       platform <- eval (py_get browser_info "platform" (PStr EmptyString)) ;;
       hardware_concurrency <- eval (py_get browser_info "hardwareConcurrency" (PStr EmptyString)) ;;
       device_memory <- eval (py_get browser_info "deviceMemory" (PStr EmptyString)) ;;
       screen_resolution <- eval (py_get browser_info "screen" (PDict [])) ;;
       timezone <- eval (py_get browser_info "timezone" (PStr EmptyString)) ;;
       canvas_fingerprint <- eval (py_get browser_info "canvas" (PStr EmptyString)) ;;
       webgl_fingerprint <- eval (py_get browser_info "webgl" (PStr EmptyString)) ;;
       set_local [("user_agent", user_agent);
                  ("language", language);
                  ("platform", platform);
                  ("hardware_concurrency", hardware_concurrency);
                  ("device_memory", device_memory);
                  ("screen_resolution", screen_resolution);
                  ("timezone", timezone);
                  ("canvas_fingerprint", canvas_fingerprint);
                  ("webgl_fingerprint", webgl_fingerprint)] ;;;
       get_local
     else get_local)%stmt
    WARNING "Browser fingerprint creation failed" (fun fingerprint => fingerprint).

(** [k in current_features and k in stored_patterns] *)
Definition in_both (k : string) (current_features : list (string * pyval))
    (stored_patterns : pyval) : res bool :=
  if has_key k current_features then py_in (PStr k) stored_patterns else Ok false.

(** One comparison of the web matchers: when the feature [k] is on both sides
    and the relative difference is at most [threshold], [gain] is added. *)
Definition compare_feature (k : string) (current_features : list (string * pyval))
    (stored_patterns : pyval) (threshold gain similarity : Q) : res Q :=
  (present <- in_both k current_features stored_patterns ;;
   if (present : bool) then
     current <- feature k current_features ;;
     stored <- py_item stored_patterns k ;;
     difference <- relative_difference stored current ;;
     le <- py_le_num difference threshold ;;
     Ok (if (le : bool) then similarity + gain else similarity)
   else Ok similarity)%res.

Definition _verify_mouse_patterns (current_movements stored_patterns : pyval) : Q * log :=
  try_except tt
    (current_features <- call (_extract_mouse_features current_movements) ;;
     let similarity := 0 in
     similarity <- eval (compare_feature "avg_mouse_speed" current_features stored_patterns
                           (3 # 10) (7 # 10) similarity) ;;
     ret (Qmin similarity 1))%stmt
    ERROR "Mouse pattern verification failed" (fun _ => 0).

Definition _verify_web_typing (current_typing stored_rhythm : pyval) : Q * log :=
  try_except tt
    (current_features <- call (_extract_web_typing_features current_typing) ;;
     let similarity := 0 in
     similarity <- eval (compare_feature "avg_hold_time" current_features stored_rhythm
                           (25 # 100) (5 # 10) similarity) ;;
     similarity <- eval (compare_feature "avg_flight_time" current_features stored_rhythm
                           (3 # 10) (5 # 10) similarity) ;;
     ret (Qmin similarity 1))%stmt
    ERROR "Web typing verification failed" (fun _ => 0).

Definition _verify_scroll_behavior (current_scroll stored_patterns : pyval) : Q * log :=
  try_except tt
    (current_features <- call (_extract_scroll_features current_scroll) ;;
     let similarity := 0 in
     similarity <- eval (compare_feature "avg_scroll_speed" current_features stored_patterns
                           (4 # 10) 1 similarity) ;;
     ret (Qmin similarity 1))%stmt
    ERROR "Scroll behavior verification failed" (fun _ => 0).

Definition _verify_browser_fingerprint (current_browser stored_fingerprint : pyval) : Q * log :=
  try_except tt
    (current_fingerprint <- call (_create_browser_fingerprint current_browser) ;;
     let matching_attributes := O in
     total_attributes <- eval (py_len stored_fingerprint) ;;
     if Nat.eqb total_attributes 0 then ret 0
     else
       items <- eval (py_items stored_fingerprint) ;;
       let matching_attributes :=
         fold_left (fun matching kv =>
                      let current_value :=
                        match lookup (fst kv) current_fingerprint with
                        | Some v => v
                        | None => PNone
                        end in
                      if py_eq current_value (snd kv) then S matching else matching)
                   items matching_attributes in
       ret (inject_Z (Z.of_nat matching_attributes) / inject_Z (Z.of_nat total_attributes)))%stmt
    ERROR "Browser fingerprint verification failed" (fun _ => 0).

Definition _detect_web_anomalies (current_data stored_profile : pyval) : list string * log :=
  try_except []
    (mouse_movements <- eval (py_get current_data "mouse_movements" (PList [])) ;;
     mouse_features <- call (_extract_mouse_features mouse_movements) ;;
     robotic <- (if has_key "mouse_speed_std" mouse_features
                 then sd <- eval (feature "mouse_speed_std" mouse_features) ;;
                      eval (py_lt_num sd (1 # 10))
                 else ret false) ;;
     (if (robotic : bool) then append_anomaly "robotic_mouse_movements" else ret tt) ;;;
     browser_info <- eval (py_get current_data "browser_info" (PDict [])) ;;
     browser_fingerprint <- eval (py_get stored_profile "browser_fingerprint" (PDict [])) ;;
     browser_confidence <- call (_verify_browser_fingerprint browser_info browser_fingerprint) ;;
     (if negb (Qle_bool (3 # 10) browser_confidence)
      then append_anomaly "browser_fingerprint_mismatch"
      else ret tt) ;;;
     get_local)%stmt
    WARNING "Web anomaly detection failed" (fun anomalies => anomalies).

(** The body of the [try] of [verify_web_behavior]. *)
Definition verify_web_behavior_body (current_data stored_profile : pyval)
  : stmt unit (bool * Q * Q) :=
  (let confidence_factors := [] in
   mouse <- eval (both_present current_data "mouse_movements" stored_profile "mouse_patterns") ;;
   confidence_factors <-
     (if (mouse : bool) then
        current <- eval (py_item current_data "mouse_movements") ;;
        stored <- eval (py_item stored_profile "mouse_patterns") ;;
        mouse_confidence <- call (_verify_mouse_patterns current stored) ;;
        ret (confidence_factors ++ [mouse_confidence * (4 # 10)])
      else ret confidence_factors) ;;
   typing <- eval (both_present current_data "keystroke_timing" stored_profile "typing_rhythm") ;;
   confidence_factors <-
     (if (typing : bool) then
        current <- eval (py_item current_data "keystroke_timing") ;;
        stored <- eval (py_item stored_profile "typing_rhythm") ;;
        typing_confidence <- call (_verify_web_typing current stored) ;;
        ret (confidence_factors ++ [typing_confidence * (3 # 10)])
      else ret confidence_factors) ;;
   scroll <- eval (both_present current_data "scroll_events" stored_profile "scroll_patterns") ;;
   confidence_factors <-
     (if (scroll : bool) then
        current <- eval (py_item current_data "scroll_events") ;;
        stored <- eval (py_item stored_profile "scroll_patterns") ;;
        scroll_confidence <- call (_verify_scroll_behavior current stored) ;;
        ret (confidence_factors ++ [scroll_confidence * (2 # 10)])
      else ret confidence_factors) ;;
   browser <- eval (get_truthy current_data "browser_info") ;;
   confidence_factors <-
     (if (browser : bool) then
        current <- eval (py_item current_data "browser_info") ;;
        stored <- eval (py_get stored_profile "browser_fingerprint" (PDict [])) ;;
        browser_confidence <- call (_verify_browser_fingerprint current stored) ;;
        ret (confidence_factors ++ [browser_confidence * (1 # 10)])
      else ret confidence_factors) ;;
   let overall_confidence :=
     match confidence_factors with [] => 0 | _ => fold_left Qplus confidence_factors 0 end in
   anomalies <- call (_detect_web_anomalies current_data stored_profile) ;;
   let risk_score := risk_of overall_confidence anomalies (15 # 100) in
   let is_match := Qle_bool (65 # 100) overall_confidence in
   ret (is_match, overall_confidence, risk_score))%stmt.

Definition verify_web_behavior (current_data stored_profile : pyval)
  : (bool * Q * Q) * log :=
  try_except tt (verify_web_behavior_body current_data stored_profile)
    ERROR "Web behavior verification failed" (fun _ => (false, 0, 1)).

(** ** [json.dumps(obj, sort_keys=True)] *)

Definition hex_digit (n : N) : ascii :=
  match n with
  | 0 => "0" | 1 => "1" | 2 => "2" | 3 => "3" | 4 => "4" | 5 => "5" | 6 => "6" | 7 => "7"
  | 8 => "8" | 9 => "9" | 10 => "a" | 11 => "b" | 12 => "c" | 13 => "d" | 14 => "e"
  | _ => "f"
  end%N%char.

Definition dquote : ascii := "034"%char.

(** A character as [json.dumps] writes it with [ensure_ascii]: printable
    ASCII stays, the rest is escaped.  A character of the model is a code
    point below 256. *)
Definition escape_char (a : ascii) : string :=
  let n := N_of_ascii a in
  if N.eqb n 34 then String "\" (String dquote EmptyString)
  else if N.eqb n 92 then "\\"
  else if N.eqb n 10 then "\n"
  else if N.eqb n 13 then "\r"
  else if N.eqb n 9 then "\t"
  else if N.eqb n 12 then "\f"
  else if N.eqb n 8 then "\b"
  else if N.leb 32 n && N.leb n 126 then String a EmptyString
  else String.append "\u00" (String (hex_digit (N.div n 16)) (String (hex_digit (N.modulo n 16)) EmptyString)).

Fixpoint escape (s : string) : string :=
  match s with
  | EmptyString => EmptyString
  | String a s' => String.append (escape_char a) (escape s')
  end.

Definition quote (s : string) : string :=
  String dquote (String.append (escape s) (String dquote EmptyString)).

Definition int_repr (z : Z) : string := NilZero.string_of_int (Z.to_int z).

(** [sorted(items)] on the items of a dict: by key. *)
Fixpoint insert_by_key {V} (kv : string * V) (l : list (string * V)) : list (string * V) :=
  match l with
  | [] => [kv]
  | kv' :: r => if String.leb (fst kv) (fst kv') then kv :: l else kv' :: insert_by_key kv r
  end.

Fixpoint sort_by_key {V} (l : list (string * V)) : list (string * V) :=
  match l with
  | [] => []
  | kv :: r => insert_by_key kv (sort_by_key r)
  end.

Definition join (sep : string) (l : list string) : string := String.concat sep l.

(** The items of a dict are written in key order; the value of an item is
    rendered before the items are sorted, which gives the same text as sorting
    first because the sort looks at keys only. *)
Fixpoint dumps (v : pyval) : string :=
  match v with
  | PNone => "null"
  | PBool true => "true"
  | PBool false => "false"
  | PInt z => int_repr z
  | PFloat q => float_repr q
  | PStr s => quote s
  | PList l =>
      String.append "[" (String.append (join ", " (map dumps l)) "]")
  | PDict d =>
      let rendered :=
        (fix go (d : list (string * pyval)) : list (string * string) :=
           match d with
           | [] => []
           | (k, x) :: r => (k, dumps x) :: go r
           end) d in
      String.append "{"
        (String.append
           (join ", " (map (fun kv => String.append (quote (fst kv)) (String.append ": " (snd kv)))
                           (sort_by_key rendered)))
           "}")
  end.

(** ** [hashlib.sha256(data).hexdigest()] (FIPS 180-4) *)

Definition w32 (x : N) : N := N.modulo x 4294967296.

Definition rotr (n x : N) : N := N.lor (N.shiftr x n) (w32 (N.shiftl x (32 - n))).

Definition add32 (x y : N) : N := w32 (x + y).

Definition Ch (x y z : N) : N := N.lxor (N.land x y) (N.land (N.lnot x 32) z).

Definition Maj (x y z : N) : N :=
  N.lxor (N.land x y) (N.lxor (N.land x z) (N.land y z)).

Definition Sigma0 (x : N) : N := N.lxor (rotr 2 x) (N.lxor (rotr 13 x) (rotr 22 x)).
Definition Sigma1 (x : N) : N := N.lxor (rotr 6 x) (N.lxor (rotr 11 x) (rotr 25 x)).
Definition sigma0 (x : N) : N := N.lxor (rotr 7 x) (N.lxor (rotr 18 x) (N.shiftr x 3)).
Definition sigma1 (x : N) : N := N.lxor (rotr 17 x) (N.lxor (rotr 19 x) (N.shiftr x 10)).

Definition sha256_K : list N :=
  [1116352408; 1899447441; 3049323471; 3921009573; 961987163; 1508970993;
   2453635748; 2870763221; 3624381080; 310598401; 607225278; 1426881987;
   1925078388; 2162078206; 2614888103; 3248222580; 3835390401; 4022224774;
   264347078; 604807628; 770255983; 1249150122; 1555081692; 1996064986;
   2554220882; 2821834349; 2952996808; 3210313671; 3336571891; 3584528711;
   113926993; 338241895; 666307205; 773529912; 1294757372; 1396182291;
   1695183700; 1986661051; 2177026350; 2456956037; 2730485921; 2820302411;
   3259730800; 3345764771; 3516065817; 3600352804; 4094571909; 275423344;
   430227734; 506948616; 659060556; 883997877; 958139571; 1322822218;
   1537002063; 1747873779; 1955562222; 2024104815; 2227730452; 2361852424;
   2428436474; 2756734187; 3204031479; 3329325298]%N.

(** The eight working words. *)
Record sha_state : Type :=
  { ha : N; hb : N; hc : N; hd : N; he : N; hf : N; hg : N; hh : N }.

Definition sha256_H0 : sha_state :=
  {| ha := 1779033703; hb := 3144134277; hc := 1013904242; hd := 2773480762;
     he := 1359893119; hf := 2600822924; hg := 528734635; hh := 1541459225 |}%N.

(** The message schedule, latest word first: [W_t] from the sixteen before. *)
Fixpoint extend_schedule (n : nat) (recent : list N) : list N :=
  match n with
  | O => recent
  | S n' =>
      let w := add32 (add32 (sigma1 (nth 1 recent 0%N)) (nth 6 recent 0%N))
                     (add32 (sigma0 (nth 14 recent 0%N)) (nth 15 recent 0%N)) in
      extend_schedule n' (w :: recent)
  end.

Definition sha_round (s : sha_state) (kw : N * N) : sha_state :=
  let t1 := add32 (add32 (add32 (hh s) (Sigma1 (he s))) (Ch (he s) (hf s) (hg s)))
                  (add32 (fst kw) (snd kw)) in
  let t2 := add32 (Sigma0 (ha s)) (Maj (ha s) (hb s) (hc s)) in
  {| ha := add32 t1 t2; hb := ha s; hc := hb s; hd := hc s;
     he := add32 (hd s) t1; hf := he s; hg := hf s; hh := hg s |}.

Fixpoint be_words (bytes : list N) : list N :=
  match bytes with
  | b0 :: b1 :: b2 :: b3 :: r =>
      (b0 * 16777216 + b1 * 65536 + b2 * 256 + b3)%N :: be_words r
  | _ => []
  end.

Definition sha_block (s : sha_state) (block : list N) : sha_state :=
  let w := rev (extend_schedule 48 (rev (be_words block))) in
  let s' := fold_left sha_round (combine sha256_K w) s in
  {| ha := add32 (ha s) (ha s'); hb := add32 (hb s) (hb s'); hc := add32 (hc s) (hc s');
     hd := add32 (hd s) (hd s'); he := add32 (he s) (he s'); hf := add32 (hf s) (hf s');
     hg := add32 (hg s) (hg s'); hh := add32 (hh s) (hh s') |}.

Fixpoint sha_blocks (n : nat) (s : sha_state) (bytes : list N) : sha_state :=
  match n with
  | O => s
  | S n' => sha_blocks n' (sha_block s (firstn 64 bytes)) (skipn 64 bytes)
  end.

Fixpoint be_bytes (n : nat) (x : N) : list N :=
  match n with
  | O => []
  | S n' => be_bytes n' (N.div x 256) ++ [N.modulo x 256]
  end.

(** The message, the byte 0x80, zeros up to 56 modulo 64, the bit length. *)
Definition sha_pad (bytes : list N) : list N :=
  let len := List.length bytes in
  let zeros := ((64 - ((len + 9) mod 64)) mod 64)%nat in
  bytes ++ [128%N] ++ repeat 0%N zeros ++ be_bytes 8 (N.of_nat (8 * len)).

Definition hex8 (w : N) : string :=
  String (hex_digit (N.modulo (N.shiftr w 28) 16))
 (String (hex_digit (N.modulo (N.shiftr w 24) 16))
 (String (hex_digit (N.modulo (N.shiftr w 20) 16))
 (String (hex_digit (N.modulo (N.shiftr w 16) 16))
 (String (hex_digit (N.modulo (N.shiftr w 12) 16))
 (String (hex_digit (N.modulo (N.shiftr w 8) 16))
 (String (hex_digit (N.modulo (N.shiftr w 4) 16))
 (String (hex_digit (N.modulo w 16)) EmptyString))))))).

(** [s.encode()]: the text hashed is ASCII, one byte per character. *)
Definition encode (s : string) : list N := map N_of_ascii (list_ascii_of_string s).

Definition sha256_hexdigest (data : list N) : string :=
  let padded := sha_pad data in
  let s := sha_blocks (List.length padded / 64) sha256_H0 padded in
  String.append (hex8 (ha s)) (String.append (hex8 (hb s)) (String.append (hex8 (hc s))
 (String.append (hex8 (hd s)) (String.append (hex8 (he s)) (String.append (hex8 (hf s))
 (String.append (hex8 (hg s)) (hex8 (hh s)))))))).

(** ** The signature builders *)

(** The body of the [try] of [create_biometric_signature]. *)
Definition create_biometric_signature_body (biometric_data : pyval) : stmt unit string :=
  (typing_pattern <- eval (py_get biometric_data "typing_pattern" (PDict [])) ;;
   typing_rhythm <- call (_extract_typing_features typing_pattern) ;;
   touch <- eval (py_get biometric_data "touch_patterns" (PDict [])) ;;
   touch_patterns <- call (_extract_touch_features touch) ;;
   device_characteristics <- eval (py_get biometric_data "device_characteristics" (PDict [])) ;;
   device_id <- eval (py_get device_characteristics "device_id" (PStr EmptyString)) ;;
   let signature_data :=
     PDict [("typing_rhythm", PDict typing_rhythm);
            ("touch_patterns", PDict touch_patterns);
            ("device_id", device_id)] in
   let signature_string := dumps signature_data in
   let signature_hash := sha256_hexdigest (encode signature_string) in
   ret signature_hash)%stmt.

Definition create_biometric_signature (biometric_data : pyval) : string * log :=
  try_except tt (create_biometric_signature_body biometric_data)
    ERROR "Failed to create biometric signature" (fun _ => EmptyString).

(** The body of the [try] of [create_web_behavioral_signature]. *)
Definition create_web_behavioral_signature_body (web_data : pyval) : stmt unit string :=
  (mouse_movements <- eval (py_get web_data "mouse_movements" (PList [])) ;;
   mouse_patterns <- call (_extract_mouse_features mouse_movements) ;;
   scroll_events <- eval (py_get web_data "scroll_events" (PList [])) ;;
   scroll_patterns <- call (_extract_scroll_features scroll_events) ;;
   keystroke_timing <- eval (py_get web_data "keystroke_timing" (PList [])) ;;
   typing_rhythm <- call (_extract_web_typing_features keystroke_timing) ;;
   browser_info <- eval (py_get web_data "browser_info" (PDict [])) ;;
   browser_fingerprint <- call (_create_browser_fingerprint browser_info) ;;
   let signature_data :=
     PDict [("mouse_patterns", PDict mouse_patterns);
            ("scroll_patterns", PDict scroll_patterns);
            ("typing_rhythm", PDict typing_rhythm);
            ("browser_fingerprint", PDict browser_fingerprint)] in
   let signature_string := dumps signature_data in
   ret (sha256_hexdigest (encode signature_string)))%stmt.

Definition create_web_behavioral_signature (web_data : pyval) : string * log :=
  try_except tt (create_web_behavioral_signature_body web_data)
    ERROR "Failed to create web behavioral signature" (fun _ => EmptyString).

(** ** views.py - the decision mapping *)

Record verification_result : Type :=
  { is_verified : bool;
    confidence_score : Q;
    risk_score : Q;
    status : string;
    message : string;
    requires_challenge : bool;
    challenge_type : option string }.

(** [CrossPlatformVerificationView._prepare_verification_result] *)
Definition _prepare_verification_result (is_match : bool) (confidence risk_score : Q)
  : verification_result :=
  let '(status_str, message) :=
    if is_match && Qle_bool (7 # 10) confidence
    then ("success", "Biometric verification successful")
    else if Qle_bool (5 # 10) confidence
    then ("suspicious", "Verification suspicious - additional authentication required")
    else ("failed", "Biometric verification failed") in
  {| is_verified := is_match && Qle_bool (7 # 10) confidence;
     confidence_score := confidence;
     risk_score := risk_score;
     status := status_str;
     message := message;
     requires_challenge := String.eqb status_str "suspicious";
     challenge_type := if String.eqb status_str "suspicious" then Some "otp" else None |}.

(** The result [BiometricVerificationView.post] prepares from what
    [verify_behavioral_match] returned. *)
Definition BiometricVerificationView_result (is_match : bool) (confidence risk_score : Q)
  : verification_result :=
  let '(status_str, message) :=
    if is_match && Qle_bool (7 # 10) confidence
    then ("success", "Biometric verification successful")
    else if Qle_bool (5 # 10) confidence
    then ("suspicious",
          "Biometric verification suspicious - additional authentication required")
    else ("failed", "Biometric verification failed") in
  {| is_verified := is_match && Qle_bool (7 # 10) confidence;
     confidence_score := confidence;
     risk_score := risk_score;
     status := status_str;
     message := message;
     requires_challenge := String.eqb status_str "suspicious";
     challenge_type := if String.eqb status_str "suspicious" then Some "otp" else None |}.

(** [CrossPlatformVerificationView._verify_mobile_behavior] and
    [_verify_web_behavior], on the sample and the sub-profile of the request. *)
Definition _verify_mobile_behavior (biometric_sample mobile_profile : pyval)
  : verification_result :=
  let '(is_match, confidence, risk_score) :=
    fst (verify_behavioral_match biometric_sample mobile_profile) in
  _prepare_verification_result is_match confidence risk_score.

Definition _verify_web_behavior (biometric_sample web_profile : pyval)
  : verification_result :=
  let '(is_match, confidence, risk_score) :=
    fst (verify_web_behavior biometric_sample web_profile) in
  _prepare_verification_result is_match confidence risk_score.

(** ** Same content, whatever the insertion order

    [canon v] is [v] with the items of every dict, at any depth, in key order.
    Two values have the same content when their canonical forms are equal: they
    differ at most in the order their dicts were filled. *)

Fixpoint canon (v : pyval) : pyval :=
  match v with
  | PList l => PList (map canon l)
  | PDict d =>
      PDict (sort_by_key
               ((fix go (d : list (string * pyval)) : list (string * pyval) :=
                   match d with
                   | [] => []
                   | (k, x) :: r => (k, canon x) :: go r
                   end) d))
  | _ => v
  end.

Definition same_content (a b : pyval) : Prop := canon a = canon b.

(** ** The claims that the code does not meet, as they are stated *)

(** C1 as stated, mobile: on dicts, whenever an exception was raised during
    the verification (a handler logged it), the result is the fail-closed
    triple. *)
Definition fail_closed_on_any_exception_mobile : Prop :=
  forall current_data stored_profile,
    isinstance_dict current_data = true ->
    isinstance_dict stored_profile = true ->
    snd (verify_behavioral_match current_data stored_profile) <> [] ->
    let '(is_match, confidence, risk) :=
      fst (verify_behavioral_match current_data stored_profile) in
    is_match = false /\ confidence == 0 /\ risk == 1.

(** C1 as stated, web. *)
Definition fail_closed_on_any_exception_web : Prop :=
  forall current_data stored_profile,
    isinstance_dict current_data = true ->
    isinstance_dict stored_profile = true ->
    snd (verify_web_behavior current_data stored_profile) <> [] ->
    let '(is_match, confidence, risk) :=
      fst (verify_web_behavior current_data stored_profile) in
    is_match = false /\ confidence == 0 /\ risk == 1.

(** The second half of C3 as stated: an exception during extraction gives
    the empty string. *)
Definition empty_signature_on_any_exception : Prop :=
  forall biometric_data,
    isinstance_dict biometric_data = true ->
    snd (create_biometric_signature biometric_data) <> [] ->
    fst (create_biometric_signature biometric_data) = EmptyString.

(** ** Vocabulary of the statements *)

(** [hoare I m Q]: run from locals satisfying [I], the block [m] leaves locals
    satisfying [I], also when it raises, and a value it returns satisfies [Q]. *)
Definition hoare {S A} (I : S -> Prop) (m : stmt S A) (Q : A -> Prop) : Prop :=
  forall s, I s ->
    match m s with
    | (s', _, r) => I s' /\ match r with Ok a => Q a | Raise _ => True end
    end.

(** The block returns a value, whatever the locals it starts from. *)
Definition no_raise {S A} (m : stmt S A) : Prop :=
  forall s, exists s' l a, m s = (s', l, Ok a).

(** [d.get(k, default)] on the items of a dict. *)
Definition get_or (d : list (string * pyval)) (k : string) (default : pyval) : pyval :=
  match lookup k d with Some x => x | None => default end.

(** What the body of [verify_behavioral_match] returns when it returns. *)
Definition mobile_post (current_data stored_profile : pyval) (result : bool * Q * Q) : Prop :=
  let '(is_match, confidence, risk) := result in
  0 <= confidence <= 85 # 100 /\
  risk = risk_of confidence (fst (_detect_anomalies current_data stored_profile)) (2 # 10) /\
  is_match = Qle_bool (7 # 10) confidence.

(** [clamp(x, lo, hi)] of the specification. *)
Definition clamp (x lo hi : Q) : Q := Qmax lo (Qmin hi x).

(** What the body of [verify_web_behavior] returns when it returns. *)
Definition web_post (current_data stored_profile : pyval) (result : bool * Q * Q) : Prop :=
  let '(is_match, confidence, risk) := result in
  0 <= confidence <= 88 # 100 /\
  risk = risk_of confidence (fst (_detect_web_anomalies current_data stored_profile)) (15 # 100) /\
  is_match = Qle_bool (65 # 100) confidence.

(** The value is a number. *)
Definition numeric (v : pyval) : Prop := exists q, as_num v = Some q.

(** [item.get(key)] of an item that is a dict. *)
Definition field (key : string) (item : pyval) : pyval :=
  match item with
  | PDict d => get_or d key PNone
  | _ => PNone
  end.

(** [event.get('speed')] *)
Definition speed_of : pyval -> pyval := field "speed".

(** [x in l], as Python decides it. *)
Definition mem (x : pyval) (l : list pyval) : bool := existsb (py_eq x) l.

(** [if device_id not in trusted_devices: trusted_devices.add(device_id)] *)
Definition add_one (trusted_devices : list pyval) (device_id : pyval) : list pyval :=
  if mem device_id trusted_devices then trusted_devices else trusted_devices ++ [device_id].

(** The device ids a batch brings: of each sample that has device
    characteristics, the device id if it has one. *)
Definition batch_device_ids (samples : list pyval) : list pyval :=
  filter truthy (map (field "device_id")
                     (filter truthy (map (field "device_characteristics") samples))).

(** The batch is a list of dicts whose device characteristics, where present,
    are dicts with a hashable device id. *)
Definition well_formed_batch (samples : list pyval) : bool :=
  forallb isinstance_dict samples &&
  forallb isinstance_dict (filter truthy (map (field "device_characteristics") samples)) &&
  forallb hashable (batch_device_ids samples).

(** No two elements of the list are equal for Python: the list holds every
    element once. *)
Fixpoint distinct (l : list pyval) : bool :=
  match l with
  | [] => true
  | x :: r => negb (mem x r) && distinct r
  end.

(** [profile['trusted_devices']], empty when the key is missing. *)
Definition trusted (profile : pyval) : list pyval :=
  match profile with
  | PDict d => match lookup "trusted_devices" d with Some (PList l) => l | _ => [] end
  | _ => []
  end.

(** [profile['samples_collected']] *)
Definition samples_collected (profile : pyval) : option Z :=
  match profile with
  | PDict d => match lookup "samples_collected" d with Some (PInt n) => Some n | _ => None end
  | _ => None
  end.

(** The profile is a dict with an integer sample count and, if any, a list of
    hashable trusted devices. *)
Definition well_formed_profile (profile : pyval) : bool :=
  match profile with
  | PDict d =>
      match lookup "samples_collected" d with Some (PInt _) => true | _ => false end &&
      match lookup "trusted_devices" d with
      | None => true
      | Some (PList l) => forallb hashable l
      | Some _ => false
      end
  | _ => false
  end.

(** What [update_biometric_profile] returns on a well-formed profile and
    batch. *)
Definition updated_profile (profile : pyval) (samples : list pyval) : pyval :=
  match profile, samples with
  | PDict d, _ :: _ =>
      let d1 :=
        match filter truthy (map (field "device_characteristics") samples) with
        | [] => d
        | _ => dict_set "trusted_devices"
                 (PList (set_order (fold_left add_one (batch_device_ids samples)
                                              (dedup (trusted profile))))) d
        end in
      match samples_collected profile with
      | Some n =>
          PDict (dict_set "samples_collected" (PInt (n + Z.of_nat (List.length samples))) d1)
      | None => profile
      end
  | _, _ => profile
  end.

(** The items of a dict, each value in canonical form. *)
Definition canon_items (d : list (string * pyval)) : list (string * pyval) :=
  map (fun kv => (fst kv, canon (snd kv))) d.

(** The keys of the items do not decrease. *)
Inductive key_sorted {V} : list (string * V) -> Prop :=
| key_sorted_nil : key_sorted []
| key_sorted_one kv : key_sorted [kv]
| key_sorted_cons kv kv' r :
    String.leb (fst kv) (fst kv') = true -> key_sorted (kv' :: r) ->
    key_sorted (kv :: kv' :: r).

(** A function applied to the value of a result. *)
Definition res_map {A B} (f : A -> B) (r : res A) : res B :=
  match r with Ok a => Ok (f a) | Raise e => Raise e end.

(** One turn of the comprehension [[item.get(key, default) ... if item.get(key)]]. *)
Definition pick (key : string) (default : pyval) (item : pyval) : res (option pyval) :=
  (c <- py_get item key PNone ;;
   if truthy c
   then (v <- py_get item key default ;; Ok (Some v))
   else Ok None)%res.

(** The fingerprint of a non-empty dict: its nine fields. *)
Definition fingerprint_of (d : list (string * pyval)) : list (string * pyval) :=
  [("user_agent", get_or d "userAgent" (PStr EmptyString));
   ("language", get_or d "language" (PStr EmptyString));
   ("platform", get_or d "platform" (PStr EmptyString));
   ("hardware_concurrency", get_or d "hardwareConcurrency" (PStr EmptyString));
   ("device_memory", get_or d "deviceMemory" (PStr EmptyString));
   ("screen_resolution", get_or d "screen" (PDict []));
   ("timezone", get_or d "timezone" (PStr EmptyString));
   ("canvas_fingerprint", get_or d "canvas" (PStr EmptyString));
   ("webgl_fingerprint", get_or d "webgl" (PStr EmptyString))].

(** ** models.py - [BehavioralBiometrics.calculate_confidence]

    The arguments are the three JSON fields of the record.  The method stores
    the score in [confidence_score] and returns it; it has no handler, so what
    a [.get] raises reaches the caller. *)
Definition calculate_confidence
    (typing_pattern touch_patterns device_characteristics : pyval) : res Q :=
  (let factors := [] in
   typing <- get_truthy typing_pattern "key_hold_times" ;;
   let factors := if (typing : bool) then factors ++ [4 # 10] else factors in
   swipe <- get_truthy touch_patterns "swipe_speeds" ;;
   touch <- (if (swipe : bool) then Ok true
             else get_truthy touch_patterns "touch_pressures") ;;
   let factors := if (touch : bool) then factors ++ [3 # 10] else factors in
   device <- get_truthy device_characteristics "device_id" ;;
   let factors := if (device : bool) then factors ++ [3 # 10] else factors in
   Ok (match factors with
       | [] => 0
       | _ => fold_left Qplus factors 0 / inject_Z (Z.of_nat (List.length factors))
       end))%res.

(** ** serializers.py - a computed field and a request validator *)

(** [CrossPlatformProfileSerializer.get_profile_completeness] on the three
    sub-profiles of the row. *)
Definition get_profile_completeness (mobile_profile web_profile desktop_profile : pyval) : Z :=
  let completeness := 0%Z in
  let completeness := if truthy mobile_profile then (completeness + 33)%Z else completeness in
  let completeness := if truthy web_profile then (completeness + 33)%Z else completeness in
  let completeness := if truthy desktop_profile then (completeness + 34)%Z else completeness in
  Z.min completeness 100.

(** What a [validate] method does with the attributes: it returns them or
    raises [ValidationError] with a message. *)
Inductive validation : Type :=
| Valid (attrs : list (string * pyval))
| ValidationError (detail : string).

(** [BiometricDataCollectionSerializer.validate] *)
Definition BiometricDataCollectionSerializer_validate (attrs : list (string * pyval))
  : validation :=
  let has_typing_data :=
    truthy (get_or attrs "key_hold_times" PNone) || truthy (get_or attrs "flight_times" PNone) in
  let has_touch_data :=
    truthy (get_or attrs "swipe_data" PNone) || truthy (get_or attrs "touch_data" PNone) in
  if negb (has_typing_data || has_touch_data)
  then ValidationError
         "At least one type of biometric data (typing or touch) must be provided"
  else Valid attrs.

(** ** views.py - what the collection views compute

    The views talk to the database and build HTTP responses; embedded here is
    what they compute from the request: the sample they assemble, the
    signature and the confidence they store with it, the profile they derive,
    the client address. *)

(** [x_forwarded_for.split(',')[0]]: the text before the first comma, all of
    it when there is none. *)
Fixpoint before_comma (s : string) : string :=
  match s with
  | EmptyString => EmptyString
  | String c r => if Ascii.eqb c "," then EmptyString else String c (before_comma r)
  end.

(** [_get_client_ip], the same text in [BiometricDataCollectionView], in
    [CrossPlatformVerificationView] and at module level, on [request.META]. *)
Definition _get_client_ip (META : pyval) : res pyval :=
  (x_forwarded_for <- py_get META "HTTP_X_FORWARDED_FOR" PNone ;;
   if truthy x_forwarded_for then
     match x_forwarded_for with
     | PStr s => Ok (PStr (before_comma s))
     | _ => Raise AttributeError
     end
   else py_get META "REMOTE_ADDR" PNone)%res.

(** [[item.get(key, default) for item in coll]] *)
Definition get_all (coll : pyval) (key : string) (default : pyval) : res (list pyval) :=
  (items <- py_iter coll ;;
   rmap (fun item => py_get item key default) items)%res.

(** [biometric_data] of [BiometricDataCollectionView.post], assembled from
    [serializer.validated_data]. *)
Definition BiometricDataCollectionView_biometric_data (validated_data : pyval) : res pyval :=
  (key_hold_times <- py_get validated_data "key_hold_times" (PList []) ;;
   flight_times <- py_get validated_data "flight_times" (PList []) ;;
   swipe_data <- py_get validated_data "swipe_data" (PList []) ;;
   swipe_speeds <- get_all swipe_data "speed" (PInt 0) ;;
   touch_data <- py_get validated_data "touch_data" (PList []) ;;
   touch_pressures <- get_all touch_data "pressure" (PInt 0) ;;
   device_info <- py_get validated_data "device_info" (PDict []) ;;
   device_id <- py_get device_info "device_id" (PStr EmptyString) ;;
   device_info <- py_get validated_data "device_info" (PDict []) ;;
   os <- py_get device_info "os" (PStr EmptyString) ;;
   device_info <- py_get validated_data "device_info" (PDict []) ;;
   screen_size <- py_get device_info "screen_size" (PStr EmptyString) ;;
   sensors <- py_get validated_data "sensor_data" (PList []) ;;
   Ok (PDict [("typing_pattern",
               PDict [("key_hold_times", key_hold_times);
                      ("flight_times", flight_times)]);
              ("touch_patterns",
               PDict [("swipe_speeds", PList swipe_speeds);
                      ("touch_pressures", PList touch_pressures)]);
              ("device_characteristics",
               PDict [("device_id", device_id);
                      ("os", os);
                      ("screen_size", screen_size);
                      ("sensors", sensors)])]))%res.

(** The record [BiometricDataCollectionView.post] saves for a valid request,
    as far as the analyzer and the model decide it: the sample, the signature
    [create_biometric_signature] gives it and the confidence
    [calculate_confidence] computes from the three fields of the record.  An
    exception reaches the handler of the view, which answers 500. *)
Definition BiometricDataCollectionView_record (validated_data : pyval)
  : stmt unit (pyval * string * Q) :=
  (biometric_data <- eval (BiometricDataCollectionView_biometric_data validated_data) ;;
   biometric_signature <- call (create_biometric_signature biometric_data) ;;
   typing_pattern <- eval (py_item biometric_data "typing_pattern") ;;
   touch_patterns <- eval (py_item biometric_data "touch_patterns") ;;
   device_characteristics <- eval (py_item biometric_data "device_characteristics") ;;
   confidence <- eval (calculate_confidence typing_pattern touch_patterns
                         device_characteristics) ;;
   ret (biometric_data, biometric_signature, confidence))%stmt.

(** [web_features] of [WebDataCollectionView._update_cross_platform_profile]:
    the four feature sets in the order the dict display evaluates them. *)
Definition web_features (web_data : pyval) : stmt unit pyval :=
  (mouse_movements <- eval (py_get web_data "mouse_movements" (PList [])) ;;
   mouse_patterns <- call (_extract_mouse_features mouse_movements) ;;
   keystroke_timing <- eval (py_get web_data "keystroke_timing" (PList [])) ;;
   typing_rhythm <- call (_extract_web_typing_features keystroke_timing) ;;
   scroll_events <- eval (py_get web_data "scroll_events" (PList [])) ;;
   scroll_patterns <- call (_extract_scroll_features scroll_events) ;;
   browser_info <- eval (py_get web_data "browser_info" (PDict [])) ;;
   browser_fingerprint <- call (_create_browser_fingerprint browser_info) ;;
   ret (PDict [("mouse_patterns", PDict mouse_patterns);
               ("typing_rhythm", PDict typing_rhythm);
               ("scroll_patterns", PDict scroll_patterns);
               ("browser_fingerprint", PDict browser_fingerprint)]))%stmt.

(** The two fields of a [CrossPlatformProfile] row that the update writes. *)
Record CrossPlatformProfile : Type :=
  { web_profile : pyval;
    preferred_platforms : pyval }.

(** [l.append(x)] *)
Definition py_append (l x : pyval) : res pyval :=
  match l with
  | PList items => Ok (PList (items ++ [x]))
  | _ => Raise AttributeError
  end.

(** A block with locals of its own run inside a block: its log and its result
    are kept, the locals of the enclosing block are not touched. *)
Definition nested {S A} (m : stmt unit A) : stmt S A :=
  fun s => let '(_, l, r) := m tt in (s, l, r).

(** [WebDataCollectionView._update_cross_platform_profile] on the row
    [get_or_create] returned.  The local of the block is the row as the
    database holds it: [profile.save()] is the last statement, so an
    exception before it leaves the stored row as it was. *)
Definition _update_cross_platform_profile (profile : CrossPlatformProfile)
    (web_data : pyval) (platform : string) : CrossPlatformProfile * log :=
  try_except profile
    (features <- nested (web_features web_data) ;;
     known <- eval (py_in (PStr platform) (preferred_platforms profile)) ;;
     platforms <- (if (known : bool) then ret (preferred_platforms profile)
                   else eval (py_append (preferred_platforms profile) (PStr platform))) ;;
     set_local {| web_profile := features; preferred_platforms := platforms |} ;;;
     get_local)%stmt
    ERROR "Cross-platform profile update failed" (fun saved => saved).

(** [anomaly_detected=risk_score > 0.7], as both verification views write it
    to the verification log. *)
Definition anomaly_detected (risk : Q) : bool := negb (Qle_bool risk (7 # 10)).

(** ** Samples and profiles of the scenarios *)

(** A profile as [BiometricProfileSerializer] gives it: the hold-time baseline
    is [typical_hold_times] (character to average hold time), here 150 for
    every key; [avg_typing_speed] (characters per minute) has its default. *)
Definition profile_hold_150 : pyval :=
  PDict [("id", PInt 1); ("user", PInt 1); ("user_email", PStr "user@example.com");
         ("avg_typing_speed", PFloat 0);
         ("typical_hold_times", PDict [("a", PInt 150); ("e", PInt 150)]);
         ("typical_flight_times", PDict []);
         ("avg_swipe_speed", PFloat 0); ("typical_touch_pressure", PFloat 0);
         ("common_gestures", PList []); ("trusted_devices", PList []);
         ("typical_locations", PList []); ("master_biometric_hash", PStr EmptyString);
         ("profile_confidence", PFloat 0); ("samples_collected", PInt 12);
         ("profile_strength", PStr "medium")].

(** A sample with the typing channel only; the hold times average 175. *)
Definition sample_hold_175 : pyval :=
  PDict [("typing_pattern",
          PDict [("key_hold_times",
                  PList [PDict [("key", PStr "a"); ("hold_time", PInt 170)];
                         PDict [("key", PStr "e"); ("hold_time", PInt 180)]])])].

(** The same profile with 150 stored in [avg_typing_speed], the field
    [_verify_typing_pattern] reads. *)
Definition profile_speed_150 : pyval :=
  PDict [("avg_typing_speed", PFloat 150);
         ("typical_hold_times", PDict [("a", PInt 150); ("e", PInt 150)]);
         ("trusted_devices", PList []); ("samples_collected", PInt 12)].

(** A mobile sample whose hold times are not numbers, sent from a trusted
    device, and the profile that trusts it. *)
Definition sample_malformed_hold_times : pyval :=
  PDict [("typing_pattern", PDict [("key_hold_times", PList [PStr "fast"])]);
         ("device_characteristics", PDict [("device_id", PStr "d1")])].

Definition profile_trusting_d1 : pyval :=
  PDict [("avg_typing_speed", PFloat 150);
         ("typical_hold_times", PDict [("a", PInt 150)]);
         ("trusted_devices", PList [PStr "d1"])].

(** A web sample whose hold time is not a number, from the browser of the
    profile. *)
Definition web_sample_malformed_hold_time : pyval :=
  PDict [("keystroke_timing", PList [PDict [("key", PStr "a"); ("hold_time", PStr "slow")]]);
         ("browser_info", PDict [("userAgent", PStr "UA")])].

Definition web_profile_ua : pyval :=
  PDict [("typing_rhythm", PDict [("avg_hold_time", PInt 100)]);
         ("browser_fingerprint", PDict [("user_agent", PStr "UA")])].

(** A mobile sample close to its profile on typing and touch, sent from a
    device that is not trusted but runs the usual system: confidence 0.75,
    one anomaly, risk 0.25 + 0.2. *)
Definition sample_unfamiliar_device : pyval :=
  PDict [("typing_pattern", PDict [("key_hold_times", PList [PInt 110])]);
         ("touch_patterns", PDict [("swipe_speeds", PList [PFloat (5 # 2)]);
                                   ("touch_pressures", PList [PFloat (8 # 10)])]);
         ("device_characteristics", PDict [("device_id", PStr "dev-9"); ("os", PStr "android")])].

Definition profile_typing_100 : pyval :=
  PDict [("avg_typing_speed", PFloat 100);
         ("typical_hold_times", PDict [("a", PInt 100)]);
         ("avg_swipe_speed", PFloat (5 # 2)); ("typical_touch_pressure", PFloat (8 # 10));
         ("trusted_devices", PList [PStr "dev-1"]);
         ("device_characteristics", PDict [("typical_os", PStr "android")]);
         ("samples_collected", PInt 20)].

(** A web sample with one mouse event and a profile without fingerprint. *)
Definition web_sample_one_event : pyval :=
  PDict [("mouse_movements",
          PList [PDict [("x", PInt 100); ("y", PInt 200); ("speed", PFloat (5 # 2))]])].

Definition web_profile_new : pyval :=
  PDict [("mouse_patterns", PDict [("avg_mouse_speed", PFloat (5 # 2))]);
         ("browser_fingerprint", PDict [])].

(** A batch of two samples, one with a new device, applied twice. *)
Definition profile_one_device : pyval :=
  PDict [("samples_collected", PInt 3); ("trusted_devices", PList [PStr "dev-1"])].

Definition batch_two_samples : list pyval :=
  [PDict [("device_characteristics", PDict [("device_id", PStr "dev-2")])];
   PDict [("typing_pattern", PDict [("key_hold_times", PList [PInt 150])]);
          ("device_characteristics", PDict [("device_id", PStr "dev-1")])]].

(** The same mobile sample, its dicts filled in two orders. *)
Definition sample_in_order : pyval :=
  PDict [("typing_pattern",
          PDict [("key_hold_times", PList [PDict [("key", PStr "a"); ("hold_time", PInt 150)];
                                           PDict [("key", PStr "b"); ("hold_time", PInt 200)]]);
                 ("flight_times", PList [PFloat (5 # 2); PFloat (7 # 2)])]);
         ("touch_patterns", PDict [("swipe_speeds", PList [PInt 3; PInt 5])]);
         ("device_characteristics",
          PDict [("device_id", PDict [("vendor", PStr "acme"); ("serial", PInt 7)]);
                 ("os", PStr "android")])].

Definition sample_reordered : pyval :=
  PDict [("device_characteristics",
          PDict [("os", PStr "android");
                 ("device_id", PDict [("serial", PInt 7); ("vendor", PStr "acme")])]);
         ("touch_patterns", PDict [("swipe_speeds", PList [PInt 3; PInt 5])]);
         ("typing_pattern",
          PDict [("flight_times", PList [PFloat (5 # 2); PFloat (7 # 2)]);
                 ("key_hold_times", PList [PDict [("hold_time", PInt 150); ("key", PStr "a")];
                                           PDict [("hold_time", PInt 200); ("key", PStr "b")]])])].

(** ** Vocabulary of the further properties *)

(** What a channel appends to [confidence_factors]: its weighted score when
    its guard holds, nothing otherwise. *)
Definition channel (present : bool) (score weight : Q) : list Q :=
  if present then [score * weight] else [].

(** [sum(confidence_factors) if confidence_factors else 0.0] *)
Definition overall (confidence_factors : list Q) : Q :=
  match confidence_factors with [] => 0 | _ => fold_left Qplus confidence_factors 0 end.

(** A present channel of the mobile analyzer was scored by [verifier] on the
    value the sample holds under [key]. *)
Definition scored_by (verifier : pyval -> pyval -> Q * log)
    (current_data : pyval) (key : string) (stored : pyval)
    (present : bool) (score : Q) : Prop :=
  present = true ->
  exists v, py_item current_data key = Ok v /\ score = fst (verifier v stored).

(** A present channel of the web analyzer was scored by [verifier] on the
    value of the sample under [key] and the value of the profile under
    [stored_key]. *)
Definition scored_on (verifier : pyval -> pyval -> Q * log)
    (current_data : pyval) (key : string) (stored_profile : pyval) (stored_key : string)
    (present : bool) (score : Q) : Prop :=
  present = true ->
  exists v w, py_item current_data key = Ok v /\
              py_item stored_profile stored_key = Ok w /\
              score = fst (verifier v w).

(** What the body of [verify_behavioral_match] returns, channel by channel. *)
Definition mobile_run (current_data stored_profile : pyval) (result : bool * Q * Q) : Prop :=
  exists typing touch device t u v,
    both_present current_data "typing_pattern" stored_profile "typical_hold_times" = Ok typing /\
    both_present current_data "touch_patterns" stored_profile "avg_swipe_speed" = Ok touch /\
    get_truthy current_data "device_characteristics" = Ok device /\
    scored_by _verify_typing_pattern current_data "typing_pattern" stored_profile typing t /\
    scored_by _verify_touch_patterns current_data "touch_patterns" stored_profile touch u /\
    scored_by _verify_device current_data "device_characteristics" stored_profile device v /\
    let confidence :=
      overall (channel typing t (5 # 10) ++ channel touch u (3 # 10) ++ channel device v (2 # 10)) in
    result = (Qle_bool (7 # 10) confidence, confidence,
              risk_of confidence (fst (_detect_anomalies current_data stored_profile)) (2 # 10)).

(** What the body of [verify_web_behavior] returns, channel by channel. *)
Definition web_run (current_data stored_profile : pyval) (result : bool * Q * Q) : Prop :=
  exists mouse typing scroll browser m t s b,
    both_present current_data "mouse_movements" stored_profile "mouse_patterns" = Ok mouse /\
    both_present current_data "keystroke_timing" stored_profile "typing_rhythm" = Ok typing /\
    both_present current_data "scroll_events" stored_profile "scroll_patterns" = Ok scroll /\
    get_truthy current_data "browser_info" = Ok browser /\
    scored_on _verify_mouse_patterns current_data "mouse_movements"
              stored_profile "mouse_patterns" mouse m /\
    scored_on _verify_web_typing current_data "keystroke_timing"
              stored_profile "typing_rhythm" typing t /\
    scored_on _verify_scroll_behavior current_data "scroll_events"
              stored_profile "scroll_patterns" scroll s /\
    (browser = true ->
     exists v w, py_item current_data "browser_info" = Ok v /\
                 py_get stored_profile "browser_fingerprint" (PDict []) = Ok w /\
                 b = fst (_verify_browser_fingerprint v w)) /\
    let confidence :=
      overall (channel mouse m (4 # 10) ++ channel typing t (3 # 10) ++
               channel scroll s (2 # 10) ++ channel browser b (1 # 10)) in
    result = (Qle_bool (65 # 100) confidence, confidence,
              risk_of confidence (fst (_detect_web_anomalies current_data stored_profile))
                      (15 # 100)).

(** A lower-case hexadecimal digit, and a text made of such digits. *)
Definition is_hex_digit (a : ascii) : bool :=
  let n := N_of_ascii a in
  (N.leb 48 n && N.leb n 57) || (N.leb 97 n && N.leb n 102).

Definition hexadecimal (s : string) : bool :=
  forallb is_hex_digit (list_ascii_of_string s).

(** [item.get(key, default)] of an item that is a dict. *)
Definition field_or (key : string) (default : pyval) (item : pyval) : pyval :=
  match item with
  | PDict d => get_or d key default
  | _ => default
  end.


(** The web profile [_update_cross_platform_profile] derives from a sample. *)
Definition enrolled_web_profile (web_data : list (string * pyval)) : list (string * pyval) :=
  [("mouse_patterns",
    PDict (fst (_extract_mouse_features (get_or web_data "mouse_movements" (PList [])))));
   ("typing_rhythm",
    PDict (fst (_extract_web_typing_features (get_or web_data "keystroke_timing" (PList [])))));
   ("scroll_patterns",
    PDict (fst (_extract_scroll_features (get_or web_data "scroll_events" (PList [])))));
   ("browser_fingerprint",
    PDict (fst (_create_browser_fingerprint (get_or web_data "browser_info" (PDict [])))))].


(** [trusted_devices] of the profile, if any, is a list of hashable ids. *)
Definition well_formed_trusted (d : list (string * pyval)) : bool :=
  match lookup "trusted_devices" d with
  | None => true
  | Some (PList l) => forallb hashable l
  | Some _ => false
  end.

(** The features are among [keys] and, apart from the preferred direction,
    numbers. *)
Definition features_among (keys : list string) (features : list (string * pyval)) : Prop :=
  forall k v, lookup k features = Some v ->
              In k keys /\ (k <> "preferred_direction" -> numeric v).

(** A standard deviation is there only with its average. *)
Definition with_average (avg std : string) (features : list (string * pyval)) : Prop :=
  has_key std features = true -> has_key avg features = true.

(** ** Further samples *)

(** A [BiometricProfile] row with the defaults of the model, as the
    serializer gives it. *)
Definition profile_defaults : list (string * pyval) :=
  [("avg_typing_speed", PFloat 0); ("typical_hold_times", PDict []);
   ("typical_flight_times", PDict []);
   ("avg_swipe_speed", PFloat 0); ("typical_touch_pressure", PFloat 0);
   ("common_gestures", PList []); ("trusted_devices", PList []);
   ("typical_locations", PList []); ("master_biometric_hash", PStr EmptyString);
   ("profile_confidence", PFloat 0); ("samples_collected", PInt 0)].

(** A [CrossPlatformProfile] row with the defaults of the model. *)
Definition row_defaults : CrossPlatformProfile :=
  {| web_profile := PDict []; preferred_platforms := PList [] |}.

(** A web sample with every kind of data the analyzer reads. *)
Definition scroll_three_events : list pyval :=
  [PDict [("speed", PInt 30); ("direction", PStr "down")];
   PDict [("speed", PInt 50); ("direction", PStr "up")];
   PDict [("speed", PInt 40); ("direction", PStr "down")]].

Definition web_data_full : list (string * pyval) :=
  [("mouse_movements",
    PList [PDict [("x", PInt 0); ("y", PInt 0); ("speed", PFloat (5 # 2))];
           PDict [("x", PInt 3); ("y", PInt 4); ("speed", PFloat (7 # 2))]]);
   ("scroll_events", PList scroll_three_events);
   ("keystroke_timing",
    PList [PDict [("key", PStr "a"); ("hold_time", PInt 100); ("next_key_delay", PInt 50)];
           PDict [("key", PStr "b"); ("hold_time", PInt 120); ("next_key_delay", PInt 70)]]);
   ("form_interactions", PList []);
   ("page_events", PList []);
   ("browser_info", PDict [("userAgent", PStr "UA"); ("language", PStr "en")]);
   ("screen_info", PDict [])].

(** The same sample with a form interaction, and without scroll events. *)
Definition web_data_with_form : list (string * pyval) :=
  [("mouse_movements",
    PList [PDict [("x", PInt 0); ("y", PInt 0); ("speed", PFloat (5 # 2))];
           PDict [("x", PInt 3); ("y", PInt 4); ("speed", PFloat (7 # 2))]]);
   ("scroll_events", PList scroll_three_events);
   ("keystroke_timing",
    PList [PDict [("key", PStr "a"); ("hold_time", PInt 100); ("next_key_delay", PInt 50)];
           PDict [("key", PStr "b"); ("hold_time", PInt 120); ("next_key_delay", PInt 70)]]);
   ("form_interactions", PList [PDict [("field", PStr "amount")]]);
   ("page_events", PList []);
   ("browser_info", PDict [("userAgent", PStr "UA"); ("language", PStr "en")]);
   ("screen_info", PDict [])].

Definition web_data_no_scroll : list (string * pyval) :=
  [("mouse_movements",
    PList [PDict [("x", PInt 0); ("y", PInt 0); ("speed", PFloat (5 # 2))];
           PDict [("x", PInt 3); ("y", PInt 4); ("speed", PFloat (7 # 2))]]);
   ("keystroke_timing",
    PList [PDict [("key", PStr "a"); ("hold_time", PInt 100); ("next_key_delay", PInt 50)];
           PDict [("key", PStr "b"); ("hold_time", PInt 120); ("next_key_delay", PInt 70)]]);
   ("browser_info", PDict [("userAgent", PStr "UA"); ("language", PStr "en")])].

(** What a mobile client posts: one key, one swipe, the device. *)
Definition validated_mobile_request : list (string * pyval) :=
  [("key_hold_times", PList [PDict [("key", PStr "a"); ("hold_time", PInt 150)]]);
   ("flight_times", PList []);
   ("swipe_data", PList [PDict [("speed", PFloat (5 # 2)); ("direction", PStr "left")]]);
   ("touch_data", PList []);
   ("device_info", PDict [("device_id", PStr "dev-1"); ("os", PStr "android")]);
   ("sensor_data", PList [])].

(** A profile that was never counted. *)
Definition profile_without_count : list (string * pyval) :=
  [("trusted_devices", PList [PStr "dev-1"])].

(** The request went through two proxies. *)
Definition META_forwarded : list (string * pyval) :=
  [("HTTP_X_FORWARDED_FOR", PStr "203.0.113.7, 10.0.0.1");
   ("REMOTE_ADDR", PStr "10.0.0.1")].

(** Hold times that are not numbers with good flight times, and the other
    way round. *)
Definition typing_bad_hold_times : list (string * pyval) :=
  [("key_hold_times", PList [PStr "fast"]); ("flight_times", PList [PInt 50; PInt 70])].

Definition typing_bad_flight_times : list (string * pyval) :=
  [("key_hold_times", PList [PInt 100; PInt 120]); ("flight_times", PList [PStr "slow"])].

(** Hold times whose average is a number but whose standard deviation, about
    [1.4e309], does not fit a float. *)
Definition typing_huge_hold_times : list (string * pyval) :=
  [("key_hold_times", PList [PInt 2; PInt (2 * 10 ^ 309 + 2)]);
   ("flight_times", PList [PInt 50; PInt 70])].

(* ================================================================== *)
(** * Part II - properties                                             *)
(* ================================================================== *)

(** ** Reasoning about blocks *)

Lemma hoare_ret {S A} (I : S -> Prop) (a : A) (Q : A -> Prop) :
  Q a -> hoare I (ret a) Q.
Proof. intros H s Hs. simpl. auto. Qed.

Lemma hoare_eval {S A} (I : S -> Prop) (r : res A) (Q : A -> Prop) :
  (forall a, r = Ok a -> Q a) -> hoare I (eval r) Q.
Proof. intros H s Hs. unfold eval. destruct r; auto. Qed.

Lemma hoare_call {S A} (I : S -> Prop) (c : A * log) (Q : A -> Prop) :
  Q (fst c) -> hoare I (call c) Q.
Proof. intros H s Hs. simpl. auto. Qed.

Lemma hoare_get_local {S} (I : S -> Prop) (Q : S -> Prop) :
  (forall s, I s -> Q s) -> hoare I get_local Q.
Proof. intros H s Hs. simpl. auto. Qed.

Lemma hoare_set_local {S} (I : S -> Prop) (s' : S) (Q : unit -> Prop) :
  I s' -> Q tt -> hoare I (set_local s') Q.
Proof. intros H HQ s Hs. simpl. auto. Qed.

Lemma hoare_bind {S A B} (I : S -> Prop) (m : stmt S A) (f : A -> stmt S B)
    (P : A -> Prop) (Q : B -> Prop) :
  hoare I m P -> (forall a, P a -> hoare I (f a) Q) -> hoare I (bind m f) Q.
Proof.
  intros Hm Hf s Hs. unfold bind.
  specialize (Hm s Hs). destruct (m s) as [[s1 l1] [a | e]].
  - destruct Hm as [Hs1 Ha]. specialize (Hf a Ha s1 Hs1).
    destruct (f a s1) as [[s2 l2] r]. exact Hf.
  - tauto.
Qed.

Lemma hoare_weaken {S A} (I : S -> Prop) (m : stmt S A) (P Q : A -> Prop) :
  hoare I m P -> (forall a, P a -> Q a) -> hoare I m Q.
Proof.
  intros Hm HPQ s Hs. specialize (Hm s Hs).
  destruct (m s) as [[s1 l1] [a | e]]; intuition.
Qed.

Lemma hoare_if {S A} (I : S -> Prop) (b : bool) (m1 m2 : stmt S A) (Q : A -> Prop) :
  (b = true -> hoare I m1 Q) -> (b = false -> hoare I m2 Q) ->
  hoare I (if b then m1 else m2) Q.
Proof. destruct b; auto. Qed.

Lemma hoare_set_feature (I : list (string * pyval) -> Prop) k v (Q : unit -> Prop) :
  (forall s, I s -> I (dict_set k v s)) -> Q tt -> hoare I (set_feature k v) Q.
Proof. intros H HQ s Hs. simpl. auto. Qed.

Lemma hoare_append_anomaly (I : list string -> Prop) tag (Q : unit -> Prop) :
  (forall s, I s -> I (s ++ [tag])) -> Q tt -> hoare I (append_anomaly tag) Q.
Proof. intros H HQ s Hs. simpl. auto. Qed.

(** What a [try ... except] returns satisfies [Q] when the values of the body
    do and the handler's value does. *)
Lemma try_except_value {S A} (I : S -> Prop) (s0 : S) (body : stmt S A) lv text
    (handler : S -> A) (Q : A -> Prop) :
  I s0 -> hoare I body Q -> (forall s, I s -> Q (handler s)) ->
  Q (fst (try_except s0 body lv text handler)).
Proof.
  intros H0 Hb Hh. unfold try_except. specialize (Hb s0 H0).
  destruct (body s0) as [[s1 l1] [a | e]]; simpl; intuition.
Qed.

Lemma try_except_log_raise {S A} (s0 : S) (body : stmt S A) lv text (handler : S -> A) s l e :
  body s0 = (s, l, Raise e) ->
  try_except s0 body lv text handler = (handler s, l ++ [{| lvl := lv; msg := text; cause := e |}]).
Proof. intros H. unfold try_except. rewrite H. reflexivity. Qed.

Lemma try_except_log_ok {S A} (s0 : S) (body : stmt S A) lv text (handler : S -> A) s l a :
  body s0 = (s, l, Ok a) ->
  try_except s0 body lv text handler = (a, l).
Proof. intros H. unfold try_except. rewrite H. reflexivity. Qed.

Ltac hoare_step :=
  first
    [ apply hoare_ret
    | eapply hoare_bind; [ | intros ]
    | apply hoare_call
    | apply hoare_eval; intros
    | apply hoare_if; intros ].

(** ** The decision mapping (views.py) *)

Lemma Qle_bool_false_iff (x y : Q) : Qle_bool x y = false <-> ~ x <= y.
Proof.
  rewrite <- Qle_bool_iff. destruct (Qle_bool x y); split; intros; try congruence; tauto.
Qed.

(** C4.  Decision mapping of both views: a match with confidence at least 0.70
    is [success], verified, no challenge; otherwise confidence at least 0.50
    is [suspicious], not verified, challenged by [otp]; otherwise [failed],
    not verified, no challenge. *)
Theorem decision_mapping (is_match : bool) (confidence risk : Q) :
  forall r,
    r = _prepare_verification_result is_match confidence risk \/
    r = BiometricVerificationView_result is_match confidence risk ->
    (is_match = true /\ 7 # 10 <= confidence ->
       status r = "success" /\ is_verified r = true /\ requires_challenge r = false) /\
    (~ (is_match = true /\ 7 # 10 <= confidence) -> 5 # 10 <= confidence ->
       status r = "suspicious" /\ is_verified r = false /\
       requires_challenge r = true /\ challenge_type r = Some "otp") /\
    (~ (is_match = true /\ 7 # 10 <= confidence) -> ~ 5 # 10 <= confidence ->
       status r = "failed" /\ is_verified r = false /\ requires_challenge r = false).
Proof.
  clear. intros r Hr.
  assert (Hs : is_match && Qle_bool (7 # 10) confidence = true <->
               (is_match = true /\ 7 # 10 <= confidence)).
  { rewrite andb_true_iff, Qle_bool_iff. tauto. }
  destruct (is_match && Qle_bool (7 # 10) confidence) eqn:E1;
    destruct (Qle_bool (5 # 10) confidence) eqn:E2;
    (destruct Hr as [-> | ->];
     unfold _prepare_verification_result, BiometricVerificationView_result;
     rewrite E1; try rewrite E2; simpl;
     repeat split; intros;
     try (exfalso; tauto);
     try reflexivity;
     try (apply Qle_bool_iff in E2; tauto);
     try (apply Qle_bool_false_iff in E2; tauto);
     try (destruct Hs as [Hs1 Hs2]; assert (false = true) by tauto; discriminate)).
Qed.

(** ** Exceptions and where they are caught *)

Lemma no_raise_ret {S A} (a : A) : no_raise (@ret S A a).
Proof. intros s. simpl. unfold ret. eauto. Qed.

Lemma no_raise_call {S A} (c : A * log) : no_raise (@call S A c).
Proof. intros s. unfold call. eauto. Qed.

Lemma no_raise_bind {S A B} (m : stmt S A) (f : A -> stmt S B) :
  no_raise m -> (forall a, no_raise (f a)) -> no_raise (bind m f).
Proof.
  intros Hm Hf s. unfold bind.
  destruct (Hm s) as (s1 & l1 & a & ->).
  destruct (Hf a s1) as (s2 & l2 & b & ->). eauto.
Qed.

Lemma no_raise_eval_bind {S A B} (r : res A) (a : A) (f : A -> stmt S B) :
  r = Ok a -> no_raise (f a) -> no_raise (bind (eval r) f).
Proof.
  intros -> Hf s. unfold bind, eval.
  destruct (Hf s) as (s2 & l2 & b & ->). eauto.
Qed.

Lemma get_truthy_dict d k : get_truthy (PDict d) k = Ok (truthy (get_or d k PNone)).
Proof. reflexivity. Qed.

Lemma both_present_dict d1 ck d2 sk :
  both_present (PDict d1) ck (PDict d2) sk =
  Ok (truthy (get_or d1 ck PNone) && truthy (get_or d2 sk PNone)).
Proof.
  unfold both_present. simpl. fold (get_or d1 ck PNone).
  destruct (truthy (get_or d1 ck PNone)); reflexivity.
Qed.

Lemma py_item_truthy d k :
  truthy (get_or d k PNone) = true -> py_item (PDict d) k = Ok (get_or d k PNone).
Proof.
  unfold get_or, py_item. destruct (lookup k d); [reflexivity | discriminate].
Qed.

(** A channel of [verify_*] on dicts: the guard evaluates, and under it the
    subscripts find their keys. *)
Lemma no_raise_channel {B} d1 ck d2 sk (f : bool -> stmt unit B) :
  (truthy (get_or d1 ck PNone) = true -> truthy (get_or d2 sk PNone) = true ->
   no_raise (f true)) ->
  no_raise (f false) ->
  no_raise (bind (eval (both_present (PDict d1) ck (PDict d2) sk)) f).
Proof.
  intros Ht Hf. eapply no_raise_eval_bind; [apply both_present_dict |].
  destruct (truthy (get_or d1 ck PNone)) eqn:E; simpl; auto.
  destruct (truthy (get_or d2 sk PNone)); auto.
Qed.

Lemma no_raise_guard {B} d k (f : bool -> stmt unit B) :
  (truthy (get_or d k PNone) = true -> no_raise (f true)) ->
  no_raise (f false) ->
  no_raise (bind (eval (get_truthy (PDict d) k)) f).
Proof.
  intros Ht Hf. eapply no_raise_eval_bind; [apply get_truthy_dict |].
  destruct (truthy (get_or d k PNone)); auto.
Qed.

Ltac no_raise_tac :=
  repeat first
    [ apply no_raise_ret
    | apply no_raise_call
    | apply no_raise_channel; intros
    | apply no_raise_guard; intros
    | eapply no_raise_eval_bind; [apply py_item_truthy; assumption |]
    | eapply no_raise_eval_bind; [reflexivity |]
    | apply no_raise_bind; intros ].

(** On dicts no exception reaches the handler of [verify_behavioral_match] or
    of [verify_web_behavior]: the helpers they call catch their own. *)
Lemma verify_behavioral_match_body_no_raise d1 d2 :
  no_raise (verify_behavioral_match_body (PDict d1) (PDict d2)).
Proof. unfold verify_behavioral_match_body. no_raise_tac. Qed.

Lemma verify_web_behavior_body_no_raise d1 d2 :
  no_raise (verify_web_behavior_body (PDict d1) (PDict d2)).
Proof. unfold verify_web_behavior_body. no_raise_tac. Qed.

(** C1 (amended).  An exception that reaches the handler of
    [verify_behavioral_match] or of [verify_web_behavior] gives the
    fail-closed triple [(False, 0.0, 1.0)] and one logged error; on a dict
    sample and a dict profile no exception reaches it, because every helper
    catches what it raises. *)
Theorem fail_closed_at_the_boundary (current_data stored_profile : pyval) :
  (forall s l e,
      verify_behavioral_match_body current_data stored_profile tt = (s, l, Raise e) ->
      verify_behavioral_match current_data stored_profile =
      ((false, 0, 1),
       l ++ [{| lvl := ERROR; msg := "Behavioral verification failed"; cause := e |}])) /\
  (forall s l e,
      verify_web_behavior_body current_data stored_profile tt = (s, l, Raise e) ->
      verify_web_behavior current_data stored_profile =
      ((false, 0, 1),
       l ++ [{| lvl := ERROR; msg := "Web behavior verification failed"; cause := e |}])) /\
  (isinstance_dict current_data = true -> isinstance_dict stored_profile = true ->
   no_raise (verify_behavioral_match_body current_data stored_profile) /\
   no_raise (verify_web_behavior_body current_data stored_profile)).
Proof.
  split; [| split].
  - intros s l e H. unfold verify_behavioral_match.
    erewrite try_except_log_raise by exact H. reflexivity.
  - intros s l e H. unfold verify_web_behavior.
    erewrite try_except_log_raise by exact H. reflexivity.
  - intros H1 H2.
    destruct current_data; try discriminate. destruct stored_profile; try discriminate.
    split.
    + apply verify_behavioral_match_body_no_raise.
    + apply verify_web_behavior_body_no_raise.
Qed.

(** ** The threshold scenario (mobile) *)

(** On a sample with two hold times the standard deviation is computed and
    may overflow; the typing score and the tags are the same either way, and
    the scenario goes on from them. *)
Ltac typing_scenario score tags :=
  cbv -[_verify_typing_pattern _detect_anomalies];
  match goal with
  | |- context [_verify_typing_pattern ?current_typing ?stored_profile] =>
      let Hscore := fresh "Hscore" in
      assert (Hscore : exists l,
                 _verify_typing_pattern current_typing stored_profile = (score, l))
        by (vm_compute; destruct (float_sqrt (50 # 1)); eexists; reflexivity);
      destruct Hscore as [? ->]
  end;
  match goal with
  | |- context [_detect_anomalies ?current_data ?stored_profile] =>
      let Htags := fresh "Htags" in
      assert (Htags : exists l, _detect_anomalies current_data stored_profile = (tags, l))
        by (vm_compute; destruct (float_sqrt (50 # 1)); eexists; reflexivity);
      destruct Htags as [? ->]
  end.

(** C6.  On the profile whose stored hold times are 150 and the sample whose
    hold times average 175, [verify_behavioral_match] returns confidence 0 and
    risk 1, not confidence 0.35: the typing matcher compares the sample with
    [avg_typing_speed], not with the stored hold times. *)
Theorem threshold_scenario_on_hold_time_baseline :
  let '(is_match, confidence, risk) :=
    fst (verify_behavioral_match sample_hold_175 profile_hold_150) in
  is_match = false /\ confidence == 0 /\ risk == 1 /\ ~ confidence == 35 # 100.
Proof.
  typing_scenario (0 : Q) (@nil string).
  vm_compute. repeat split; intro H; discriminate H.
Qed.

(** With 150 in [avg_typing_speed] the scenario gives what it says: relative
    difference 25/150, typing score 0.7, confidence 0.35. *)
Lemma threshold_scenario_on_typing_speed :
  relative_difference (PFloat 150) (PInt 175) = Ok (PFloat (1 # 6)) /\
  fst (_verify_typing_pattern
         (PDict [("key_hold_times", PList [PInt 175])]) profile_speed_150) == 7 # 10 /\
  let '(is_match, confidence, risk) :=
    fst (verify_behavioral_match sample_hold_175 profile_speed_150) in
  is_match = false /\ confidence == 35 # 100 /\ risk == 65 # 100.
Proof.
  split; [reflexivity |]. split; [reflexivity |].
  typing_scenario (7 # 10) (@nil string).
  vm_compute. repeat split.
Qed.

(** ** Bounds of the channel scores *)

Lemma hoare_any {S A} (m : stmt S A) : hoare (fun _ => True) m (fun _ => True).
Proof. intros s _. destruct (m s) as [[s1 l1] [a | e]]; auto. Qed.

Lemma try_except_cases {S A} (s0 : S) (body : stmt S A) lv text (handler : S -> A) :
  (exists s l a, body s0 = (s, l, Ok a) /\
                 try_except s0 body lv text handler = (a, l)) \/
  (exists s l e, body s0 = (s, l, Raise e) /\
                 try_except s0 body lv text handler =
                 (handler s, l ++ [{| lvl := lv; msg := text; cause := e |}])).
Proof.
  unfold try_except. destruct (body s0) as [[s l] [a | e]]; [left | right]; eauto.
Qed.

Tactic Notation "skip_bind" ident(x) :=
  apply hoare_bind with (P := fun _ => True); [apply hoare_any | intros x _].

Ltac name_minmax f a b spec :=
  let m := fresh "m" in
  let H := fresh "Hm" in
  pose proof (spec a b) as H;
  set (m := f a b) in *; clearbody m;
  destruct H as [[? ?] | [? ?]].

Ltac qminmax :=
  repeat match goal with
         | |- context [Qmin ?a ?b] => name_minmax Qmin a b Q.min_spec
         | |- context [Qmax ?a ?b] => name_minmax Qmax a b Q.max_spec
         | _ : context [Qmin ?a ?b] |- _ => name_minmax Qmin a b Q.min_spec
         | _ : context [Qmax ?a ?b] |- _ => name_minmax Qmax a b Q.max_spec
         end.

Lemma _verify_typing_pattern_range current_typing stored_profile :
  0 <= fst (_verify_typing_pattern current_typing stored_profile) <= 7 # 10.
Proof.
  unfold _verify_typing_pattern.
  apply try_except_value with (I := fun _ => True); [exact I | | intros; lra].
  skip_bind features. skip_bind present.
  apply hoare_bind with (P := fun s => 0 <= s <= 7 # 10).
  - destruct present; [| apply hoare_ret; lra].
    skip_bind stored. skip_bind current. skip_bind difference. skip_bind le02.
    destruct le02; [apply hoare_ret; lra |].
    skip_bind le04. destruct le04; apply hoare_ret; lra.
  - intros s Hs. apply hoare_ret. qminmax; lra.
Qed.

Lemma _verify_touch_patterns_range current_touch stored_profile :
  0 <= fst (_verify_touch_patterns current_touch stored_profile) <= 1.
Proof.
  unfold _verify_touch_patterns.
  apply try_except_value with (I := fun _ => True); [exact I | | intros; lra].
  skip_bind features. skip_bind present.
  apply hoare_bind with (P := fun s => 0 <= s <= 5 # 10).
  - destruct present; [| apply hoare_ret; lra].
    skip_bind stored. skip_bind current. skip_bind difference. skip_bind le03.
    destruct le03; apply hoare_ret; lra.
  - intros s Hs. skip_bind present2.
    apply hoare_bind with (P := fun s => 0 <= s <= 1).
    + destruct present2; [| apply hoare_ret; lra].
      skip_bind stored. skip_bind current. skip_bind difference. skip_bind le025.
      destruct le025; apply hoare_ret; lra.
    + intros s' Hs'. apply hoare_ret. qminmax; lra.
Qed.

Lemma _verify_device_range current_device stored_profile :
  0 <= fst (_verify_device current_device stored_profile) <= 1.
Proof.
  unfold _verify_device.
  apply try_except_value with (I := fun _ => True); [exact I | | intros; lra].
  skip_bind device_id. skip_bind trusted. skip_bind exact.
  destruct exact; [apply hoare_ret; lra |].
  skip_bind current_os. skip_bind stored_chars. skip_bind stored_os.
  apply hoare_ret.
  destruct (truthy current_os && truthy stored_os && py_eq current_os stored_os); lra.
Qed.

Lemma fold_left_Qplus_app (l : list Q) (x : Q) :
  fold_left Qplus (l ++ [x]) 0 = fold_left Qplus l 0 + x.
Proof. rewrite fold_left_app. reflexivity. Qed.

(** [sum(confidence_factors) if confidence_factors else 0.0] is the sum in
    both cases. *)
Lemma overall_confidence_sum (l : list Q) :
  match l with [] => 0 | _ => fold_left Qplus l 0 end = fold_left Qplus l 0.
Proof. destruct l; reflexivity. Qed.

Lemma verify_behavioral_match_body_post current_data stored_profile :
  hoare (fun _ => True) (verify_behavioral_match_body current_data stored_profile)
        (mobile_post current_data stored_profile).
Proof.
  unfold verify_behavioral_match_body. cbv zeta.
  skip_bind typing.
  apply hoare_bind with (P := fun cf => 0 <= fold_left Qplus cf 0 <= 35 # 100).
  { destruct typing; [| apply hoare_ret; simpl; lra].
    skip_bind current_typing.
    apply hoare_bind with (P := fun t => 0 <= t <= 7 # 10);
      [apply hoare_call, _verify_typing_pattern_range | intros t Ht].
    apply hoare_ret. simpl. lra. }
  intros cf1 H1. skip_bind touch.
  apply hoare_bind with (P := fun cf => 0 <= fold_left Qplus cf 0 <= 65 # 100).
  { destruct touch; [| apply hoare_ret; lra].
    skip_bind current_touch.
    apply hoare_bind with (P := fun t => 0 <= t <= 1);
      [apply hoare_call, _verify_touch_patterns_range | intros t Ht].
    apply hoare_ret. rewrite fold_left_Qplus_app. lra. }
  intros cf2 H2. skip_bind device.
  apply hoare_bind with (P := fun cf => 0 <= fold_left Qplus cf 0 <= 85 # 100).
  { destruct device; [| apply hoare_ret; lra].
    skip_bind current_device.
    apply hoare_bind with (P := fun t => 0 <= t <= 1);
      [apply hoare_call, _verify_device_range | intros t Ht].
    apply hoare_ret. rewrite fold_left_Qplus_app. lra. }
  intros cf3 H3.
  apply hoare_bind with
    (P := fun a => a = fst (_detect_anomalies current_data stored_profile));
    [apply hoare_call; reflexivity | intros anomalies ->].
  apply hoare_ret. unfold mobile_post. rewrite overall_confidence_sum. auto.
Qed.

(** The result of [verify_behavioral_match]: what the body returned, or the
    triple of the handler. *)
Lemma verify_behavioral_match_cases current_data stored_profile :
  (mobile_post current_data stored_profile
     (fst (verify_behavioral_match current_data stored_profile)) /\
   exists s, verify_behavioral_match_body current_data stored_profile tt =
             (s, snd (verify_behavioral_match current_data stored_profile),
              Ok (fst (verify_behavioral_match current_data stored_profile)))) \/
  (fst (verify_behavioral_match current_data stored_profile) = (false, 0, 1) /\
   snd (verify_behavioral_match current_data stored_profile) <> []).
Proof.
  unfold verify_behavioral_match.
  destruct (try_except_cases tt (verify_behavioral_match_body current_data stored_profile)
              ERROR "Behavioral verification failed" (fun _ => (false, 0, 1)))
    as [(s & l & a & Hb & ->) | (s & l & e & Hb & ->)].
  - left. simpl. split; [| eauto].
    pose proof (verify_behavioral_match_body_post current_data stored_profile tt I) as H.
    rewrite Hb in H. apply H.
  - right. simpl. split; [reflexivity |]. destruct l; discriminate.
Qed.

(** ** Risk *)

Lemma inject_Z_of_nat_nonneg (n : nat) : 0 <= inject_Z (Z.of_nat n).
Proof. change 0 with (inject_Z 0). rewrite <- Zle_Qle. lia. Qed.

Lemma risk_of_range (c p : Q) (anomalies : list string) :
  0 <= c <= 1 -> 0 <= p -> 0 <= risk_of c anomalies p <= 1.
Proof.
  intros Hc Hp. unfold risk_of.
  pose proof (inject_Z_of_nat_nonneg (List.length anomalies)) as Hn.
  assert (0 <= inject_Z (Z.of_nat (List.length anomalies)) * p) by (apply Qmult_le_0_compat; assumption).
  destruct anomalies; qminmax; lra.
Qed.

Lemma risk_of_clamp (c p : Q) (anomalies : list string) :
  0 <= c <= 1 -> 0 <= p ->
  risk_of c anomalies p ==
  clamp (1 - c + p * inject_Z (Z.of_nat (List.length anomalies))) 0 1.
Proof.
  intros Hc Hp. unfold risk_of, clamp.
  pose proof (inject_Z_of_nat_nonneg (List.length anomalies)) as Hn.
  assert (0 <= inject_Z (Z.of_nat (List.length anomalies)) * p) by (apply Qmult_le_0_compat; assumption).
  destruct anomalies as [| a r].
  - simpl List.length in *. change (inject_Z (Z.of_nat 0)) with 0 in *.
    qminmax; lra.
  - rewrite (Qmult_comm p).
    set (np := inject_Z (Z.of_nat (List.length (a :: r))) * p) in *.
    qminmax; lra.
Qed.

(** ** Bounds of the web channel scores *)

Lemma compare_feature_range k features stored threshold gain similarity lo hi v :
  0 <= gain ->
  lo <= similarity <= hi ->
  compare_feature k features stored threshold gain similarity = Ok v ->
  lo <= v <= hi + gain.
Proof.
  intros Hg Hs. unfold compare_feature, rbind.
  destruct (in_both k features stored) as [[|] |]; try discriminate.
  - destruct (feature k features); try discriminate.
    destruct (py_item stored k); try discriminate.
    destruct (relative_difference a0 a); try discriminate.
    destruct (py_le_num a1 threshold) as [[|] |]; try discriminate;
      intros [= <-]; lra.
  - intros [= <-]. lra.
Qed.

Lemma _verify_mouse_patterns_range current stored :
  0 <= fst (_verify_mouse_patterns current stored) <= 7 # 10.
Proof.
  unfold _verify_mouse_patterns.
  apply try_except_value with (I := fun _ => True); [exact I | | intros; lra].
  skip_bind features.
  apply hoare_bind with (P := fun s => 0 <= s <= 7 # 10).
  - apply hoare_eval. intros v Hv.
    apply compare_feature_range with (lo := 0) (hi := 0) in Hv; lra.
  - intros s Hs. apply hoare_ret. qminmax; lra.
Qed.

Lemma _verify_web_typing_range current stored :
  0 <= fst (_verify_web_typing current stored) <= 1.
Proof.
  unfold _verify_web_typing.
  apply try_except_value with (I := fun _ => True); [exact I | | intros; lra].
  skip_bind features.
  apply hoare_bind with (P := fun s => 0 <= s <= 5 # 10).
  - apply hoare_eval. intros v Hv.
    apply compare_feature_range with (lo := 0) (hi := 0) in Hv; lra.
  - intros s Hs.
    apply hoare_bind with (P := fun s => 0 <= s <= 1).
    + apply hoare_eval. intros v Hv.
      apply compare_feature_range with (lo := 0) (hi := 5 # 10) in Hv; lra.
    + intros s' Hs'. apply hoare_ret. qminmax; lra.
Qed.

Lemma _verify_scroll_behavior_range current stored :
  0 <= fst (_verify_scroll_behavior current stored) <= 1.
Proof.
  unfold _verify_scroll_behavior.
  apply try_except_value with (I := fun _ => True); [exact I | | intros; lra].
  skip_bind features.
  apply hoare_bind with (P := fun s => 0 <= s <= 1).
  - apply hoare_eval. intros v Hv.
    apply compare_feature_range with (lo := 0) (hi := 0) in Hv; lra.
  - intros s Hs. apply hoare_ret. qminmax; lra.
Qed.

(** The attributes counted as matching are at most those looked at. *)
Lemma matching_attributes_le (fingerprint : list (string * pyval)) items n :
  (fold_left (fun matching (kv : string * pyval) =>
                if py_eq (match lookup (fst kv) fingerprint with
                          | Some v => v
                          | None => PNone
                          end) (snd kv)
                then S matching else matching) items n
   <= n + List.length items)%nat.
Proof.
  revert n. induction items as [| kv r IH]; intros n; simpl.
  - lia.
  - match goal with |- context [if ?c then _ else _] => destruct c end.
    + specialize (IH (S n)). lia.
    + specialize (IH n). lia.
Qed.

Lemma ratio_range (m t : nat) :
  (m <= t)%nat -> t <> O ->
  0 <= inject_Z (Z.of_nat m) / inject_Z (Z.of_nat t) <= 1.
Proof.
  intros Hle Ht.
  assert (Hpos : 0 < inject_Z (Z.of_nat t)).
  { change 0 with (inject_Z 0). rewrite <- Zlt_Qlt. lia. }
  split.
  - apply Qle_shift_div_l; [assumption |]. rewrite Qmult_0_l.
    apply inject_Z_of_nat_nonneg.
  - apply Qle_shift_div_r; [assumption |]. rewrite Qmult_1_l.
    rewrite <- Zle_Qle. lia.
Qed.

Lemma _verify_browser_fingerprint_range current stored :
  0 <= fst (_verify_browser_fingerprint current stored) <= 1.
Proof.
  unfold _verify_browser_fingerprint.
  apply try_except_value with (I := fun _ => True); [exact I | | intros; lra].
  skip_bind fingerprint.
  apply hoare_bind with (P := fun t => py_len stored = Ok t);
    [apply hoare_eval; auto | intros total Ht].
  destruct (Nat.eqb total 0) eqn:E; [apply hoare_ret; lra |].
  apply hoare_bind with (P := fun items => py_items stored = Ok items);
    [apply hoare_eval; auto | intros items Hi].
  apply hoare_ret.
  destruct stored; try discriminate. injection Ht as <-. injection Hi as <-.
  apply ratio_range.
  - apply (matching_attributes_le fingerprint d 0).
  - apply Nat.eqb_neq in E. exact E.
Qed.

Lemma verify_web_behavior_body_post current_data stored_profile :
  hoare (fun _ => True) (verify_web_behavior_body current_data stored_profile)
        (web_post current_data stored_profile).
Proof.
  unfold verify_web_behavior_body. cbv zeta.
  skip_bind mouse.
  apply hoare_bind with (P := fun cf => 0 <= fold_left Qplus cf 0 <= 28 # 100).
  { destruct mouse; [| apply hoare_ret; simpl; lra].
    skip_bind current. skip_bind stored.
    apply hoare_bind with (P := fun t => 0 <= t <= 7 # 10);
      [apply hoare_call, _verify_mouse_patterns_range | intros t Ht].
    apply hoare_ret. simpl. lra. }
  intros cf1 H1. skip_bind typing.
  apply hoare_bind with (P := fun cf => 0 <= fold_left Qplus cf 0 <= 58 # 100).
  { destruct typing; [| apply hoare_ret; lra].
    skip_bind current. skip_bind stored.
    apply hoare_bind with (P := fun t => 0 <= t <= 1);
      [apply hoare_call, _verify_web_typing_range | intros t Ht].
    apply hoare_ret. rewrite fold_left_Qplus_app. lra. }
  intros cf2 H2. skip_bind scroll.
  apply hoare_bind with (P := fun cf => 0 <= fold_left Qplus cf 0 <= 78 # 100).
  { destruct scroll; [| apply hoare_ret; lra].
    skip_bind current. skip_bind stored.
    apply hoare_bind with (P := fun t => 0 <= t <= 1);
      [apply hoare_call, _verify_scroll_behavior_range | intros t Ht].
    apply hoare_ret. rewrite fold_left_Qplus_app. lra. }
  intros cf3 H3. skip_bind browser.
  apply hoare_bind with (P := fun cf => 0 <= fold_left Qplus cf 0 <= 88 # 100).
  { destruct browser; [| apply hoare_ret; lra].
    skip_bind current. skip_bind stored.
    apply hoare_bind with (P := fun t => 0 <= t <= 1);
      [apply hoare_call, _verify_browser_fingerprint_range | intros t Ht].
    apply hoare_ret. rewrite fold_left_Qplus_app. lra. }
  intros cf4 H4.
  apply hoare_bind with
    (P := fun a => a = fst (_detect_web_anomalies current_data stored_profile));
    [apply hoare_call; reflexivity | intros anomalies ->].
  apply hoare_ret. unfold web_post. rewrite overall_confidence_sum. auto.
Qed.

Lemma verify_web_behavior_cases current_data stored_profile :
  (web_post current_data stored_profile
     (fst (verify_web_behavior current_data stored_profile)) /\
   exists s, verify_web_behavior_body current_data stored_profile tt =
             (s, snd (verify_web_behavior current_data stored_profile),
              Ok (fst (verify_web_behavior current_data stored_profile)))) \/
  (fst (verify_web_behavior current_data stored_profile) = (false, 0, 1) /\
   snd (verify_web_behavior current_data stored_profile) <> []).
Proof.
  unfold verify_web_behavior.
  destruct (try_except_cases tt (verify_web_behavior_body current_data stored_profile)
              ERROR "Web behavior verification failed" (fun _ => (false, 0, 1)))
    as [(s & l & a & Hb & ->) | (s & l & e & Hb & ->)].
  - left. simpl. split; [| eauto].
    pose proof (verify_web_behavior_body_post current_data stored_profile tt I) as H.
    rewrite Hb in H. apply H.
  - right. simpl. split; [reflexivity |]. destruct l; discriminate.
Qed.

(** C2.  Confidence and risk of both analyzers lie in [0, 1] on every sample
    and profile: the weighted channel scores sum to at most 0.85 (mobile) and
    0.88 (web) before any clamp, and risk is cut at 0 and at 1. *)
Theorem confidence_and_risk_bounds (current_data stored_profile : pyval) :
  (let '(_, confidence, risk) :=
     fst (verify_behavioral_match current_data stored_profile) in
   0 <= confidence <= 85 # 100 /\ 0 <= confidence <= 1 /\ 0 <= risk <= 1) /\
  (let '(_, confidence, risk) :=
     fst (verify_web_behavior current_data stored_profile) in
   0 <= confidence <= 88 # 100 /\ 0 <= confidence <= 1 /\ 0 <= risk <= 1).
Proof.
  split.
  - destruct (verify_behavioral_match_cases current_data stored_profile) as [[H _] | [H _]].
    + destruct (fst (verify_behavioral_match current_data stored_profile)) as [[m c] r].
      destruct H as (Hc & -> & _).
      pose proof (risk_of_range c (2 # 10)
                    (fst (_detect_anomalies current_data stored_profile))) as Hr.
      repeat split; try lra; apply Hr; lra.
    + rewrite H. repeat split; lra.
  - destruct (verify_web_behavior_cases current_data stored_profile) as [[H _] | [H _]].
    + destruct (fst (verify_web_behavior current_data stored_profile)) as [[m c] r].
      destruct H as (Hc & -> & _).
      pose proof (risk_of_range c (15 # 100)
                    (fst (_detect_web_anomalies current_data stored_profile))) as Hr.
      repeat split; try lra; apply Hr; lra.
    + rewrite H. repeat split; lra.
Qed.

(** C5.  When no exception is raised (nothing is logged), risk is
    [clamp(1 - confidence + penalty * len(anomalies), 0, 1)] with penalty 0.2
    on the mobile path and 0.15 on the web path, [anomalies] being what the
    detector of the path returns; so risk is the baseline [1 - confidence]
    plus the penalty for each tag, cut at 1. *)
Theorem risk_formula (current_data stored_profile : pyval) :
  (snd (verify_behavioral_match current_data stored_profile) = [] ->
   let '(_, confidence, risk) :=
     fst (verify_behavioral_match current_data stored_profile) in
   let n := inject_Z (Z.of_nat (List.length
              (fst (_detect_anomalies current_data stored_profile)))) in
   risk == clamp (1 - confidence + (2 # 10) * n) 0 1 /\
   risk == Qmin 1 (1 - confidence + (2 # 10) * n)) /\
  (snd (verify_web_behavior current_data stored_profile) = [] ->
   let '(_, confidence, risk) :=
     fst (verify_web_behavior current_data stored_profile) in
   let n := inject_Z (Z.of_nat (List.length
              (fst (_detect_web_anomalies current_data stored_profile)))) in
   risk == clamp (1 - confidence + (15 # 100) * n) 0 1 /\
   risk == Qmin 1 (1 - confidence + (15 # 100) * n)).
Proof.
  split; intros Hlog.
  - destruct (verify_behavioral_match_cases current_data stored_profile) as [[H _] | [_ H]];
      [| contradiction].
    destruct (fst (verify_behavioral_match current_data stored_profile)) as [[m c] r].
    destruct H as (Hc & -> & _). cbv zeta.
    assert (Hcl := risk_of_clamp c (2 # 10)
                     (fst (_detect_anomalies current_data stored_profile))).
    split; [apply Hcl; lra |].
    rewrite Hcl by lra. unfold clamp.
    pose proof (inject_Z_of_nat_nonneg
                  (List.length (fst (_detect_anomalies current_data stored_profile)))).
    set (n := inject_Z _) in *. qminmax; lra.
  - destruct (verify_web_behavior_cases current_data stored_profile) as [[H _] | [_ H]];
      [| contradiction].
    destruct (fst (verify_web_behavior current_data stored_profile)) as [[m c] r].
    destruct H as (Hc & -> & _). cbv zeta.
    assert (Hcl := risk_of_clamp c (15 # 100)
                     (fst (_detect_web_anomalies current_data stored_profile))).
    split; [apply Hcl; lra |].
    rewrite Hcl by lra. unfold clamp.
    pose proof (inject_Z_of_nat_nonneg
                  (List.length (fst (_detect_web_anomalies current_data stored_profile)))).
    set (n := inject_Z _) in *. qminmax; lra.
Qed.

(** ** A sample with the typing channel only *)

Lemma typing_score_without_baseline current_typing stored_profile :
  get_truthy stored_profile "typical_hold_times" <> Ok true ->
  fst (_verify_typing_pattern current_typing stored_profile) == 0.
Proof.
  intros H. unfold _verify_typing_pattern, try_except, bind, call, eval, ret.
  destruct (_extract_typing_features current_typing) as [features lg]. simpl.
  destruct (has_key "avg_hold_time" features); simpl.
  - destruct (get_truthy stored_profile "typical_hold_times") as [[|] |]; simpl;
      [contradiction | reflexivity | reflexivity].
  - reflexivity.
Qed.

(** C7.  When the sample has a typing pattern and neither touch patterns nor
    device characteristics, the confidence of [verify_behavioral_match] is the
    typing score times its weight 0.5: the absent channels add nothing and the
    weight is not rescaled. *)
Theorem typing_only_confidence (current_data stored_profile typing_pattern : pyval) :
  py_get current_data "typing_pattern" PNone = Ok typing_pattern ->
  truthy typing_pattern = true ->
  get_truthy current_data "touch_patterns" = Ok false ->
  get_truthy current_data "device_characteristics" = Ok false ->
  let '(_, confidence, _) :=
    fst (verify_behavioral_match current_data stored_profile) in
  confidence == fst (_verify_typing_pattern typing_pattern stored_profile) * (5 # 10).
Proof.
  intros Hget Htp Htouch Hdev.
  destruct current_data as [| | | | | | d]; try discriminate.
  assert (Hitem : py_item (PDict d) "typing_pattern" = Ok typing_pattern).
  { unfold py_get in Hget. unfold py_item.
    destruct (lookup "typing_pattern" d) eqn:E.
    - congruence.
    - injection Hget as <-. discriminate. }
  assert (Htouch' : forall sk, both_present (PDict d) "touch_patterns" stored_profile sk = Ok false).
  { intros sk. unfold both_present. unfold get_truthy in Htouch.
    destruct (py_get (PDict d) "touch_patterns" PNone); simpl in *; [| discriminate].
    injection Htouch as ->. reflexivity. }
  assert (Htyping : both_present (PDict d) "typing_pattern" stored_profile "typical_hold_times"
                    = get_truthy stored_profile "typical_hold_times").
  { unfold both_present. rewrite Hget. simpl. rewrite Htp. reflexivity. }
  unfold verify_behavioral_match, try_except, verify_behavioral_match_body, bind, eval, call, ret.
  rewrite Htyping, Htouch', Hdev.
  destruct (get_truthy stored_profile "typical_hold_times") as [[|] |] eqn:E;
    [rewrite Hitem | |]; simpl.
  - lra.
  - rewrite typing_score_without_baseline by (rewrite E; discriminate). lra.
  - rewrite typing_score_without_baseline by (rewrite E; discriminate). lra.
Qed.

(** ** Anomalies of the web path *)

Lemma lookup_dict_set_other k k' v d :
  k <> k' -> lookup k (dict_set k' v d) = lookup k d.
Proof.
  intros Hk. induction d as [| [k0 v0] r IH]; simpl.
  - destruct (String.eqb_spec k k'); [contradiction | reflexivity].
  - destruct (String.eqb_spec k' k0) as [-> | Hne]; simpl.
    + destruct (String.eqb_spec k k0); [contradiction | reflexivity].
    + destruct (String.eqb_spec k k0); [reflexivity | exact IH].
Qed.

Lemma lookup_dict_set_same k v d : lookup k (dict_set k v d) = Some v.
Proof.
  induction d as [| [k0 v0] r IH]; simpl.
  - rewrite String.eqb_refl. reflexivity.
  - destruct (String.eqb_spec k k0) as [-> | Hne]; simpl.
    + rewrite String.eqb_refl. reflexivity.
    + destruct (String.eqb_spec k k0); [contradiction | exact IH].
Qed.

Lemma try_except_bind_ok {S A B} (s0 s1 : S) (m : stmt S A) (f : A -> stmt S B)
    lv text (handler : S -> B) l1 a :
  m s0 = (s1, l1, Ok a) ->
  fst (try_except s0 (bind m f) lv text handler) =
  fst (try_except s1 (f a) lv text handler).
Proof.
  intros H. unfold try_except, bind. rewrite H.
  destruct (f a s1) as [[s2 l2] [b | e]]; reflexivity.
Qed.

(** The empty stored fingerprint scores 0.0 against any browser. *)
Lemma empty_fingerprint_scores_zero current_browser :
  fst (_verify_browser_fingerprint current_browser (PDict [])) = 0.
Proof.
  unfold _verify_browser_fingerprint, try_except, bind, call, eval, ret.
  destruct (_create_browser_fingerprint current_browser) as [fingerprint lg].
  reflexivity.
Qed.

Lemma mean_numeric data v : mean data = Ok v -> numeric v.
Proof.
  unfold mean, rbind. destruct (py_iter data) as [items |]; [| discriminate].
  destruct (all_nums items) as [qs |]; [| discriminate].
  destruct qs; [discriminate |].
  destruct (existsb is_float items); [intros [= <-]; eexists; reflexivity |].
  destruct (Pos.eqb _ 1); intros [= <-]; eexists; reflexivity.
Qed.

Lemma stdev_numeric data v : stdev data = Ok v -> numeric v.
Proof.
  unfold stdev, rbind. destruct (py_iter data) as [items |]; [| discriminate].
  destruct (all_nums items) as [qs |]; [| discriminate].
  destruct (Nat.ltb _ 2); [discriminate |].
  destruct (float_sqrt _); [| discriminate]. intros [= <-]. eexists; reflexivity.
Qed.

(** Whatever [_extract_mouse_features] stores under [mouse_speed_std] is a
    number, so the comparison with 0.1 cannot raise. *)
Lemma mouse_speed_std_numeric mouse_movements v :
  lookup "mouse_speed_std" (fst (_extract_mouse_features mouse_movements)) = Some v ->
  numeric v.
Proof.
  revert v.
  unfold _extract_mouse_features.
  apply try_except_value with
    (I := fun features => forall v, lookup "mouse_speed_std" features = Some v -> numeric v)
    (Q := fun features => forall v, lookup "mouse_speed_std" features = Some v -> numeric v).
  - intros v H. discriminate H.
  - apply hoare_if; intros _; [apply hoare_get_local; auto |].
    apply hoare_bind with (P := fun _ => True); [apply hoare_eval; auto | intros speeds _].
    apply hoare_bind with (P := fun _ => True).
    + destruct speeds as [| s0 r]; [apply hoare_ret; exact I |].
      unfold set_mean_std.
      apply hoare_bind with (P := fun _ => True); [apply hoare_eval; auto | intros m _].
      apply hoare_bind with (P := fun _ => True).
      { apply hoare_set_feature; [| exact I].
        intros s Hs v. rewrite lookup_dict_set_other by discriminate. apply Hs. }
      intros _ _.
      apply hoare_bind with (P := fun _ => True); [apply hoare_eval; auto | intros n _].
      apply hoare_bind with (P := numeric).
      { destruct (Nat.ltb 1 n).
        - apply hoare_eval. intros sd. apply stdev_numeric.
        - apply hoare_ret. eexists; reflexivity. }
      intros sd Hsd. apply hoare_set_feature; [| exact I].
      intros s Hs v. rewrite lookup_dict_set_same. intros [= <-]. exact Hsd.
    + intros _ _.
      apply hoare_bind with (P := fun _ => True); [apply hoare_eval; auto | intros n _].
      apply hoare_bind with (P := fun _ => True); [apply hoare_eval; auto | intros angles _].
      apply hoare_bind with (P := fun _ => True).
      * destruct angles as [| a r]; [apply hoare_ret; exact I |].
        apply hoare_bind with (P := fun _ => True); [apply hoare_eval; auto | intros m _].
        apply hoare_set_feature; [| exact I].
        intros s Hs v. rewrite lookup_dict_set_other by discriminate. apply Hs.
      * intros _ _. apply hoare_get_local. auto.
  - auto.
Qed.

(** C9.  With no stored browser fingerprint (the key is missing or holds an
    empty dict) [_verify_browser_fingerprint] returns 0.0 for any browser, and
    [_detect_web_anomalies] reports [browser_fingerprint_mismatch] on every
    sample. *)
Theorem empty_fingerprint_always_mismatch
    (current_data stored_profile : list (string * pyval)) :
  get_or stored_profile "browser_fingerprint" (PDict []) = PDict [] ->
  (forall current_browser,
      fst (_verify_browser_fingerprint current_browser (PDict [])) = 0) /\
  0 < 3 # 10 /\
  In "browser_fingerprint_mismatch"
     (fst (_detect_web_anomalies (PDict current_data) (PDict stored_profile))).
Proof.
  intros Hfp. split; [apply empty_fingerprint_scores_zero |]. split; [reflexivity |].
  unfold _detect_web_anomalies, try_except, bind, eval, call, ret, get_local,
    append_anomaly, py_get.
  fold (get_or current_data "mouse_movements" (PList [])).
  fold (get_or current_data "browser_info" (PDict [])).
  fold (get_or stored_profile "browser_fingerprint" (PDict [])).
  rewrite Hfp.
  pose proof (mouse_speed_std_numeric (get_or current_data "mouse_movements" (PList []))) as Hnum.
  destruct (_extract_mouse_features (get_or current_data "mouse_movements" (PList [])))
    as [features lg]. simpl in Hnum. simpl.
  pose proof (empty_fingerprint_scores_zero (get_or current_data "browser_info" (PDict []))) as Hz.
  destruct (_verify_browser_fingerprint (get_or current_data "browser_info" (PDict [])) (PDict []))
    as [score lg2]. simpl in Hz. subst score.
  unfold has_key, feature.
  destruct (lookup "mouse_speed_std" features) as [sd |]; simpl.
  - destruct (Hnum sd eq_refl) as [q Hq]. unfold py_lt_num. rewrite Hq.
    destruct (negb (Qle_bool (1 # 10) q)); simpl; auto.
  - auto.
Qed.

Lemma pick_field_dict key default (items : list pyval) :
  Forall (fun item => isinstance_dict item = true) items ->
  rmap (fun item =>
          (c <- py_get item key PNone ;;
           if truthy c
           then (v <- py_get item key default ;; Ok (Some v))
           else Ok None)%res) items =
  Ok (map (fun item => if truthy (field key item) then Some (field key item) else None)
          items).
Proof.
  intros Hd. induction Hd as [| item r Hev Hr IH]; [reflexivity |].
  destruct item as [| | | | | | d]; try discriminate.
  cbn [rmap map]. rewrite IH.
  unfold py_get, rbind, field, get_or.
  destruct (lookup key d) as [x |]; [| reflexivity].
  destruct (truthy x); reflexivity.
Qed.

Lemma picked_fields key (items : list pyval) :
  flat_map (fun o : option pyval => match o with Some v => [v] | None => [] end)
    (map (fun item => if truthy (field key item) then Some (field key item) else None)
         items) =
  filter truthy (map (field key) items).
Proof.
  induction items as [| item r IH]; [reflexivity |].
  cbn [map flat_map filter]. rewrite IH.
  destruct (truthy (field key item)); reflexivity.
Qed.

(** The comprehension over a list of dicts: the truthy values of the key. *)
Lemma get_all_truthy_dicts key default (items : list pyval) :
  Forall (fun item => isinstance_dict item = true) items ->
  get_all_truthy (PList items) key default = Ok (filter truthy (map (field key) items)).
Proof.
  intros Hd. unfold get_all_truthy. cbn [py_iter rbind].
  rewrite (pick_field_dict key default items Hd). cbn [rbind].
  rewrite picked_fields. reflexivity.
Qed.

Lemma mean_single v q : as_num v = Some q -> exists m, mean (PList [v]) = Ok m.
Proof.
  intros Hq. unfold mean, rbind. cbn [py_iter all_nums]. rewrite Hq.
  eexists. reflexivity.
Qed.

Lemma set_mean_std_single avg std v q features :
  as_num v = Some q ->
  exists m, set_mean_std avg std (PList [v]) features =
            (dict_set std (PInt 0) (dict_set avg m features), [], Ok tt).
Proof.
  intros Hq. destruct (mean_single v q Hq) as [m Hm]. exists m.
  unfold set_mean_std, bind, eval, set_feature, ret. rewrite Hm. reflexivity.
Qed.

(** C10.  In a list of mouse events (dicts) of which exactly one has a speed
    that counts, a number other than zero, the extracted [mouse_speed_std] is
    0, which is below 0.1, and [_detect_web_anomalies] reports
    [robotic_mouse_movements]; the list of one event is the first case. *)
Theorem single_speed_flags_robotic
    (current_data : list (string * pyval)) (stored_profile : pyval)
    (events : list pyval) (speed : pyval) (q : Q) :
  Forall (fun event => isinstance_dict event = true) events ->
  filter truthy (map speed_of events) = [speed] ->
  as_num speed = Some q ->
  lookup "mouse_movements" current_data = Some (PList events) ->
  lookup "mouse_speed_std" (fst (_extract_mouse_features (PList events))) = Some (PInt 0) /\
  py_lt_num (PInt 0) (1 # 10) = Ok true /\
  In "robotic_mouse_movements"
     (fst (_detect_web_anomalies (PDict current_data) stored_profile)).
Proof.
  intros Hd Hf Hq Hmm.
  assert (Hstd : lookup "mouse_speed_std" (fst (_extract_mouse_features (PList events)))
                 = Some (PInt 0)).
  { unfold _extract_mouse_features.
    assert (Hne : truthy (PList events) = true).
    { destruct events; [discriminate | reflexivity]. }
    rewrite Hne. simpl negb. cbv iota.
    erewrite try_except_bind_ok
      by (unfold eval; rewrite (get_all_truthy_dicts "speed" (PInt 0) events Hd);
          fold speed_of; rewrite Hf; reflexivity).
    destruct (set_mean_std_single "avg_mouse_speed" "mouse_speed_std"
                speed q [] Hq) as [m Hm].
    erewrite try_except_bind_ok by exact Hm.
    apply try_except_value with
      (I := fun features => lookup "mouse_speed_std" features = Some (PInt 0))
      (Q := fun features => lookup "mouse_speed_std" features = Some (PInt 0)).
    - reflexivity.
    - apply hoare_bind with (P := fun _ => True); [apply hoare_eval; auto | intros n _].
      apply hoare_bind with (P := fun _ => True); [apply hoare_eval; auto | intros angles _].
      apply hoare_bind with (P := fun _ => True).
      + destruct angles as [| a r]; [apply hoare_ret; exact I |].
        apply hoare_bind with (P := fun _ => True); [apply hoare_eval; auto | intros m' _].
        apply hoare_set_feature; [| exact I].
        intros s Hs. rewrite lookup_dict_set_other by discriminate. exact Hs.
      + intros _ _. apply hoare_get_local. auto.
    - auto. }
  split; [exact Hstd |]. split; [reflexivity |].
  unfold _detect_web_anomalies.
  erewrite try_except_bind_ok by (unfold eval, py_get; rewrite Hmm; reflexivity).
  erewrite try_except_bind_ok by (unfold call; reflexivity).
  erewrite try_except_bind_ok with (a := true)
    by (unfold has_key, feature, bind, eval; rewrite Hstd; reflexivity).
  erewrite try_except_bind_ok by reflexivity.
  apply try_except_value with
    (I := fun anomalies => In "robotic_mouse_movements" anomalies)
    (Q := fun anomalies => In "robotic_mouse_movements" anomalies).
  - simpl. auto.
  - apply hoare_bind with (P := fun _ => True); [apply hoare_eval; auto | intros bi _].
    apply hoare_bind with (P := fun _ => True); [apply hoare_eval; auto | intros bf _].
    apply hoare_bind with (P := fun _ => True); [apply hoare_call; auto | intros bc _].
    apply hoare_bind with (P := fun _ => True).
    + destruct (negb (Qle_bool (3 # 10) bc)); [| apply hoare_ret; exact I].
      apply hoare_append_anomaly; [| exact I].
      intros s Hs. apply in_or_app. auto.
    + intros _ _. apply hoare_get_local. auto.
  - auto.
Qed.


(** ** The profile updater *)

Lemma Qeq_bool_sym (p q : Q) : Qeq_bool p q = Qeq_bool q p.
Proof.
  destruct (Qeq_bool p q) eqn:E1; destruct (Qeq_bool q p) eqn:E2; try reflexivity.
  - apply Qeq_bool_iff in E1. symmetry in E1. apply Qeq_bool_iff in E1. congruence.
  - apply Qeq_bool_iff in E2. symmetry in E2. apply Qeq_bool_iff in E2. congruence.
Qed.

Lemma Qeq_bool_trans (p q r : Q) :
  Qeq_bool p q = true -> Qeq_bool q r = true -> Qeq_bool p r = true.
Proof.
  rewrite !Qeq_bool_iff. intros H1 H2. rewrite H1. exact H2.
Qed.

(** On hashable values [==] is an equivalence. *)
Lemma py_eq_refl x : hashable x = true -> py_eq x x = true.
Proof.
  destruct x; intros H; try discriminate; simpl;
    try apply Qeq_bool_refl; try apply String.eqb_refl; reflexivity.
Qed.

Lemma py_eq_sym x y : hashable x = true -> hashable y = true -> py_eq x y = py_eq y x.
Proof.
  destruct x; destruct y; intros Hx Hy; try discriminate; simpl;
    try reflexivity; try apply Qeq_bool_sym; try apply String.eqb_sym.
Qed.

Lemma py_eq_trans x y z :
  hashable x = true -> hashable y = true -> hashable z = true ->
  py_eq x y = true -> py_eq y z = true -> py_eq x z = true.
Proof.
  destruct x; destruct y; intros Hx Hy Hz; try discriminate; simpl;
    destruct z; try discriminate; simpl; intros H1 H2;
    try discriminate; try reflexivity;
    try (eapply Qeq_bool_trans; eassumption).
  apply String.eqb_eq in H1, H2. subst. apply String.eqb_refl.
Qed.

Lemma mem_app x l1 l2 : mem x (l1 ++ l2) = mem x l1 || mem x l2.
Proof. apply existsb_app. Qed.

Lemma mem_perm x l1 l2 : Permutation l1 l2 -> mem x l1 = mem x l2.
Proof.
  intros HP. unfold mem. induction HP; simpl.
  - reflexivity.
  - rewrite IHHP. reflexivity.
  - destruct (py_eq x y), (py_eq x x0); reflexivity.
  - congruence.
Qed.

Lemma mem_filter_neq x y l :
  hashable x = true -> hashable y = true -> forallb hashable l = true ->
  py_eq x y = false ->
  mem x (filter (fun z => negb (py_eq y z)) l) = mem x l.
Proof.
  intros Hx Hy Hl Hxy. induction l as [| z r IH]; [reflexivity |].
  simpl in Hl. apply andb_true_iff in Hl as [Hz Hr].
  simpl. destruct (py_eq y z) eqn:Eyz; simpl.
  - rewrite (IH Hr).
    destruct (py_eq x z) eqn:Exz; [| reflexivity].
    exfalso.
    assert (py_eq x y = true).
    { apply py_eq_trans with z; auto. rewrite py_eq_sym; auto. }
    congruence.
  - rewrite (IH Hr). reflexivity.
Qed.

Lemma forallb_filter {A} (f g : A -> bool) l :
  forallb f l = true -> forallb f (filter g l) = true.
Proof.
  induction l as [| a r IH]; simpl; [reflexivity |].
  intros H. apply andb_true_iff in H as [Ha Hr].
  destruct (g a); simpl; [rewrite Ha |]; auto.
Qed.

Lemma dedup_hashable l : forallb hashable l = true -> forallb hashable (dedup l) = true.
Proof.
  induction l as [| a r IH]; simpl; [reflexivity |].
  intros H. apply andb_true_iff in H as [Ha Hr].
  rewrite Ha. simpl. apply forallb_filter. auto.
Qed.

(** Building the set keeps what is in the list, as [in] sees it. *)
Lemma mem_dedup x l :
  hashable x = true -> forallb hashable l = true -> mem x (dedup l) = mem x l.
Proof.
  intros Hx. induction l as [| a r IH]; [reflexivity |].
  simpl. intros H. apply andb_true_iff in H as [Ha Hr].
  destruct (py_eq x a) eqn:E; simpl; [reflexivity |].
  rewrite mem_filter_neq; auto using dedup_hashable.
Qed.

Lemma mem_trans x y l :
  hashable x = true -> hashable y = true -> forallb hashable l = true ->
  py_eq x y = true -> mem y l = true -> mem x l = true.
Proof.
  intros Hx Hy Hl Hxy. unfold mem. rewrite !existsb_exists.
  intros (z & Hz & Hyz). exists z. split; [assumption |].
  apply py_eq_trans with y; auto.
  rewrite forallb_forall in Hl. auto.
Qed.

Lemma add_one_hashable t id :
  forallb hashable t = true -> hashable id = true -> forallb hashable (add_one t id) = true.
Proof.
  intros Ht Hid. unfold add_one. destruct (mem id t); [assumption |].
  rewrite forallb_app, Ht. simpl. rewrite Hid. reflexivity.
Qed.

Lemma fold_add_one_hashable ids t :
  forallb hashable t = true -> forallb hashable ids = true ->
  forallb hashable (fold_left add_one ids t) = true.
Proof.
  revert t. induction ids as [| id r IH]; simpl; intros t Ht Hids; [assumption |].
  apply andb_true_iff in Hids as [Hid Hr]. apply IH; auto using add_one_hashable.
Qed.

(** After the loop the set holds what it held and the ids of the batch. *)
Lemma mem_fold_add_one x ids t :
  hashable x = true -> forallb hashable t = true -> forallb hashable ids = true ->
  mem x (fold_left add_one ids t) = mem x t || mem x ids.
Proof.
  intros Hx. revert t. induction ids as [| id r IH]; simpl; intros t Ht Hids.
  - rewrite orb_false_r. reflexivity.
  - apply andb_true_iff in Hids as [Hid Hr].
    rewrite IH by auto using add_one_hashable.
    unfold add_one. destruct (mem id t) eqn:E.
    + destruct (py_eq x id) eqn:Exid; simpl; [| reflexivity].
      rewrite (mem_trans x id t) by auto. reflexivity.
    + rewrite mem_app. simpl. rewrite orb_false_r.
      destruct (mem x t), (py_eq x id); reflexivity.
Qed.

Lemma add_devices_dicts (device_samples : list pyval) (t : list pyval) :
  Forall (fun s => isinstance_dict s = true) device_samples ->
  forallb hashable (filter truthy (map (field "device_id") device_samples)) = true ->
  add_devices device_samples t =
  Ok (fold_left add_one (filter truthy (map (field "device_id") device_samples)) t).
Proof.
  intros Hd. revert t. induction Hd as [| s r Hs Hr IH]; intros t Hh; [reflexivity |].
  destruct s as [| | | | | | d]; try discriminate.
  cbn [add_devices map filter] in *. unfold py_get, rbind.
  fold (get_or d "device_id" PNone). cbn [field] in *.
  unfold set_add_new.
  destruct (truthy (get_or d "device_id" PNone)) eqn:E.
  - cbn [forallb] in Hh. apply andb_true_iff in Hh as [Hid Hrest].
    rewrite Hid. cbn [fold_left]. unfold add_one at 2. unfold mem.
    destruct (existsb (py_eq (get_or d "device_id" PNone)) t); apply IH; assumption.
  - apply IH; assumption.
Qed.

Lemma forallb_Forall {A} (f : A -> bool) l :
  forallb f l = true -> Forall (fun a => f a = true) l.
Proof. rewrite forallb_forall, Forall_forall. auto. Qed.

Lemma update_biometric_profile_run (profile : pyval) (samples : list pyval) :
  well_formed_profile profile = true ->
  well_formed_batch samples = true ->
  update_biometric_profile profile (PList samples) = (updated_profile profile samples, []).
Proof.
  intros Hp Hb.
  destruct profile as [| | | | | | d]; try discriminate.
  destruct samples as [| s0 r]; [reflexivity |].
  set (samples := s0 :: r) in *.
  unfold well_formed_batch in Hb. apply andb_true_iff in Hb as [Hb Hids].
  apply andb_true_iff in Hb as [Hdicts Hdcs].
  apply forallb_Forall in Hdicts. apply forallb_Forall in Hdcs.
  unfold well_formed_profile in Hp. apply andb_true_iff in Hp as [Hcount Htd].
  destruct (lookup "samples_collected" d) as [[| | n | | | |] |] eqn:Ecount; try discriminate.
  unfold update_biometric_profile, try_except.
  assert (Ht : truthy (PList samples) = true) by reflexivity.
  rewrite Ht. cbn [negb].
  unfold bind, eval.
  rewrite !get_all_truthy_dicts by assumption.
  unfold updated_profile, samples_collected. rewrite Ecount.
  fold samples. unfold batch_device_ids in *.
  assert (Hskip : forall (l : list pyval) (p : pyval),
             (match l with
              | [] => ret tt
              | _ :: _ => bind get_local (fun p0 : pyval => set_local p0)
              end) p = (p, [], Ok tt)).
  { intros l p. destruct l; reflexivity. }
  unfold _update_typing_profile, _update_touch_profile.
  unfold bind. rewrite !Hskip.
  destruct (filter truthy (map (field "device_characteristics") samples))
    as [| dc0 dcr] eqn:Edcs.
  - cbn. rewrite Ecount. cbn. fold samples. reflexivity.
  - unfold get_local, set_local, ret, _update_device_profile, rbind, py_get, trusted.
    destruct (lookup "trusted_devices" d) as [[| | | | | td |] |] eqn:Etd; try discriminate.
    + cbn [py_iter]. rewrite Htd.
      rewrite add_devices_dicts by assumption.
      cbn [py_setitem py_item].
      rewrite lookup_dict_set_other by discriminate. rewrite Ecount.
      cbn. fold samples. reflexivity.
    + cbn [py_iter forallb dedup].
      rewrite add_devices_dicts by assumption.
      cbn [py_setitem py_item].
      rewrite lookup_dict_set_other by discriminate. rewrite Ecount.
      cbn. fold samples. reflexivity.
Qed.

Lemma forallb_perm {A} (f : A -> bool) l1 l2 :
  Permutation l1 l2 -> forallb f l1 = forallb f l2.
Proof.
  intros HP. induction HP; simpl.
  - reflexivity.
  - rewrite IHHP. reflexivity.
  - destruct (f x), (f y); reflexivity.
  - congruence.
Qed.

Lemma trusted_hashable profile :
  well_formed_profile profile = true -> forallb hashable (trusted profile) = true.
Proof.
  destruct profile as [| | | | | | d]; try discriminate. simpl.
  intros H. apply andb_true_iff in H as [_ H].
  destruct (lookup "trusted_devices" d) as [[| | | | | td |] |]; try discriminate; auto.
Qed.

Lemma batch_ids_hashable samples :
  well_formed_batch samples = true -> forallb hashable (batch_device_ids samples) = true.
Proof. unfold well_formed_batch. intros H. apply andb_true_iff in H as [_ H]. exact H. Qed.

Lemma batch_ids_nil samples :
  filter truthy (map (field "device_characteristics") samples) = [] ->
  batch_device_ids samples = [].
Proof. unfold batch_device_ids. intros ->. reflexivity. Qed.

Lemma updated_profile_trusted profile samples x :
  well_formed_profile profile = true -> well_formed_batch samples = true ->
  hashable x = true ->
  mem x (trusted (updated_profile profile samples)) =
  mem x (trusted profile) || mem x (batch_device_ids samples).
Proof using set_order_perm.
  intros Hp Hb Hx.
  pose proof (trusted_hashable profile Hp) as Htd.
  pose proof (batch_ids_hashable samples Hb) as Hids.
  destruct profile as [| | | | | | d]; try discriminate.
  destruct samples as [| s0 r]; [simpl; rewrite orb_false_r; reflexivity |].
  unfold updated_profile.
  destruct (samples_collected (PDict d)) as [n |] eqn:En.
  2:{ unfold samples_collected, well_formed_profile in *.
      apply andb_true_iff in Hp as [Hp _].
      destruct (lookup "samples_collected" d) as [[| | z | | | |] |]; discriminate. }
  destruct (filter truthy (map (field "device_characteristics") (s0 :: r))) eqn:Edcs.
  - rewrite (batch_ids_nil _ Edcs). simpl mem at 3. rewrite orb_false_r.
    unfold trusted. rewrite lookup_dict_set_other by discriminate. reflexivity.
  - unfold trusted at 1. rewrite lookup_dict_set_other by discriminate.
    rewrite lookup_dict_set_same.
    rewrite (mem_perm x _ _ (set_order_perm _)).
    rewrite mem_fold_add_one by auto using dedup_hashable.
    rewrite mem_dedup by auto. reflexivity.
Qed.

Lemma updated_profile_count profile samples n :
  well_formed_profile profile = true ->
  samples_collected profile = Some n ->
  samples_collected (updated_profile profile samples) =
  Some (n + Z.of_nat (List.length samples))%Z.
Proof.
  intros Hp Hn.
  destruct profile as [| | | | | | d]; try discriminate.
  destruct samples as [| s0 r].
  - simpl updated_profile. rewrite Hn. simpl. rewrite Z.add_0_r. reflexivity.
  - unfold updated_profile. rewrite Hn.
    unfold samples_collected at 1. rewrite lookup_dict_set_same. reflexivity.
Qed.

Lemma updated_profile_well_formed profile samples :
  well_formed_profile profile = true -> well_formed_batch samples = true ->
  well_formed_profile (updated_profile profile samples) = true.
Proof using set_order_perm.
  intros Hp Hb.
  pose proof (trusted_hashable profile Hp) as Htd.
  pose proof (batch_ids_hashable samples Hb) as Hids.
  destruct profile as [| | | | | | d]; try discriminate.
  destruct samples as [| s0 r]; [exact Hp |].
  unfold updated_profile.
  destruct (samples_collected (PDict d)) as [n |] eqn:En; [| exact Hp].
  unfold well_formed_profile. rewrite lookup_dict_set_same.
  rewrite lookup_dict_set_other by discriminate.
  destruct (filter truthy (map (field "device_characteristics") (s0 :: r))) eqn:Edcs.
  - unfold well_formed_profile in Hp. apply andb_true_iff in Hp as [_ Hp]. exact Hp.
  - rewrite lookup_dict_set_same. cbn [andb].
    rewrite (forallb_perm hashable _ _ (set_order_perm _)).
    apply fold_add_one_hashable; auto using dedup_hashable.
Qed.

(** *** The list of the second application

    [list(set(...))] holds every device once, so a second application finds
    nothing to add: it builds the set of the same elements again. *)

Lemma mem_filter_self x l : mem x (filter (fun y => negb (py_eq x y)) l) = false.
Proof.
  induction l as [| a r IH]; [reflexivity |]. simpl.
  destruct (py_eq x a) eqn:E; simpl; [exact IH |].
  unfold mem in *. simpl. rewrite E. exact IH.
Qed.

Lemma mem_filter_true x (f : pyval -> bool) l :
  mem x (filter f l) = true -> mem x l = true.
Proof.
  unfold mem. rewrite !existsb_exists. intros (y & Hin & Hy).
  apply filter_In in Hin. exists y. tauto.
Qed.

Lemma distinct_filter (f : pyval -> bool) l :
  distinct l = true -> distinct (filter f l) = true.
Proof.
  induction l as [| a r IH]; [reflexivity |]. simpl.
  intros H. apply andb_true_iff in H as [Ha Hr].
  destruct (f a); [| auto]. simpl. rewrite (IH Hr), andb_true_r.
  destruct (mem a (filter f r)) eqn:E; [| reflexivity].
  apply mem_filter_true in E. rewrite E in Ha. discriminate.
Qed.

Lemma distinct_dedup l : distinct (dedup l) = true.
Proof.
  induction l as [| a r IH]; [reflexivity |]. simpl.
  rewrite mem_filter_self. simpl. apply distinct_filter. exact IH.
Qed.

Lemma distinct_snoc t id :
  forallb hashable t = true -> hashable id = true ->
  mem id t = false -> distinct t = true -> distinct (t ++ [id]) = true.
Proof.
  intros Ht Hid. induction t as [| x r IH]; [reflexivity |]. simpl in *.
  apply andb_true_iff in Ht as [Hx Hr].
  intros Hmem H. apply andb_true_iff in H as [Hxr Hd].
  apply orb_false_iff in Hmem as [Hidx Hidr].
  rewrite mem_app. simpl. rewrite orb_false_r.
  rewrite (py_eq_sym x id Hx Hid), Hidx, orb_false_r, Hxr. simpl.
  apply IH; assumption.
Qed.

Lemma distinct_add_one t id :
  forallb hashable t = true -> hashable id = true ->
  distinct t = true -> distinct (add_one t id) = true.
Proof.
  intros Ht Hid Hd. unfold add_one.
  destruct (mem id t) eqn:E; [exact Hd | apply distinct_snoc; assumption].
Qed.

Lemma distinct_fold_add_one ids t :
  forallb hashable t = true -> forallb hashable ids = true ->
  distinct t = true -> distinct (fold_left add_one ids t) = true.
Proof.
  revert t. induction ids as [| id r IH]; simpl; intros t Ht Hids Hd; [assumption |].
  apply andb_true_iff in Hids as [Hid Hr].
  apply IH; auto using add_one_hashable, distinct_add_one.
Qed.

Lemma distinct_perm l1 l2 :
  Permutation l1 l2 -> forallb hashable l1 = true -> distinct l1 = distinct l2.
Proof.
  intros HP. induction HP; intros Hh.
  - reflexivity.
  - simpl in *. apply andb_true_iff in Hh as [_ Hl].
    rewrite (mem_perm x l l' HP), (IHHP Hl). reflexivity.
  - simpl in *. apply andb_true_iff in Hh as [Hy Hh]. apply andb_true_iff in Hh as [Hx _].
    rewrite (py_eq_sym x y Hx Hy).
    destruct (py_eq y x), (mem x l), (mem y l), (distinct l); reflexivity.
  - rewrite (IHHP1 Hh). apply IHHP2.
    rewrite <- (forallb_perm hashable l l' HP1). exact Hh.
Qed.

Lemma filter_not_mem x l :
  mem x l = false -> filter (fun y => negb (py_eq x y)) l = l.
Proof.
  induction l as [| a r IH]; [reflexivity |]. unfold mem. simpl.
  intros H. apply orb_false_iff in H as [Ha Hr]. rewrite Ha. simpl.
  rewrite (IH Hr). reflexivity.
Qed.

Lemma dedup_distinct l : distinct l = true -> dedup l = l.
Proof.
  induction l as [| a r IH]; [reflexivity |]. simpl.
  intros H. apply andb_true_iff in H as [Ha Hr].
  rewrite (IH Hr). rewrite filter_not_mem; [reflexivity |].
  destruct (mem a r); [discriminate | reflexivity].
Qed.

Lemma fold_add_one_absorbed ids t :
  (forall id, In id ids -> mem id t = true) -> fold_left add_one ids t = t.
Proof.
  induction ids as [| id r IH]; [reflexivity |]. simpl. intros H.
  unfold add_one at 2. rewrite (H id (or_introl eq_refl)).
  apply IH. intros id' Hin. apply H. right. exact Hin.
Qed.

Lemma mem_of_In x l : forallb hashable l = true -> In x l -> mem x l = true.
Proof.
  intros Hl Hin. unfold mem. apply existsb_exists. exists x. split; [exact Hin |].
  apply py_eq_refl. rewrite forallb_forall in Hl. apply Hl. exact Hin.
Qed.

(** The list the updater writes when the batch has device characteristics. *)
Lemma updated_profile_devices d s0 r n :
  samples_collected (PDict d) = Some n ->
  filter truthy (map (field "device_characteristics") (s0 :: r)) <> [] ->
  trusted (updated_profile (PDict d) (s0 :: r)) =
  set_order (fold_left add_one (batch_device_ids (s0 :: r)) (dedup (trusted (PDict d)))).
Proof.
  intros Hn Hdcs. unfold updated_profile. rewrite Hn.
  destruct (filter truthy (map (field "device_characteristics") (s0 :: r))) eqn:E;
    [contradiction |].
  unfold trusted at 1. rewrite lookup_dict_set_other by discriminate.
  rewrite lookup_dict_set_same. reflexivity.
Qed.

Lemma updated_profile_same_devices d s0 r :
  filter truthy (map (field "device_characteristics") (s0 :: r)) = [] ->
  trusted (updated_profile (PDict d) (s0 :: r)) = trusted (PDict d).
Proof.
  intros Hdcs. unfold updated_profile. rewrite Hdcs.
  destruct (samples_collected (PDict d)); [| reflexivity].
  unfold trusted. rewrite lookup_dict_set_other by discriminate. reflexivity.
Qed.

Lemma updated_profile_distinct profile samples :
  well_formed_profile profile = true -> well_formed_batch samples = true ->
  filter truthy (map (field "device_characteristics") samples) <> [] ->
  distinct (trusted (updated_profile profile samples)) = true.
Proof using set_order_perm.
  intros Hp Hb Hdcs.
  pose proof (trusted_hashable profile Hp) as Htd.
  pose proof (batch_ids_hashable samples Hb) as Hids.
  destruct profile as [| | | | | | d]; try discriminate.
  destruct samples as [| s0 r]; [exfalso; apply Hdcs; reflexivity |].
  destruct (samples_collected (PDict d)) as [n |] eqn:En.
  2:{ unfold samples_collected, well_formed_profile in *.
      apply andb_true_iff in Hp as [Hp _].
      destruct (lookup "samples_collected" d) as [[| | z | | | |] |]; discriminate. }
  rewrite (updated_profile_devices d s0 r n En Hdcs).
  rewrite (distinct_perm _ _ (set_order_perm _)).
  - apply distinct_fold_add_one; auto using dedup_hashable, distinct_dedup.
  - rewrite (forallb_perm hashable _ _ (set_order_perm _)).
    apply fold_add_one_hashable; auto using dedup_hashable.
Qed.

(** Applied again with the same batch, the updater writes the list of the
    first application in the order the set gives it. *)
Lemma updated_profile_again profile samples :
  well_formed_profile profile = true -> well_formed_batch samples = true ->
  Permutation (trusted (updated_profile (updated_profile profile samples) samples))
              (trusted (updated_profile profile samples)).
Proof using set_order_perm.
  intros Hp Hb.
  pose proof (updated_profile_well_formed profile samples Hp Hb) as Hp1.
  pose proof (trusted_hashable _ Hp1) as Htd1.
  pose proof (batch_ids_hashable samples Hb) as Hids.
  destruct samples as [| s0 r].
  { destruct profile; apply Permutation_refl. }
  destruct (updated_profile profile (s0 :: r)) as [| | | | | | d1] eqn:E1; try discriminate.
  destruct (filter truthy (map (field "device_characteristics") (s0 :: r))) as [| dc dcs]
    eqn:Edcs.
  - rewrite (updated_profile_same_devices d1 s0 r Edcs). apply Permutation_refl.
  - assert (Hne : filter truthy (map (field "device_characteristics") (s0 :: r)) <> [])
      by (rewrite Edcs; discriminate).
    pose proof (updated_profile_distinct profile (s0 :: r) Hp Hb Hne) as Hdistinct.
    rewrite E1 in Hdistinct.
    destruct (samples_collected (PDict d1)) as [n1 |] eqn:En1.
    2:{ unfold samples_collected, well_formed_profile in *.
        apply andb_true_iff in Hp1 as [Hp1 _].
        destruct (lookup "samples_collected" d1) as [[| | z | | | |] |]; discriminate. }
    rewrite (updated_profile_devices d1 s0 r n1 En1 Hne).
    rewrite (dedup_distinct _ Hdistinct).
    rewrite fold_add_one_absorbed; [apply set_order_perm |].
    intros id Hin.
    assert (Hid : hashable id = true).
    { rewrite forallb_forall in Hids. apply Hids. exact Hin. }
    rewrite <- E1.
    rewrite (updated_profile_trusted profile (s0 :: r) id Hp Hb Hid).
    rewrite (mem_of_In id _ Hids Hin). apply orb_true_r.
Qed.

(** C8.  On a well-formed profile and batch [update_biometric_profile] raises
    nothing, leaves in [trusted_devices] what was there and the device ids of
    the batch, and adds the batch size to [samples_collected]; applied again to
    its result with the same batch it leaves the same devices and adds the
    batch size once more.  The list of the second application is the list of
    the first up to the order in which the set is iterated, so it does not
    grow; and a list the updater has written holds every device once. *)
Theorem update_profile_union_and_count (profile : pyval) (samples : list pyval) (n : Z) :
  well_formed_profile profile = true ->
  well_formed_batch samples = true ->
  samples_collected profile = Some n ->
  let once := fst (update_biometric_profile profile (PList samples)) in
  let twice := fst (update_biometric_profile once (PList samples)) in
  let size := Z.of_nat (List.length samples) in
  snd (update_biometric_profile profile (PList samples)) = [] /\
  (forall x, hashable x = true ->
     mem x (trusted once) = mem x (trusted profile) || mem x (batch_device_ids samples)) /\
  samples_collected once = Some (n + size)%Z /\
  (forall x, hashable x = true -> mem x (trusted twice) = mem x (trusted once)) /\
  samples_collected twice = Some (n + size + size)%Z /\
  Permutation (trusted twice) (trusted once) /\
  (filter truthy (map (field "device_characteristics") samples) <> [] ->
   distinct (trusted once) = true).
Proof using set_order_perm.
  intros Hp Hb Hn. cbv zeta.
  rewrite (update_biometric_profile_run profile samples Hp Hb). cbn [fst snd].
  pose proof (updated_profile_well_formed profile samples Hp Hb) as Hp1.
  rewrite (update_biometric_profile_run _ samples Hp1 Hb). cbn [fst].
  pose proof (updated_profile_count profile samples n Hp Hn) as Hn1.
  split; [reflexivity |].
  split; [intros x Hx; apply updated_profile_trusted; assumption |].
  split; [exact Hn1 |].
  split.
  { intros x Hx. rewrite (updated_profile_trusted _ samples x Hp1 Hb Hx).
    rewrite (updated_profile_trusted profile samples x Hp Hb Hx).
    destruct (mem x (trusted profile)), (mem x (batch_device_ids samples)); reflexivity. }
  split; [apply updated_profile_count; assumption |].
  split; [apply updated_profile_again; assumption |].
  apply updated_profile_distinct; assumption.
Qed.

(** ** Signatures and insertion order *)

(** Induction on values, through lists and dicts. *)
Lemma pyval_induction (P : pyval -> Prop) :
  P PNone ->
  (forall b, P (PBool b)) ->
  (forall z, P (PInt z)) ->
  (forall q, P (PFloat q)) ->
  (forall s, P (PStr s)) ->
  (forall l, Forall P l -> P (PList l)) ->
  (forall d, Forall (fun kv => P (snd kv)) d -> P (PDict d)) ->
  forall v, P v.
Proof.
  intros HN HB HI HF HS HL HD.
  fix IH 1. intros v. destruct v as [| b | z | q | s | l | d].
  - exact HN.
  - apply HB.
  - apply HI.
  - apply HF.
  - apply HS.
  - apply HL. induction l as [| x r IHr]; constructor; [apply IH | exact IHr].
  - apply HD. induction d as [| [k x] r IHr]; constructor; [apply IH | exact IHr].
Qed.

Lemma canon_dict d : canon (PDict d) = PDict (sort_by_key (canon_items d)).
Proof.
  simpl. f_equal. f_equal. unfold canon_items.
  induction d as [| [k x] r IH]; [reflexivity |]. simpl. rewrite IH. reflexivity.
Qed.

Lemma canon_list l : canon (PList l) = PList (map canon l).
Proof. reflexivity. Qed.

Lemma canon_hashable v : hashable v = true -> canon v = v.
Proof. destruct v; try discriminate; reflexivity. Qed.

(** Sorting by key keeps, for every key, the first item that has it. *)
Lemma lookup_insert_by_key k kv (l : list (string * pyval)) :
  lookup k (insert_by_key kv l) =
  if String.eqb k (fst kv) then Some (snd kv) else lookup k l.
Proof.
  destruct kv as [k0 v0]. simpl fst. simpl snd.
  induction l as [| [k1 v1] r IH]; simpl; [reflexivity |].
  destruct (String.leb k0 k1) eqn:E; simpl; [reflexivity |].
  rewrite IH.
  destruct (String.eqb_spec k k1) as [-> | Hne]; [| reflexivity].
  destruct (String.eqb_spec k1 k0) as [-> | Hne']; [| reflexivity].
  exfalso. destruct (String.leb_total k0 k0); congruence.
Qed.

Lemma lookup_sort_by_key k (l : list (string * pyval)) :
  lookup k (sort_by_key l) = lookup k l.
Proof.
  induction l as [| [k0 v0] r IH]; [reflexivity |].
  simpl. rewrite lookup_insert_by_key, IH. reflexivity.
Qed.

Lemma insert_by_key_map {V W} (f : V -> W) kv (l : list (string * V)) :
  insert_by_key (fst kv, f (snd kv)) (map (fun kv => (fst kv, f (snd kv))) l) =
  map (fun kv => (fst kv, f (snd kv))) (insert_by_key kv l).
Proof.
  induction l as [| kv' r IH]; [reflexivity |].
  simpl. destruct (String.leb (fst kv) (fst kv')); simpl; [reflexivity |].
  rewrite IH. reflexivity.
Qed.

(** Sorting looks at keys only: it commutes with a change of the values. *)
Lemma sort_by_key_map {V W} (f : V -> W) (l : list (string * V)) :
  sort_by_key (map (fun kv => (fst kv, f (snd kv))) l) =
  map (fun kv => (fst kv, f (snd kv))) (sort_by_key l).
Proof.
  induction l as [| kv r IH]; [reflexivity |].
  simpl. rewrite IH. apply insert_by_key_map.
Qed.

Lemma insert_by_key_sorted {V} kv (l : list (string * V)) :
  key_sorted l -> key_sorted (insert_by_key kv l).
Proof.
  intros Hs. induction Hs as [| kv0 | kv0 kv1 r Hle Hs IH]; simpl.
  - constructor.
  - destruct (String.leb (fst kv) (fst kv0)) eqn:E.
    + constructor; [assumption | constructor].
    + constructor; [| constructor].
      destruct (String.leb_total (fst kv) (fst kv0)); congruence.
  - destruct (String.leb (fst kv) (fst kv0)) eqn:E.
    + constructor; [assumption |]. constructor; assumption.
    + simpl in IH. destruct (String.leb (fst kv) (fst kv1)) eqn:E1.
      * constructor; [| exact IH].
        destruct (String.leb_total (fst kv) (fst kv0)); congruence.
      * constructor; assumption.
Qed.

Lemma sort_by_key_sorted {V} (l : list (string * V)) : key_sorted (sort_by_key l).
Proof.
  induction l as [| kv r IH]; [constructor |]. simpl. apply insert_by_key_sorted, IH.
Qed.

Lemma sort_by_key_of_sorted {V} (l : list (string * V)) :
  key_sorted l -> sort_by_key l = l.
Proof.
  intros Hs. induction Hs as [| kv0 | kv0 kv1 r Hle Hs IH]; try reflexivity.
  change (sort_by_key (kv0 :: kv1 :: r)) with (insert_by_key kv0 (sort_by_key (kv1 :: r))).
  rewrite IH. simpl. rewrite Hle. reflexivity.
Qed.

Lemma sort_by_key_idempotent {V} (l : list (string * V)) :
  sort_by_key (sort_by_key l) = sort_by_key l.
Proof. apply sort_by_key_of_sorted, sort_by_key_sorted. Qed.

Lemma insert_by_key_length {V} kv (l : list (string * V)) :
  List.length (insert_by_key kv l) = S (List.length l).
Proof.
  induction l as [| kv' r IH]; [reflexivity |].
  simpl. destruct (String.leb (fst kv) (fst kv')); simpl; [reflexivity |].
  rewrite IH. reflexivity.
Qed.

Lemma sort_by_key_length {V} (l : list (string * V)) :
  List.length (sort_by_key l) = List.length l.
Proof.
  induction l as [| kv r IH]; [reflexivity |].
  simpl. rewrite insert_by_key_length, IH. reflexivity.
Qed.

Lemma lookup_canon_items k d :
  lookup k (canon_items d) = option_map canon (lookup k d).
Proof.
  induction d as [| [k0 v0] r IH]; [reflexivity |].
  simpl. destruct (String.eqb k k0); [reflexivity | exact IH].
Qed.

Lemma lookup_canon k d :
  lookup k (sort_by_key (canon_items d)) = option_map canon (lookup k d).
Proof. rewrite lookup_sort_by_key. apply lookup_canon_items. Qed.

Lemma truthy_canon v : truthy (canon v) = truthy v.
Proof.
  destruct v as [| b | z | q | s | l | d]; try reflexivity.
  - destruct l; reflexivity.
  - rewrite canon_dict. simpl.
    pose proof (sort_by_key_length (canon_items d)) as H.
    unfold canon_items in H. rewrite length_map in H.
    destruct d; destruct (sort_by_key _); simpl in H; try discriminate; reflexivity.
Qed.

Lemma as_num_canon v : as_num (canon v) = as_num v.
Proof. destruct v; try reflexivity. Qed.

Lemma is_float_canon v : is_float (canon v) = is_float v.
Proof. destruct v; try reflexivity. Qed.

Lemma hashable_canon v : hashable (canon v) = hashable v.
Proof. destruct v; try reflexivity. Qed.

Lemma isinstance_dict_canon v : isinstance_dict (canon v) = isinstance_dict v.
Proof. destruct v; try reflexivity. Qed.

Lemma py_get_canon v k default :
  py_get (canon v) k (canon default) = res_map canon (py_get v k default).
Proof.
  destruct v as [| b | z | q | s | l | d]; try reflexivity.
  rewrite canon_dict. simpl. rewrite lookup_canon.
  destruct (lookup k d); reflexivity.
Qed.

Lemma py_item_canon v k : py_item (canon v) k = res_map canon (py_item v k).
Proof.
  destruct v as [| b | z | q | s | l | d]; try reflexivity.
  rewrite canon_dict. simpl. rewrite lookup_canon.
  destruct (lookup k d); reflexivity.
Qed.

Lemma canon_chars s : map canon (chars s) = chars s.
Proof. induction s as [| a r IH]; [reflexivity |]. simpl. rewrite IH. reflexivity. Qed.

Lemma py_index_canon v i : py_index (canon v) i = res_map canon (py_index v i).
Proof.
  destruct v as [| b | z | q | s | l | d]; try reflexivity.
  - simpl. destruct (nth_error (chars s) i) as [x |] eqn:E; [| reflexivity].
    simpl. f_equal. symmetry. apply canon_hashable.
    apply nth_error_In in E. clear -E. induction s; simpl in *; [contradiction |].
    destruct E as [<- | E]; [reflexivity | auto].
  - simpl. rewrite nth_error_map. destruct (nth_error l i); reflexivity.
Qed.

Lemma py_len_canon v : py_len (canon v) = py_len v.
Proof.
  destruct v as [| b | z | q | s | l | d]; try reflexivity.
  - simpl. rewrite length_map. reflexivity.
  - rewrite canon_dict. simpl. rewrite sort_by_key_length.
    unfold canon_items. rewrite length_map. reflexivity.
Qed.

(** The text of [json.dumps(v, sort_keys=True)] does not depend on the order
    in which the dicts of [v] were filled. *)
Lemma dumps_dict d :
  dumps (PDict d) =
  String.append "{"
    (String.append
       (join ", " (map (fun kv => String.append (quote (fst kv)) (String.append ": " (snd kv)))
                       (sort_by_key (map (fun kv => (fst kv, dumps (snd kv))) d))))
       "}").
Proof.
  simpl. do 4 f_equal.
  induction d as [| [k x] r IH]; [reflexivity |]. simpl. rewrite IH. reflexivity.
Qed.

Lemma dumps_canon v : dumps (canon v) = dumps v.
Proof.
  induction v as [| b | z | q | s | l IH | d IH] using pyval_induction; try reflexivity.
  - simpl. do 3 f_equal. rewrite map_map.
    induction IH as [| x r Hx Hr IHr]; [reflexivity |].
    simpl. rewrite Hx, IHr. reflexivity.
  - rewrite canon_dict, !dumps_dict. do 4 f_equal.
    rewrite <- (sort_by_key_map dumps (canon_items d)).
    rewrite sort_by_key_idempotent.
    f_equal. unfold canon_items. rewrite map_map. simpl.
    induction IH as [| kv r Hkv Hr IHr]; [reflexivity |].
    simpl. rewrite Hkv, IHr. reflexivity.
Qed.

Lemma all_nums_canon l : all_nums (map canon l) = all_nums l.
Proof.
  induction l as [| x r IH]; [reflexivity |].
  simpl. rewrite as_num_canon, IH. reflexivity.
Qed.

Lemma existsb_is_float_canon l : existsb is_float (map canon l) = existsb is_float l.
Proof.
  induction l as [| x r IH]; [reflexivity |].
  simpl. rewrite is_float_canon, IH. reflexivity.
Qed.

(** Iterating a dict yields its keys, which are strings: not numbers. *)
Lemma all_nums_keys (d : list (string * pyval)) :
  all_nums (map (fun kv => PStr (fst kv)) d) = match d with [] => Some [] | _ => None end.
Proof. destruct d; reflexivity. Qed.

Lemma sorted_items_empty d :
  match sort_by_key (canon_items d) with [] => true | _ => false end =
  match d with [] => true | _ => false end.
Proof.
  pose proof (sort_by_key_length (canon_items d)) as H.
  unfold canon_items in H. rewrite length_map in H.
  destruct d; destruct (sort_by_key _); simpl in H; try discriminate; reflexivity.
Qed.

Lemma mean_canon v : mean (canon v) = mean v.
Proof.
  destruct v as [| b | z | q | s | l | d]; try reflexivity.
  - unfold mean. simpl py_iter. unfold rbind.
    rewrite all_nums_canon, existsb_is_float_canon. reflexivity.
  - rewrite canon_dict. unfold mean. simpl py_iter. unfold rbind.
    rewrite !all_nums_keys.
    pose proof (sorted_items_empty d) as H.
    destruct d; destruct (sort_by_key _); try discriminate; reflexivity.
Qed.

Lemma stdev_canon v : stdev (canon v) = stdev v.
Proof.
  destruct v as [| b | z | q | s | l | d]; try reflexivity.
  - unfold stdev. simpl py_iter. unfold rbind.
    rewrite all_nums_canon. reflexivity.
  - rewrite canon_dict. unfold stdev. simpl py_iter. unfold rbind.
    rewrite !all_nums_keys.
    pose proof (sorted_items_empty d) as H.
    destruct d; destruct (sort_by_key _); try discriminate; reflexivity.
Qed.

Lemma set_mean_std_canon avg std v s :
  set_mean_std avg std (canon v) s = set_mean_std avg std v s.
Proof.
  unfold set_mean_std. rewrite mean_canon, py_len_canon, stdev_canon. reflexivity.
Qed.

Lemma pick_canon key default item :
  pick key (canon default) (canon item) = res_map (option_map canon) (pick key default item).
Proof.
  unfold pick, rbind.
  change PNone with (canon PNone) at 1. rewrite !py_get_canon.
  destruct (py_get item key PNone) as [c |]; [| reflexivity].
  cbn [res_map]. cbv iota beta. rewrite truthy_canon.
  destruct (truthy c); [| reflexivity].
  destruct (py_get item key default); reflexivity.
Qed.

Lemma rmap_pick_canon key default l :
  rmap (pick key (canon default)) (map canon l) =
  res_map (map (option_map canon)) (rmap (pick key default) l).
Proof.
  induction l as [| x r IH]; [reflexivity |].
  simpl. rewrite pick_canon, IH.
  destruct (pick key default x); [| reflexivity].
  simpl. destruct (rmap (pick key default) r); reflexivity.
Qed.

Lemma rmap_pick_strings key default (l : list string) :
  rmap (pick key default) (map PStr l) =
  match l with [] => Ok [] | _ => Raise AttributeError end.
Proof. destruct l; reflexivity. Qed.

Lemma flat_map_some_canon (l : list (option pyval)) :
  flat_map (fun o => match o with Some v => [v] | None => [] end) (map (option_map canon) l) =
  map canon (flat_map (fun o => match o with Some v => [v] | None => [] end) l).
Proof.
  induction l as [| [x |] r IH]; [reflexivity | |]; simpl; rewrite IH; reflexivity.
Qed.

Lemma get_all_truthy_pick coll key default :
  get_all_truthy coll key default =
  (items <- py_iter coll ;;
   picked <- rmap (pick key default) items ;;
   Ok (flat_map (fun o => match o with Some v => [v] | None => [] end) picked))%res.
Proof. reflexivity. Qed.

Lemma get_all_truthy_canon coll key default :
  get_all_truthy (canon coll) key (canon default) =
  res_map (map canon) (get_all_truthy coll key default).
Proof.
  rewrite !get_all_truthy_pick.
  destruct coll as [| b | z | q | s | l | d]; try reflexivity.
  - simpl canon. simpl py_iter. unfold rbind.
    replace (chars s) with (map PStr (map (fun a => String a EmptyString) (list_ascii_of_string s)))
      by (induction s as [| a r IH]; [reflexivity | simpl; rewrite IH; reflexivity]).
    rewrite !rmap_pick_strings.
    destruct (map _ (list_ascii_of_string s)); reflexivity.
  - simpl canon. simpl py_iter. unfold rbind.
    rewrite rmap_pick_canon.
    destruct (rmap (pick key default) l); [| reflexivity].
    simpl. rewrite flat_map_some_canon. reflexivity.
  - rewrite canon_dict. simpl py_iter. unfold rbind.
    rewrite <- !(map_map fst PStr). rewrite !rmap_pick_strings.
    pose proof (sorted_items_empty d) as H.
    destruct d; destruct (sort_by_key _); try discriminate; reflexivity.
Qed.

Lemma try_except_ext {S A} (s0 : S) (body body' : stmt S A) lv text (handler : S -> A) :
  body s0 = body' s0 ->
  try_except s0 body lv text handler = try_except s0 body' lv text handler.
Proof. intros H. unfold try_except. rewrite H. reflexivity. Qed.

Lemma bind_eval_ok {S A B} (a : A) (f : A -> stmt S B) s :
  bind (eval (Ok a)) f s = f a s.
Proof. unfold bind, eval. destruct (f a s) as [[s2 l2] r]. reflexivity. Qed.

Lemma bind_eval_raise {S A B} e (f : A -> stmt S B) s :
  bind (eval (Raise e)) f s = (s, [], Raise e).
Proof. reflexivity. Qed.

Lemma bind_ret {S A B} (a : A) (f : A -> stmt S B) s :
  bind (ret a) f s = f a s.
Proof. unfold bind, ret. destruct (f a s) as [[s2 l2] r]. reflexivity. Qed.

Lemma bind_assoc {S A B C} (m : stmt S A) (f : A -> stmt S B) (g : B -> stmt S C) s :
  bind (bind m f) g s = bind m (fun a => bind (f a) g) s.
Proof.
  unfold bind. destruct (m s) as [[s1 l1] [a | e]]; [| reflexivity].
  destruct (f a s1) as [[s2 l2] [b | e]]; [| reflexivity].
  destruct (g b s2) as [[s3 l3] r]. rewrite app_assoc. reflexivity.
Qed.

Lemma bind_ext {S A B} (m m' : stmt S A) (f f' : A -> stmt S B) s :
  m s = m' s -> (forall a s', f a s' = f' a s') -> bind m f s = bind m' f' s.
Proof.
  intros Hm Hf. unfold bind. rewrite Hm.
  destruct (m' s) as [[s1 l1] [a | e]]; [| reflexivity]. rewrite Hf. reflexivity.
Qed.

Ltac monad_simp :=
  repeat (rewrite ?bind_assoc, ?bind_eval_ok, ?bind_eval_raise, ?bind_ret; cbv beta).

Lemma truthy_map_canon l : truthy (PList (map canon l)) = truthy (PList l).
Proof. destruct l; reflexivity. Qed.

(** [if truthy v then set_mean_std ... v else ret tt] *)
Lemma guarded_mean_std_canon avg std v s :
  (if truthy (canon v) then set_mean_std avg std (canon v) else ret tt) s =
  (if truthy v then set_mean_std avg std v else ret tt) s.
Proof. rewrite truthy_canon. destruct (truthy v); [apply set_mean_std_canon | reflexivity]. Qed.

Lemma _extract_typing_features_canon typing_pattern :
  _extract_typing_features (canon typing_pattern) = _extract_typing_features typing_pattern.
Proof.
  unfold _extract_typing_features. apply try_except_ext.
  change (PList []) with (canon (PList [])). rewrite !py_get_canon.
  change (canon (PList [])) with (PList []).
  destruct (py_get typing_pattern "key_hold_times" (PList [])) as [h |]; [| reflexivity].
  cbn [res_map]. monad_simp.
  destruct (py_get typing_pattern "flight_times" (PList [])) as [f |]; [| reflexivity].
  cbn [res_map]. monad_simp.
  apply bind_ext.
  - rewrite truthy_canon. destruct (truthy h); [| reflexivity].
    rewrite py_index_canon.
    destruct (py_index h 0) as [first |]; [| reflexivity].
    cbn [res_map]. monad_simp. rewrite isinstance_dict_canon.
    destruct (isinstance_dict first); monad_simp.
    + change (PInt 0) with (canon (PInt 0)). rewrite get_all_truthy_canon.
      change (canon (PInt 0)) with (PInt 0).
      destruct (get_all_truthy h "hold_time" (PInt 0)) as [l |]; [| reflexivity].
      cbn [res_map]. monad_simp.
      apply (guarded_mean_std_canon _ _ (PList l)).
    + apply guarded_mean_std_canon.
  - intros _ s'. apply bind_ext; [apply guarded_mean_std_canon | reflexivity].
Qed.

Lemma _extract_touch_features_canon touch_patterns :
  _extract_touch_features (canon touch_patterns) = _extract_touch_features touch_patterns.
Proof.
  unfold _extract_touch_features. apply try_except_ext.
  change (PList []) with (canon (PList [])). rewrite !py_get_canon.
  change (canon (PList [])) with (PList []).
  destruct (py_get touch_patterns "swipe_speeds" (PList [])) as [h |]; [| reflexivity].
  cbn [res_map]. monad_simp.
  destruct (py_get touch_patterns "touch_pressures" (PList [])) as [f |]; [| reflexivity].
  cbn [res_map]. monad_simp.
  apply bind_ext; [apply guarded_mean_std_canon |].
  intros _ s'. apply bind_ext; [apply guarded_mean_std_canon | reflexivity].
Qed.

Lemma py_eq_str_canon s y : py_eq (PStr s) (canon y) = py_eq (PStr s) y.
Proof. destruct y; reflexivity. Qed.

Lemma py_in_str_canon s c : py_in (PStr s) (canon c) = py_in (PStr s) c.
Proof.
  destruct c as [| b | z | q | t | l | d]; try reflexivity.
  - rewrite canon_list. cbn [py_in]. f_equal. induction l as [| y r IH]; [reflexivity |].
    cbn [map existsb]. rewrite py_eq_str_canon, IH. reflexivity.
  - rewrite canon_dict. simpl. rewrite lookup_canon.
    destruct (lookup s d); reflexivity.
Qed.

Lemma has_x_y_canon m : has_x_y (canon m) = has_x_y m.
Proof. unfold has_x_y. rewrite !py_in_str_canon. reflexivity. Qed.

Lemma py_sub_canon a b : py_sub (canon a) (canon b) = py_sub a b.
Proof. unfold py_sub. rewrite !as_num_canon, !is_float_canon. reflexivity. Qed.

Lemma delta_canon cur prev key : delta (canon cur) (canon prev) key = delta cur prev key.
Proof.
  unfold delta, rbind. rewrite !py_item_canon.
  destruct (py_item cur key) as [a |]; [| reflexivity].
  destruct (py_item prev key) as [b |]; [| reflexivity].
  apply py_sub_canon.
Qed.

Lemma movement_angles_loop_canon mouse_movements n :
  forall i movement_angles,
    movement_angles_loop (canon mouse_movements) i n movement_angles =
    movement_angles_loop mouse_movements i n movement_angles.
Proof.
  induction n as [| n IH]; intros i angles; [reflexivity |].
  cbn [movement_angles_loop]. unfold rbind.
  rewrite !py_index_canon.
  destruct (py_index mouse_movements i) as [cur |]; [| reflexivity].
  cbn [res_map]. rewrite has_x_y_canon.
  destruct (has_x_y cur) as [[|] |]; try reflexivity.
  - destruct (py_index mouse_movements (i - 1)) as [prev |]; [| reflexivity].
    cbn [res_map]. rewrite has_x_y_canon.
    destruct (has_x_y prev) as [[|] |]; try reflexivity.
    + rewrite !delta_canon.
      destruct (delta cur prev "x") as [dx |]; [| reflexivity].
      destruct (delta cur prev "y") as [dy |]; [| reflexivity].
      destruct (negb (py_eq dx (PInt 0))); [| apply IH].
      destruct (py_truediv dy dx) as [q |]; [| reflexivity].
      destruct (py_abs q); [apply IH | reflexivity].
    + apply IH.
  - apply IH.
Qed.

(** [if speeds: features[avg] = ...; features[std] = ...] *)
Lemma listed_mean_std_canon avg std l s :
  (match map canon l with
   | [] => ret tt
   | _ => set_mean_std avg std (PList (map canon l))
   end) s =
  (match l with
   | [] => ret tt
   | _ => set_mean_std avg std (PList l)
   end) s.
Proof.
  destruct l as [| x r]; [reflexivity |].
  change (PList (map canon (x :: r))) with (canon (PList (x :: r))).
  apply set_mean_std_canon.
Qed.

Lemma _extract_mouse_features_canon mouse_movements :
  _extract_mouse_features (canon mouse_movements) = _extract_mouse_features mouse_movements.
Proof.
  unfold _extract_mouse_features. apply try_except_ext.
  rewrite truthy_canon. destruct (truthy mouse_movements); [| reflexivity].
  cbn [negb].
  change (PInt 0) with (canon (PInt 0)). rewrite get_all_truthy_canon.
  change (canon (PInt 0)) with (PInt 0).
  destruct (get_all_truthy mouse_movements "speed" (PInt 0)) as [speeds |]; [| reflexivity].
  cbn [res_map]. monad_simp.
  apply bind_ext; [apply listed_mean_std_canon |].
  intros _ s'. rewrite py_len_canon.
  destruct (py_len mouse_movements) as [n |]; [| reflexivity].
  monad_simp. rewrite movement_angles_loop_canon. reflexivity.
Qed.

Lemma map_canon_hashable l : forallb hashable l = true -> map canon l = l.
Proof.
  induction l as [| x r IH]; [reflexivity |].
  simpl. intros H. apply andb_true_iff in H as [Hx Hr].
  rewrite canon_hashable, IH by assumption. reflexivity.
Qed.

Lemma forallb_hashable_canon l : forallb hashable (map canon l) = forallb hashable l.
Proof.
  induction l as [| x r IH]; [reflexivity |].
  simpl. rewrite hashable_canon, IH. reflexivity.
Qed.

Lemma most_common_canon directions :
  most_common (map canon directions) = most_common directions.
Proof.
  unfold most_common, py_set, rbind. rewrite forallb_hashable_canon.
  destruct (forallb hashable directions) eqn:E; [| reflexivity].
  rewrite (map_canon_hashable directions E). reflexivity.
Qed.

Lemma _extract_scroll_features_canon scroll_events :
  _extract_scroll_features (canon scroll_events) = _extract_scroll_features scroll_events.
Proof.
  unfold _extract_scroll_features. apply try_except_ext.
  rewrite truthy_canon. destruct (truthy scroll_events); [| reflexivity].
  cbn [negb].
  change (PInt 0) with (canon (PInt 0)).
  change (PStr EmptyString) with (canon (PStr EmptyString)).
  rewrite !get_all_truthy_canon.
  change (canon (PInt 0)) with (PInt 0).
  change (canon (PStr EmptyString)) with (PStr EmptyString).
  destruct (get_all_truthy scroll_events "speed" (PInt 0)) as [speeds |]; [| reflexivity].
  cbn [res_map]. monad_simp.
  apply bind_ext; [apply listed_mean_std_canon |].
  intros _ s'.
  destruct (get_all_truthy scroll_events "direction" (PStr EmptyString)) as [directions |];
    [| reflexivity].
  cbn [res_map]. monad_simp.
  apply bind_ext; [| reflexivity].
  destruct directions as [| d0 r]; [reflexivity |].
  cbn [map]. change (canon d0 :: map canon r) with (map canon (d0 :: r)).
  rewrite most_common_canon. reflexivity.
Qed.

Lemma _extract_web_typing_features_canon keystroke_timing :
  _extract_web_typing_features (canon keystroke_timing) =
  _extract_web_typing_features keystroke_timing.
Proof.
  unfold _extract_web_typing_features. apply try_except_ext.
  rewrite truthy_canon. destruct (truthy keystroke_timing); [| reflexivity].
  cbn [negb].
  change (PInt 0) with (canon (PInt 0)). rewrite !get_all_truthy_canon.
  change (canon (PInt 0)) with (PInt 0).
  destruct (get_all_truthy keystroke_timing "hold_time" (PInt 0)) as [holds |]; [| reflexivity].
  cbn [res_map]. monad_simp.
  destruct (get_all_truthy keystroke_timing "next_key_delay" (PInt 0)) as [flights |];
    [| reflexivity].
  cbn [res_map]. monad_simp.
  apply bind_ext; [apply listed_mean_std_canon |].
  intros _ s'. apply bind_ext; [apply listed_mean_std_canon | reflexivity].
Qed.

Lemma get_or_canon d k default :
  get_or (sort_by_key (canon_items d)) k (canon default) = canon (get_or d k default).
Proof. unfold get_or. rewrite lookup_canon. destruct (lookup k d); reflexivity. Qed.

Lemma _create_browser_fingerprint_dict d :
  _create_browser_fingerprint (PDict d) =
  (match d with [] => [] | _ => fingerprint_of d end, []).
Proof. destruct d; reflexivity. Qed.

Lemma fingerprint_of_canon d :
  fingerprint_of (sort_by_key (canon_items d)) = canon_items (fingerprint_of d).
Proof.
  unfold fingerprint_of. cbn [canon_items map fst snd].
  repeat (f_equal;
          [ f_equal;
            first [ exact (get_or_canon d _ (PStr EmptyString))
                  | exact (get_or_canon d _ (PDict [])) ]
          | ]).
  do 2 f_equal. exact (get_or_canon d _ (PStr EmptyString)).
Qed.

Lemma _create_browser_fingerprint_not_dict v :
  isinstance_dict v = false ->
  _create_browser_fingerprint v =
  ([], if truthy v
       then [{| lvl := WARNING; msg := "Browser fingerprint creation failed";
                cause := AttributeError |}]
       else []).
Proof.
  intros H. unfold _create_browser_fingerprint, try_except.
  destruct (truthy v); [| reflexivity].
  destruct v; try discriminate; reflexivity.
Qed.

Lemma _create_browser_fingerprint_canon browser_info :
  _create_browser_fingerprint (canon browser_info) =
  (canon_items (fst (_create_browser_fingerprint browser_info)),
   snd (_create_browser_fingerprint browser_info)).
Proof.
  destruct (isinstance_dict browser_info) eqn:Ed.
  - destruct browser_info as [| b | z | q | s | l | d]; try discriminate.
    rewrite canon_dict, !_create_browser_fingerprint_dict.
    pose proof (sorted_items_empty d) as H.
    destruct (sort_by_key (canon_items d)) as [| kv r] eqn:E; destruct d as [| kv' r'];
      try discriminate; [reflexivity |].
    rewrite <- E. cbn [fst snd]. rewrite fingerprint_of_canon. reflexivity.
  - rewrite !_create_browser_fingerprint_not_dict
      by (rewrite ?isinstance_dict_canon; assumption).
    rewrite truthy_canon. reflexivity.
Qed.

Lemma bind_call {S A B} (c c' : A * log) (f f' : A -> stmt S B) s :
  snd c = snd c' -> f (fst c) s = f' (fst c') s -> bind (call c) f s = bind (call c') f' s.
Proof. intros Hl Hf. unfold bind, call. rewrite Hl, Hf. reflexivity. Qed.

(** The text hashed for a sample is the text hashed for its canonical form. *)
Lemma create_biometric_signature_canon biometric_data :
  create_biometric_signature (canon biometric_data) = create_biometric_signature biometric_data.
Proof.
  unfold create_biometric_signature. apply try_except_ext.
  unfold create_biometric_signature_body.
  change (PDict []) with (canon (PDict [])). rewrite !py_get_canon.
  change (canon (PDict [])) with (PDict []).
  destruct (py_get biometric_data "typing_pattern" (PDict [])) as [tp |]; [| reflexivity].
  cbn [res_map]. monad_simp. rewrite _extract_typing_features_canon.
  apply bind_call; [reflexivity |].
  destruct (py_get biometric_data "touch_patterns" (PDict [])) as [touch |]; [| reflexivity].
  cbn [res_map]. monad_simp. rewrite _extract_touch_features_canon.
  apply bind_call; [reflexivity |].
  destruct (py_get biometric_data "device_characteristics" (PDict [])) as [dc |]; [| reflexivity].
  cbn [res_map]. monad_simp.
  change (PStr EmptyString) with (canon (PStr EmptyString)). rewrite py_get_canon.
  change (canon (PStr EmptyString)) with (PStr EmptyString).
  destruct (py_get dc "device_id" (PStr EmptyString)) as [device_id |]; [| reflexivity].
  cbn [res_map]. monad_simp. cbv zeta.
  rewrite !dumps_dict. cbn [map fst snd]. rewrite dumps_canon. reflexivity.
Qed.

Lemma dumps_canon_items d : dumps (PDict (canon_items d)) = dumps (PDict d).
Proof.
  rewrite !dumps_dict. do 5 f_equal. unfold canon_items. rewrite map_map. cbn [fst snd].
  apply map_ext. intros [k x]. cbn [fst snd]. rewrite dumps_canon. reflexivity.
Qed.

Lemma create_web_behavioral_signature_canon web_data :
  create_web_behavioral_signature (canon web_data) = create_web_behavioral_signature web_data.
Proof.
  unfold create_web_behavioral_signature. apply try_except_ext.
  unfold create_web_behavioral_signature_body.
  change (PDict []) with (canon (PDict [])). change (PList []) with (canon (PList [])).
  rewrite !py_get_canon.
  change (canon (PDict [])) with (PDict []). change (canon (PList [])) with (PList []).
  destruct (py_get web_data "mouse_movements" (PList [])) as [mm |]; [| reflexivity].
  cbn [res_map]. monad_simp. rewrite _extract_mouse_features_canon.
  apply bind_call; [reflexivity |].
  destruct (py_get web_data "scroll_events" (PList [])) as [se |]; [| reflexivity].
  cbn [res_map]. monad_simp. rewrite _extract_scroll_features_canon.
  apply bind_call; [reflexivity |].
  destruct (py_get web_data "keystroke_timing" (PList [])) as [kt |]; [| reflexivity].
  cbn [res_map]. monad_simp. rewrite _extract_web_typing_features_canon.
  apply bind_call; [reflexivity |].
  destruct (py_get web_data "browser_info" (PDict [])) as [bi |]; [| reflexivity].
  cbn [res_map]. monad_simp. rewrite _create_browser_fingerprint_canon.
  apply bind_call; [reflexivity |]. cbn [fst]. cbv zeta.
  unfold ret. do 3 f_equal.
  rewrite !dumps_dict. cbn [map fst snd]. rewrite dumps_canon_items. reflexivity.
Qed.

Lemma hex8_length w : String.length (hex8 w) = 8%nat.
Proof. reflexivity. Qed.

Lemma append_length s t : String.length (String.append s t) = (String.length s + String.length t)%nat.
Proof. induction s as [| a r IH]; [reflexivity |]. simpl. rewrite IH. reflexivity. Qed.

(** A digest is 64 hexadecimal digits: 256 bits. *)
Lemma sha256_hexdigest_length data : String.length (sha256_hexdigest data) = 64%nat.
Proof. unfold sha256_hexdigest. cbv zeta. rewrite !append_length, !hex8_length. reflexivity. Qed.

Lemma signature_of_canon biometric_data :
  fst (create_biometric_signature biometric_data) =
  fst (create_biometric_signature (canon biometric_data)) /\
  fst (create_web_behavioral_signature biometric_data) =
  fst (create_web_behavioral_signature (canon biometric_data)).
Proof.
  rewrite create_biometric_signature_canon, create_web_behavioral_signature_canon.
  split; reflexivity.
Qed.

Lemma create_biometric_signature_body_value biometric_data s l v :
  create_biometric_signature_body biometric_data tt = (s, l, Ok v) ->
  String.length v = 64%nat.
Proof.
  intros H.
  assert (Hh : hoare (fun _ => True) (create_biometric_signature_body biometric_data)
                 (fun v => String.length v = 64%nat)).
  { unfold create_biometric_signature_body.
    skip_bind tp. skip_bind tr. skip_bind touch. skip_bind tps. skip_bind dc. skip_bind did.
    apply hoare_ret. apply sha256_hexdigest_length. }
  specialize (Hh tt I). rewrite H in Hh. apply Hh.
Qed.

Lemma create_web_behavioral_signature_body_value web_data s l v :
  create_web_behavioral_signature_body web_data tt = (s, l, Ok v) ->
  String.length v = 64%nat.
Proof.
  intros H.
  assert (Hh : hoare (fun _ => True) (create_web_behavioral_signature_body web_data)
                 (fun v => String.length v = 64%nat)).
  { unfold create_web_behavioral_signature_body.
    skip_bind mm. skip_bind mp. skip_bind se. skip_bind sp. skip_bind kt. skip_bind tr.
    skip_bind bi. skip_bind bf.
    apply hoare_ret. apply sha256_hexdigest_length. }
  specialize (Hh tt I). rewrite H in Hh. apply Hh.
Qed.

(** C3 (amended).  Two samples with the same content, their dicts filled in
    different orders, get the same signature from either builder.  A builder
    returns the empty string when an exception reaches its own handler, and a
    digest of 64 hexadecimal digits in every other case, also when an extractor
    caught an exception of its own. *)
Theorem signature_independent_of_insertion_order (a b : pyval) :
  same_content a b ->
  (fst (create_biometric_signature a) = fst (create_biometric_signature b) /\
   fst (create_web_behavioral_signature a) = fst (create_web_behavioral_signature b)) /\
  (forall s l e, create_biometric_signature_body a tt = (s, l, Raise e) ->
                 fst (create_biometric_signature a) = EmptyString) /\
  (forall s l e, create_web_behavioral_signature_body a tt = (s, l, Raise e) ->
                 fst (create_web_behavioral_signature a) = EmptyString) /\
  (forall s l v, create_biometric_signature_body a tt = (s, l, Ok v) ->
                 fst (create_biometric_signature a) = v /\ String.length v = 64%nat) /\
  (forall s l v, create_web_behavioral_signature_body a tt = (s, l, Ok v) ->
                 fst (create_web_behavioral_signature a) = v /\ String.length v = 64%nat).
Proof.
  intros Hab. unfold same_content in Hab.
  split; [| split; [| split; [| split]]].
  - destruct (signature_of_canon a) as [Ha1 Ha2].
    destruct (signature_of_canon b) as [Hb1 Hb2].
    rewrite Ha1, Ha2, Hb1, Hb2, Hab. split; reflexivity.
  - intros s l e H. unfold create_biometric_signature.
    erewrite try_except_log_raise by exact H. reflexivity.
  - intros s l e H. unfold create_web_behavioral_signature.
    erewrite try_except_log_raise by exact H. reflexivity.
  - intros s l v H. split.
    + unfold create_biometric_signature. erewrite try_except_log_ok by exact H. reflexivity.
    + eapply create_biometric_signature_body_value. exact H.
  - intros s l v H. split.
    + unfold create_web_behavioral_signature. erewrite try_except_log_ok by exact H.
      reflexivity.
    + eapply create_web_behavioral_signature_body_value. exact H.
Qed.

(** Which exceptions reach the handler of a builder.  On a dict the web
    builder never raises; the mobile builder raises exactly when
    [device_characteristics] is present and is not a dict. *)
Lemma create_web_behavioral_signature_body_no_raise d :
  no_raise (create_web_behavioral_signature_body (PDict d)).
Proof. unfold create_web_behavioral_signature_body. no_raise_tac. Qed.

Lemma create_biometric_signature_body_no_raise d :
  isinstance_dict (get_or d "device_characteristics" (PDict [])) = true ->
  no_raise (create_biometric_signature_body (PDict d)).
Proof.
  intros H. unfold create_biometric_signature_body.
  eapply no_raise_eval_bind; [reflexivity |].
  apply no_raise_bind; [apply no_raise_call | intros tr].
  eapply no_raise_eval_bind; [reflexivity |].
  apply no_raise_bind; [apply no_raise_call | intros tp].
  eapply no_raise_eval_bind; [reflexivity |].
  fold (get_or d "device_characteristics" (PDict [])).
  destruct (get_or d "device_characteristics" (PDict [])); try discriminate.
  eapply no_raise_eval_bind; [reflexivity |]. apply no_raise_ret.
Qed.

Lemma create_biometric_signature_not_a_dict d :
  isinstance_dict (get_or d "device_characteristics" (PDict [])) = false ->
  fst (create_biometric_signature (PDict d)) = EmptyString.
Proof.
  intros H. unfold create_biometric_signature, try_except, create_biometric_signature_body,
    bind, eval, call, ret, py_get at 1 2 3.
  fold (get_or d "device_characteristics" (PDict [])).
  destruct (_extract_typing_features (get_or d "typing_pattern" (PDict []))) as [tr l1].
  destruct (_extract_touch_features (get_or d "touch_patterns" (PDict []))) as [tp l2].
  unfold get_or in *. cbn [fst snd].
  destruct (match lookup "device_characteristics" d with Some x => x | None => PDict [] end);
    try discriminate; reflexivity.
Qed.

(** ** [same_content] holds of a sample and any reordering of its dicts *)

Lemma ascii_compare_refl a : Ascii.compare a a = Eq.
Proof. unfold Ascii.compare. apply N.compare_refl. Qed.

Lemma string_compare_refl s : String.compare s s = Eq.
Proof.
  induction s as [| a r IH]; [reflexivity |]. simpl. rewrite ascii_compare_refl. exact IH.
Qed.

Lemma string_compare_lt_trans a : forall b c,
  String.compare a b = Lt -> String.compare b c = Lt -> String.compare a c = Lt.
Proof.
  induction a as [| x a IH]; intros [| y b] [| z c]; simpl; try discriminate; try reflexivity.
  destruct (Ascii.compare x y) eqn:Exy; try discriminate;
    destruct (Ascii.compare y z) eqn:Eyz; try discriminate; intros H1 H2.
  - apply Ascii.compare_eq_iff in Exy, Eyz. subst. rewrite ascii_compare_refl.
    eapply IH; eassumption.
  - apply Ascii.compare_eq_iff in Exy. subst. rewrite Eyz. reflexivity.
  - apply Ascii.compare_eq_iff in Eyz. subst. rewrite Exy. reflexivity.
  - unfold Ascii.compare in *. rewrite N.compare_lt_iff in *.
    assert (Hlt : (N_of_ascii x < N_of_ascii z)%N) by (eapply N.lt_trans; eassumption).
    apply N.compare_lt_iff in Hlt. rewrite Hlt. reflexivity.
Qed.

Lemma string_leb_trans a b c :
  String.leb a b = true -> String.leb b c = true -> String.leb a c = true.
Proof.
  unfold String.leb.
  destruct (String.compare a b) eqn:Eab; try discriminate;
    destruct (String.compare b c) eqn:Ebc; try discriminate; intros _ _.
  - apply String.compare_eq_iff in Eab, Ebc. subst.
    rewrite string_compare_refl. reflexivity.
  - apply String.compare_eq_iff in Eab. subst. rewrite Ebc. reflexivity.
  - apply String.compare_eq_iff in Ebc. subst. rewrite Eab. reflexivity.
  - rewrite (string_compare_lt_trans a b c Eab Ebc). reflexivity.
Qed.

Lemma string_leb_both a b : String.leb a b = true -> String.leb b a = true -> a = b.
Proof. intros H1 H2. apply String.leb_antisym; assumption. Qed.

Lemma string_leb_false a b : String.leb a b = false -> String.leb b a = true.
Proof. intros H. destruct (String.leb_total a b); congruence. Qed.

(** Two items with different keys are inserted in either order to the same
    effect. *)
Lemma insert_by_key_comm {V} (a b : string * V) (l : list (string * V)) :
  fst a <> fst b ->
  insert_by_key a (insert_by_key b l) = insert_by_key b (insert_by_key a l).
Proof.
  intros Hne.
  assert (Hab : String.leb (fst a) (fst b) = negb (String.leb (fst b) (fst a))).
  { destruct (String.leb (fst a) (fst b)) eqn:Eab;
      destruct (String.leb (fst b) (fst a)) eqn:Eba; try reflexivity.
    - exfalso. apply Hne. apply string_leb_both; assumption.
    - apply string_leb_false in Eab. congruence. }
  induction l as [| c r IH].
  - simpl. rewrite Hab. destruct (String.leb (fst b) (fst a)); reflexivity.
  - cbn [insert_by_key].
    destruct (String.leb (fst b) (fst c)) eqn:Ebc;
      destruct (String.leb (fst a) (fst c)) eqn:Eac;
      cbn [insert_by_key]; rewrite ?Ebc, ?Eac.
    + rewrite Hab. destruct (String.leb (fst b) (fst a)) eqn:Eba; reflexivity.
    + destruct (String.leb (fst a) (fst b)) eqn:Eab; [| reflexivity].
      rewrite (string_leb_trans _ _ _ Eab Ebc) in Eac. discriminate.
    + destruct (String.leb (fst b) (fst a)) eqn:Eba; [| reflexivity].
      rewrite (string_leb_trans _ _ _ Eba Eac) in Ebc. discriminate.
    + rewrite IH. reflexivity.
Qed.

Lemma sort_by_key_permutation {V} (l1 l2 : list (string * V)) :
  Permutation l1 l2 -> NoDup (map fst l1) -> sort_by_key l1 = sort_by_key l2.
Proof.
  intros HP. induction HP as [| x l l' HP IH | x y l | l l' l'' HP1 IH1 HP2 IH2]; intros Hnd.
  - reflexivity.
  - simpl. rewrite IH; [reflexivity |]. simpl in Hnd. inversion Hnd; assumption.
  - simpl. apply insert_by_key_comm.
    simpl in Hnd. inversion Hnd as [| ? ? Hin _]. subst.
    intros Heq. apply Hin. left. symmetry. exact Heq.
  - rewrite IH1 by assumption. apply IH2.
    eapply Permutation_NoDup; [apply Permutation_map; exact HP1 | exact Hnd].
Qed.

(** A dict and the same items inserted in another order have the same
    content. *)
Lemma same_content_permutation (d1 d2 : list (string * pyval)) :
  NoDup (map fst d1) -> Permutation d1 d2 -> same_content (PDict d1) (PDict d2).
Proof.
  intros Hnd HP. unfold same_content. rewrite !canon_dict. f_equal.
  apply sort_by_key_permutation.
  - unfold canon_items. apply Permutation_map. exact HP.
  - unfold canon_items. rewrite map_map. simpl. exact Hnd.
Qed.

(** Reordering inside the elements of a list or inside the values of a dict
    keeps the content too; with the lemma above, so does any reordering of
    dicts at any depth. *)
Lemma same_content_list (l1 l2 : list pyval) :
  Forall2 same_content l1 l2 -> same_content (PList l1) (PList l2).
Proof.
  intros H. unfold same_content. rewrite !canon_list. f_equal.
  induction H as [| x y r1 r2 Hxy Hr IH]; [reflexivity |].
  simpl. rewrite Hxy, IH. reflexivity.
Qed.

Lemma same_content_values (d1 d2 : list (string * pyval)) :
  Forall2 (fun kv kv' => fst kv = fst kv' /\ same_content (snd kv) (snd kv')) d1 d2 ->
  same_content (PDict d1) (PDict d2).
Proof.
  intros H. unfold same_content. rewrite !canon_dict. do 2 f_equal.
  unfold canon_items.
  induction H as [| kv kv' r1 r2 [Hk Hv] Hr IH]; [reflexivity |].
  simpl. rewrite Hk, Hv, IH. reflexivity.
Qed.

Lemma same_content_trans (a b c : pyval) :
  same_content a b -> same_content b c -> same_content a c.
Proof. unfold same_content. congruence. Qed.

(** ** The analyzers, channel by channel *)

Lemma hoare_eval_eq {S A} (r : res A) :
  hoare (fun _ : S => True) (eval r) (fun a => r = Ok a).
Proof. apply hoare_eval. auto. Qed.

Lemma hoare_call_eq {S A} (c : A * log) :
  hoare (fun _ : S => True) (call c) (fun a => a = fst c).
Proof. apply hoare_call. reflexivity. Qed.

Lemma mobile_channel_run (verifier : pyval -> pyval -> Q * log)
    current_data key stored_profile (present : bool) weight cf :
  hoare (fun _ : unit => True)
    (if present then
       (v <- eval (py_item current_data key) ;;
        score <- call (verifier v stored_profile) ;;
        ret (cf ++ [score * weight]))%stmt
     else ret cf)
    (fun cf' => exists score,
         scored_by verifier current_data key stored_profile present score /\
         cf' = cf ++ channel present score weight).
Proof.
  destruct present.
  - eapply hoare_bind; [apply hoare_eval_eq | intros v Hv].
    eapply hoare_bind; [apply hoare_call_eq | intros score ->].
    apply hoare_ret. eexists. split; [| reflexivity].
    intros _. exists v. split; [exact Hv | reflexivity].
  - apply hoare_ret. exists 0. split; [intros H; discriminate |].
    simpl. rewrite app_nil_r. reflexivity.
Qed.

Lemma verify_behavioral_match_body_run current_data stored_profile :
  hoare (fun _ => True) (verify_behavioral_match_body current_data stored_profile)
        (mobile_run current_data stored_profile).
Proof.
  unfold verify_behavioral_match_body. cbv zeta.
  eapply hoare_bind; [apply hoare_eval_eq | intros typing Htyping].
  eapply hoare_bind; [apply mobile_channel_run | intros cf1 (t & Ht & ->)].
  eapply hoare_bind; [apply hoare_eval_eq | intros touch Htouch].
  eapply hoare_bind; [apply mobile_channel_run | intros cf2 (u & Hu & ->)].
  eapply hoare_bind; [apply hoare_eval_eq | intros device Hdevice].
  eapply hoare_bind; [apply mobile_channel_run | intros cf3 (v & Hv & ->)].
  eapply hoare_bind; [apply hoare_call_eq | intros anomalies ->].
  apply hoare_ret.
  exists typing, touch, device, t, u, v.
  repeat (split; [assumption |]).
  cbv zeta. unfold overall. rewrite <- app_assoc. reflexivity.
Qed.

(** The result of [verify_behavioral_match]: the channels' weighted scores
    summed, or the triple of the handler. *)
Lemma verify_behavioral_match_run current_data stored_profile :
  mobile_run current_data stored_profile
    (fst (verify_behavioral_match current_data stored_profile)) \/
  fst (verify_behavioral_match current_data stored_profile) = (false, 0, 1).
Proof.
  unfold verify_behavioral_match.
  destruct (try_except_cases tt (verify_behavioral_match_body current_data stored_profile)
              ERROR "Behavioral verification failed" (fun _ => (false, 0, 1)))
    as [(s & l & a & Hb & ->) | (s & l & e & Hb & ->)].
  - left. simpl.
    pose proof (verify_behavioral_match_body_run current_data stored_profile tt I) as H.
    rewrite Hb in H. apply H.
  - right. reflexivity.
Qed.

Lemma web_channel_run (verifier : pyval -> pyval -> Q * log)
    current_data key stored_profile stored_key (present : bool) weight cf :
  hoare (fun _ : unit => True)
    (if present then
       (v <- eval (py_item current_data key) ;;
        w <- eval (py_item stored_profile stored_key) ;;
        score <- call (verifier v w) ;;
        ret (cf ++ [score * weight]))%stmt
     else ret cf)
    (fun cf' => exists score,
         scored_on verifier current_data key stored_profile stored_key present score /\
         cf' = cf ++ channel present score weight).
Proof.
  destruct present.
  - eapply hoare_bind; [apply hoare_eval_eq | intros v Hv].
    eapply hoare_bind; [apply hoare_eval_eq | intros w Hw].
    eapply hoare_bind; [apply hoare_call_eq | intros score ->].
    apply hoare_ret. eexists. split; [| reflexivity].
    intros _. exists v, w. repeat split; assumption.
  - apply hoare_ret. exists 0. split; [intros H; discriminate |].
    simpl. rewrite app_nil_r. reflexivity.
Qed.

Lemma verify_web_behavior_body_run current_data stored_profile :
  hoare (fun _ => True) (verify_web_behavior_body current_data stored_profile)
        (web_run current_data stored_profile).
Proof.
  unfold verify_web_behavior_body. cbv zeta.
  eapply hoare_bind; [apply hoare_eval_eq | intros mouse Hmouse].
  eapply hoare_bind; [apply web_channel_run | intros cf1 (m & Hm & ->)].
  eapply hoare_bind; [apply hoare_eval_eq | intros typing Htyping].
  eapply hoare_bind; [apply web_channel_run | intros cf2 (t & Ht & ->)].
  eapply hoare_bind; [apply hoare_eval_eq | intros scroll Hscroll].
  eapply hoare_bind; [apply web_channel_run | intros cf3 (s & Hs & ->)].
  eapply hoare_bind; [apply hoare_eval_eq | intros browser Hbrowser].
  apply hoare_bind with
    (P := fun cf' => exists b,
              (browser = true ->
               exists v w, py_item current_data "browser_info" = Ok v /\
                           py_get stored_profile "browser_fingerprint" (PDict []) = Ok w /\
                           b = fst (_verify_browser_fingerprint v w)) /\
              cf' = (([] ++ channel mouse m (4 # 10)) ++ channel typing t (3 # 10)) ++
                    channel scroll s (2 # 10) ++ channel browser b (1 # 10)).
  { destruct browser.
    - eapply hoare_bind; [apply hoare_eval_eq | intros v Hv].
      eapply hoare_bind; [apply hoare_eval_eq | intros w Hw].
      eapply hoare_bind; [apply hoare_call_eq | intros score ->].
      apply hoare_ret. eexists. split; [| rewrite <- app_assoc; reflexivity].
      intros _. exists v, w. repeat split; assumption.
    - apply hoare_ret. exists 0. split; [intros H; discriminate |].
      simpl. rewrite !app_nil_r. reflexivity. }
  intros cf4 (b & Hb & ->).
  eapply hoare_bind; [apply hoare_call_eq | intros anomalies ->].
  apply hoare_ret.
  exists mouse, typing, scroll, browser, m, t, s, b.
  repeat (split; [assumption |]).
  cbv zeta. unfold overall. simpl app at 1. rewrite <- !app_assoc. reflexivity.
Qed.

Lemma verify_web_behavior_run current_data stored_profile :
  web_run current_data stored_profile
    (fst (verify_web_behavior current_data stored_profile)) \/
  fst (verify_web_behavior current_data stored_profile) = (false, 0, 1).
Proof.
  unfold verify_web_behavior.
  destruct (try_except_cases tt (verify_web_behavior_body current_data stored_profile)
              ERROR "Web behavior verification failed" (fun _ => (false, 0, 1)))
    as [(s & l & a & Hb & ->) | (s & l & e & Hb & ->)].
  - left. simpl.
    pose proof (verify_web_behavior_body_run current_data stored_profile tt I) as H.
    rewrite Hb in H. apply H.
  - right. reflexivity.
Qed.

(** ** The values a channel score takes *)

Lemma _verify_typing_pattern_values current_typing stored_profile :
  let t := fst (_verify_typing_pattern current_typing stored_profile) in
  t == 0 \/ t == 3 # 10 \/ t == 7 # 10.
Proof.
  cbv zeta. unfold _verify_typing_pattern.
  apply try_except_value with (I := fun _ => True); [exact I | | intros; left; reflexivity].
  skip_bind features. skip_bind present.
  apply hoare_bind with (P := fun s => s == 0 \/ s == 3 # 10 \/ s == 7 # 10).
  - destruct present; [| apply hoare_ret; left; reflexivity].
    skip_bind stored. skip_bind current. skip_bind difference. skip_bind le02.
    destruct le02; [apply hoare_ret; right; right; lra |].
    skip_bind le04. destruct le04; apply hoare_ret; [right; left; lra | left; lra].
  - intros s Hs. apply hoare_ret. destruct Hs as [Hs | [Hs | Hs]]; qminmax; lra.
Qed.

Lemma _verify_touch_patterns_values current_touch stored_profile :
  let u := fst (_verify_touch_patterns current_touch stored_profile) in
  u == 0 \/ u == 5 # 10 \/ u == 1.
Proof.
  cbv zeta. unfold _verify_touch_patterns.
  apply try_except_value with (I := fun _ => True); [exact I | | intros; left; reflexivity].
  skip_bind features. skip_bind present.
  apply hoare_bind with (P := fun s => s == 0 \/ s == 5 # 10).
  - destruct present; [| apply hoare_ret; left; reflexivity].
    skip_bind stored. skip_bind current. skip_bind difference. skip_bind le03.
    destruct le03; apply hoare_ret; [right; lra | left; lra].
  - intros s Hs. skip_bind present2.
    apply hoare_bind with (P := fun s => s == 0 \/ s == 5 # 10 \/ s == 1).
    + destruct present2; [| apply hoare_ret; destruct Hs; [left | right; left]; assumption].
      skip_bind stored. skip_bind current. skip_bind difference. skip_bind le025.
      destruct le025; apply hoare_ret; destruct Hs as [Hs | Hs];
        [right; left | right; right | left | right; left]; lra.
    + intros s' Hs'. apply hoare_ret. destruct Hs' as [H | [H | H]]; qminmax; lra.
Qed.

Lemma _verify_device_values current_device stored_profile :
  let v := fst (_verify_device current_device stored_profile) in
  v == 0 \/ v == 5 # 10 \/ v == 1.
Proof.
  cbv zeta. unfold _verify_device.
  apply try_except_value with (I := fun _ => True); [exact I | | intros; left; reflexivity].
  skip_bind device_id. skip_bind trusted. skip_bind exact.
  destruct exact; [apply hoare_ret; right; right; reflexivity |].
  skip_bind current_os. skip_bind stored_chars. skip_bind stored_os.
  apply hoare_ret.
  destruct (truthy current_os && truthy stored_os && py_eq current_os stored_os);
    [right; left; lra | left; lra].
Qed.

Lemma compare_feature_values k features stored threshold gain similarity v :
  compare_feature k features stored threshold gain similarity = Ok v ->
  v = similarity \/ v = similarity + gain.
Proof.
  unfold compare_feature, rbind.
  destruct (in_both k features stored) as [[|] |]; try discriminate.
  - destruct (feature k features); try discriminate.
    destruct (py_item stored k); try discriminate.
    destruct (relative_difference a0 a); try discriminate.
    destruct (py_le_num a1 threshold) as [[|] |]; try discriminate;
      intros [= <-]; auto.
  - intros [= <-]. auto.
Qed.

Lemma _verify_mouse_patterns_values current stored :
  let m := fst (_verify_mouse_patterns current stored) in
  m == 0 \/ m == 7 # 10.
Proof.
  cbv zeta. unfold _verify_mouse_patterns.
  apply try_except_value with (I := fun _ => True); [exact I | | intros; left; reflexivity].
  skip_bind features.
  apply hoare_bind with (P := fun s => s == 0 \/ s == 7 # 10).
  - apply hoare_eval. intros v Hv.
    apply compare_feature_values in Hv. destruct Hv as [-> | ->]; [left | right]; lra.
  - intros s Hs. apply hoare_ret. destruct Hs; qminmax; lra.
Qed.

Lemma _verify_web_typing_values current stored :
  let t := fst (_verify_web_typing current stored) in
  t == 0 \/ t == 5 # 10 \/ t == 1.
Proof.
  cbv zeta. unfold _verify_web_typing.
  apply try_except_value with (I := fun _ => True); [exact I | | intros; left; reflexivity].
  skip_bind features.
  apply hoare_bind with (P := fun s => s == 0 \/ s == 5 # 10).
  - apply hoare_eval. intros v Hv.
    apply compare_feature_values in Hv. destruct Hv as [-> | ->]; [left | right]; lra.
  - intros s Hs.
    apply hoare_bind with (P := fun s => s == 0 \/ s == 5 # 10 \/ s == 1).
    + apply hoare_eval. intros v Hv.
      apply compare_feature_values in Hv.
      destruct Hv as [-> | ->]; destruct Hs as [Hs | Hs];
        [left | right; left | right; left | right; right]; lra.
    + intros s' Hs'. apply hoare_ret. destruct Hs' as [H | [H | H]]; qminmax; lra.
Qed.

(** ** What a match requires *)

(** X1.  A mobile sample is a match only when each of the three channels was
    scored and contributed: the typing channel with its full score 0.7 (the
    average hold time within 20% of the stored value), the touch and the device
    channel with a positive score.  The weights are 0.5, 0.3 and 0.2 and the
    typing score is at most 0.7, so with one channel missing or at zero the sum
    stays at 0.65 or below, under the threshold 0.7. *)
Theorem mobile_match_needs_every_channel
    (current_data stored_profile : pyval) (confidence risk : Q) :
  fst (verify_behavioral_match current_data stored_profile) = (true, confidence, risk) ->
  both_present current_data "typing_pattern" stored_profile "typical_hold_times" = Ok true /\
  both_present current_data "touch_patterns" stored_profile "avg_swipe_speed" = Ok true /\
  get_truthy current_data "device_characteristics" = Ok true /\
  (exists typing_pattern,
      py_item current_data "typing_pattern" = Ok typing_pattern /\
      fst (_verify_typing_pattern typing_pattern stored_profile) == 7 # 10) /\
  (exists touch_patterns,
      py_item current_data "touch_patterns" = Ok touch_patterns /\
      5 # 10 <= fst (_verify_touch_patterns touch_patterns stored_profile)) /\
  (exists device_characteristics,
      py_item current_data "device_characteristics" = Ok device_characteristics /\
      5 # 10 <= fst (_verify_device device_characteristics stored_profile)).
Proof.
  intros Hres.
  destruct (verify_behavioral_match_run current_data stored_profile) as [Hrun | Hh];
    [| rewrite Hh in Hres; discriminate].
  rewrite Hres in Hrun.
  destruct Hrun as (typing & touch & device & t & u & v & Hty & Hto & Hde & Ht & Hu & Hv & Heq).
  cbv zeta in Heq. injection Heq as Hm _ _. symmetry in Hm. apply Qle_bool_iff in Hm.
  assert (Ht' : typing = true -> t == 0 \/ t == 3 # 10 \/ t == 7 # 10).
  { intros E. destruct (Ht E) as (x & _ & ->). apply _verify_typing_pattern_values. }
  assert (Hu' : touch = true -> u == 0 \/ u == 5 # 10 \/ u == 1).
  { intros E. destruct (Hu E) as (x & _ & ->). apply _verify_touch_patterns_values. }
  assert (Hv' : device = true -> v == 0 \/ v == 5 # 10 \/ v == 1).
  { intros E. destruct (Hv E) as (x & _ & ->). apply _verify_device_values. }
  destruct typing, touch, device; cbn [overall channel app fold_left] in Hm;
    try specialize (Ht' eq_refl); try specialize (Hu' eq_refl); try specialize (Hv' eq_refl);
    try (exfalso;
         repeat match goal with H : _ \/ _ |- _ => destruct H end; lra).
  destruct (Ht eq_refl) as (tp & Htp & ->).
  destruct (Hu eq_refl) as (tc & Htc & ->).
  destruct (Hv eq_refl) as (dv & Hdv & ->).
  repeat split; try assumption.
  - exists tp. split; [assumption |].
    repeat match goal with H : _ \/ _ |- _ => destruct H end; lra.
  - exists tc. split; [assumption |].
    repeat match goal with H : _ \/ _ |- _ => destruct H end; lra.
  - exists dv. split; [assumption |].
    repeat match goal with H : _ \/ _ |- _ => destruct H end; lra.
Qed.

(** X2.  A web sample is a match only when the mouse channel and the keystroke
    channel were both scored and contributed: the mouse channel with its full
    score 0.7, the keystroke channel with at least 0.5.  Scroll and browser
    together weigh 0.3, the mouse channel at most 0.28 and the keystroke
    channel 0.3, so without one of these two the sum stays at 0.6 or below,
    under the threshold 0.65. *)
Theorem web_match_needs_mouse_and_keystrokes
    (current_data stored_profile : pyval) (confidence risk : Q) :
  fst (verify_web_behavior current_data stored_profile) = (true, confidence, risk) ->
  both_present current_data "mouse_movements" stored_profile "mouse_patterns" = Ok true /\
  both_present current_data "keystroke_timing" stored_profile "typing_rhythm" = Ok true /\
  (exists mouse_movements mouse_patterns,
      py_item current_data "mouse_movements" = Ok mouse_movements /\
      py_item stored_profile "mouse_patterns" = Ok mouse_patterns /\
      fst (_verify_mouse_patterns mouse_movements mouse_patterns) == 7 # 10) /\
  (exists keystroke_timing typing_rhythm,
      py_item current_data "keystroke_timing" = Ok keystroke_timing /\
      py_item stored_profile "typing_rhythm" = Ok typing_rhythm /\
      5 # 10 <= fst (_verify_web_typing keystroke_timing typing_rhythm)).
Proof.
  intros Hres.
  destruct (verify_web_behavior_run current_data stored_profile) as [Hrun | Hh];
    [| rewrite Hh in Hres; discriminate].
  rewrite Hres in Hrun.
  destruct Hrun as (mouse & typing & scroll & browser & m & t & s & b &
                    Hmo & Hty & Hsc & Hbr & Hm & Ht & Hs & Hb & Heq).
  cbv zeta in Heq. injection Heq as Hma _ _. symmetry in Hma. apply Qle_bool_iff in Hma.
  assert (Hm' : mouse = true -> m == 0 \/ m == 7 # 10).
  { intros E. destruct (Hm E) as (x & y & _ & _ & ->). apply _verify_mouse_patterns_values. }
  assert (Ht' : typing = true -> t == 0 \/ t == 5 # 10 \/ t == 1).
  { intros E. destruct (Ht E) as (x & y & _ & _ & ->). apply _verify_web_typing_values. }
  assert (Hs' : scroll = true -> 0 <= s <= 1).
  { intros E. destruct (Hs E) as (x & y & _ & _ & ->). apply _verify_scroll_behavior_range. }
  assert (Hb' : browser = true -> 0 <= b <= 1).
  { intros E. destruct (Hb E) as (x & y & _ & _ & ->).
    apply _verify_browser_fingerprint_range. }
  destruct mouse, typing, scroll, browser; cbn [overall channel app fold_left] in Hma;
    try specialize (Hm' eq_refl); try specialize (Ht' eq_refl);
    try specialize (Hs' eq_refl); try specialize (Hb' eq_refl);
    try (exfalso;
         repeat match goal with H : _ \/ _ |- _ => destruct H end; lra);
    destruct (Hm eq_refl) as (mm & mp & Hmm & Hmp & ->);
    destruct (Ht eq_refl) as (kt & tr & Hkt & Htr & ->);
    (repeat split; try assumption;
     [ exists mm, mp; repeat split; try assumption;
       repeat match goal with H : _ \/ _ |- _ => destruct H end; lra
     | exists kt, tr; repeat split; try assumption;
       repeat match goal with H : _ \/ _ |- _ => destruct H end; lra ]).
Qed.

(** ** A profile without baselines *)

Lemma both_present_stored_falsy current_data ck stored sk b :
  truthy (get_or stored sk PNone) = false ->
  both_present current_data ck (PDict stored) sk = Ok b -> b = false.
Proof.
  intros Hf. unfold both_present, rbind.
  destruct (py_get current_data ck PNone) as [c |]; [| discriminate].
  destruct (truthy c); [| congruence].
  rewrite get_truthy_dict, Hf. congruence.
Qed.

(** Nothing truthy is [in] a falsy container. *)
Lemma py_in_falsy x c b :
  truthy x = true -> truthy c = false -> py_in x c = Ok b -> b = false.
Proof.
  intros Hx Hc. destruct c as [| | | | s | l | d]; simpl; try discriminate.
  - destruct x as [| | | | p | |]; try discriminate.
    destruct s; [| discriminate]. simpl.
    destruct p; [discriminate |]. simpl. congruence.
  - destruct l; [| discriminate]. simpl. congruence.
  - destruct d; [| discriminate]. destruct (hashable x); [| discriminate].
    destruct x; simpl; congruence.
Qed.

Lemma _verify_device_without_trust current_device stored :
  truthy (get_or stored "trusted_devices" (PList [])) = false ->
  truthy (get_or stored "device_characteristics" (PDict [])) = false ->
  fst (_verify_device current_device (PDict stored)) = 0.
Proof.
  intros Ht Hc. unfold _verify_device.
  apply try_except_value with (I := fun _ => True); [exact I | | reflexivity].
  eapply hoare_bind; [apply hoare_eval_eq | intros device_id _].
  eapply hoare_bind; [apply hoare_eval_eq | intros trusted_devices Htd].
  injection Htd as Htd. fold (get_or stored "trusted_devices" (PList [])) in Htd. subst.
  apply hoare_bind with (P := fun b => b = false).
  { destruct (truthy device_id) eqn:E; [| apply hoare_ret; reflexivity].
    apply hoare_eval. intros b Hb. exact (py_in_falsy _ _ _ E Ht Hb). }
  intros exact ->.
  skip_bind current_os.
  eapply hoare_bind; [apply hoare_eval_eq | intros sc Hsc].
  injection Hsc as Hsc. fold (get_or stored "device_characteristics" (PDict [])) in Hsc. subst.
  eapply hoare_bind; [apply hoare_eval_eq | intros os Hos].
  apply hoare_ret.
  destruct (get_or stored "device_characteristics" (PDict [])) as [| | | | | | d]; try discriminate.
  destruct d; [| discriminate]. injection Hos as <-.
  rewrite andb_false_r. reflexivity.
Qed.

Lemma risk_of_no_confidence (c p : Q) (anomalies : list string) :
  c == 0 -> 0 <= p -> risk_of c anomalies p == 1.
Proof.
  intros Hc Hp. rewrite risk_of_clamp by lra. unfold clamp.
  pose proof (inject_Z_of_nat_nonneg (List.length anomalies)) as Hn.
  assert (0 <= p * inject_Z (Z.of_nat (List.length anomalies)))
    by (apply Qmult_le_0_compat; assumption).
  set (pn := p * inject_Z (Z.of_nat (List.length anomalies))) in *.
  qminmax; lra.
Qed.

Lemma failed_status (confidence risk : Q) :
  confidence == 0 ->
  status (BiometricVerificationView_result false confidence risk) = "failed" /\
  status (_prepare_verification_result false confidence risk) = "failed" /\
  is_verified (_prepare_verification_result false confidence risk) = false /\
  requires_challenge (_prepare_verification_result false confidence risk) = false.
Proof.
  intros Hc. unfold BiometricVerificationView_result, _prepare_verification_result.
  destruct (Qle_bool (5 # 10) confidence) eqn:E.
  - apply Qle_bool_iff in E. lra.
  - simpl. auto.
Qed.

(** X3.  A mobile profile that holds no hold-time baseline, no swipe-speed
    baseline, no trusted device and no device characteristics rejects every
    sample: no match, confidence 0, risk 1, and the verification view answers
    [failed].  The defaults of a [BiometricProfile] row make such a
    profile. *)
Theorem profile_without_baselines_rejects
    (current_data : pyval) (stored_profile : list (string * pyval))
    (is_match : bool) (confidence risk : Q) :
  truthy (get_or stored_profile "typical_hold_times" PNone) = false ->
  truthy (get_or stored_profile "avg_swipe_speed" PNone) = false ->
  truthy (get_or stored_profile "trusted_devices" (PList [])) = false ->
  truthy (get_or stored_profile "device_characteristics" (PDict [])) = false ->
  fst (verify_behavioral_match current_data (PDict stored_profile))
  = (is_match, confidence, risk) ->
  is_match = false /\ confidence == 0 /\ risk == 1 /\
  status (BiometricVerificationView_result is_match confidence risk) = "failed".
Proof.
  intros Hhold Hswipe Htrust Hchar Hres.
  assert (H : is_match = false /\ confidence == 0 /\ risk == 1).
  { destruct (verify_behavioral_match_run current_data (PDict stored_profile)) as [Hrun | Hh].
    - rewrite Hres in Hrun.
      destruct Hrun as (typing & touch & device & t & u & v & Hty & Hto & Hde &
                        Ht & Hu & Hv & Heq).
      apply both_present_stored_falsy in Hty; [| assumption].
      apply both_present_stored_falsy in Hto; [| assumption]. subst typing touch.
      assert (Hv0 : device = true -> v = 0).
      { intros E. destruct (Hv E) as (x & _ & ->).
        apply _verify_device_without_trust; assumption. }
      cbv zeta in Heq. injection Heq as -> -> ->.
      destruct device; cbn [overall channel app fold_left];
        [rewrite (Hv0 eq_refl) |];
        (split; [reflexivity |]); (split; [reflexivity |]);
        apply risk_of_no_confidence; [reflexivity | lra | reflexivity | lra].
    - rewrite Hres in Hh. injection Hh as -> -> ->.
      repeat split; reflexivity. }
  destruct H as (-> & Hc & Hr). repeat split; try assumption.
  apply failed_status. exact Hc.
Qed.

Lemma _verify_browser_fingerprint_without_stored current_browser stored :
  truthy stored = false ->
  fst (_verify_browser_fingerprint current_browser stored) = 0.
Proof.
  intros Hs. unfold _verify_browser_fingerprint.
  apply try_except_value with (I := fun _ => True); [exact I | | reflexivity].
  skip_bind fingerprint.
  eapply hoare_bind; [apply hoare_eval_eq | intros total Ht].
  assert (total = O) as ->.
  { destruct stored as [| | | | s | l | d]; try discriminate.
    - destruct s; [| discriminate]. injection Ht as <-. reflexivity.
    - destruct l; [| discriminate]. injection Ht as <-. reflexivity.
    - destruct d; [| discriminate]. injection Ht as <-. reflexivity. }
  apply hoare_ret. reflexivity.
Qed.

(** X4.  A web profile that holds no mouse patterns, no typing rhythm, no scroll
    patterns and no browser fingerprint rejects every sample: no match,
    confidence 0, risk 1, and the cross-platform verification answers
    [failed], not verified.  [web_profile] of a [CrossPlatformProfile] row is
    such a profile until a web collection fills it. *)
Theorem profile_without_web_features_rejects
    (current_data : pyval) (stored_profile : list (string * pyval))
    (is_match : bool) (confidence risk : Q) :
  truthy (get_or stored_profile "mouse_patterns" PNone) = false ->
  truthy (get_or stored_profile "typing_rhythm" PNone) = false ->
  truthy (get_or stored_profile "scroll_patterns" PNone) = false ->
  truthy (get_or stored_profile "browser_fingerprint" (PDict [])) = false ->
  fst (verify_web_behavior current_data (PDict stored_profile))
  = (is_match, confidence, risk) ->
  is_match = false /\ confidence == 0 /\ risk == 1 /\
  status (_verify_web_behavior current_data (PDict stored_profile)) = "failed" /\
  is_verified (_verify_web_behavior current_data (PDict stored_profile)) = false.
Proof.
  intros Hmouse Htyping Hscroll Hfp Hres.
  assert (H : is_match = false /\ confidence == 0 /\ risk == 1).
  { destruct (verify_web_behavior_run current_data (PDict stored_profile)) as [Hrun | Hh].
    - rewrite Hres in Hrun.
      destruct Hrun as (mouse & typing & scroll & browser & m & t & s & b &
                        Hmo & Hty & Hsc & Hbr & Hm & Ht & Hs & Hb & Heq).
      apply both_present_stored_falsy in Hmo; [| assumption].
      apply both_present_stored_falsy in Hty; [| assumption].
      apply both_present_stored_falsy in Hsc; [| assumption]. subst mouse typing scroll.
      assert (Hb0 : browser = true -> b = 0).
      { intros E. destruct (Hb E) as (x & w & _ & Hw & ->).
        apply _verify_browser_fingerprint_without_stored.
        injection Hw as <-. exact Hfp. }
      cbv zeta in Heq. injection Heq as -> -> ->.
      destruct browser; cbn [overall channel app fold_left];
        [rewrite (Hb0 eq_refl) |];
        (split; [reflexivity |]); (split; [reflexivity |]);
        apply risk_of_no_confidence; [reflexivity | lra | reflexivity | lra].
    - rewrite Hres in Hh. injection Hh as -> -> ->.
      repeat split; reflexivity. }
  destruct H as (-> & Hc & Hr). repeat split; try assumption;
    unfold _verify_web_behavior; rewrite Hres; apply failed_status; exact Hc.
Qed.

(** ** The anomaly tags *)

Ltac run_block :=
  unfold try_except, bind, eval, call, ret, get_local, set_local, append_anomaly;
  repeat first
    [ progress cbn beta iota
    | match goal with
      | |- context [match ?r with Ok _ => _ | Raise _ => _ end] => destruct r eqn:?
      | |- context [if ?b then _ else _] => destruct b eqn:?
      end ].

Lemma _detect_anomalies_tags current_data stored_profile :
  let anomalies := fst (_detect_anomalies current_data stored_profile) in
  anomalies = [] \/ anomalies = ["typing_speed_anomaly"] \/
  anomalies = ["unfamiliar_device"] \/
  anomalies = ["typing_speed_anomaly"; "unfamiliar_device"].
Proof.
  cbv zeta. unfold _detect_anomalies. run_block; cbn; auto.
Qed.

Lemma _detect_web_anomalies_tags current_data stored_profile :
  let anomalies := fst (_detect_web_anomalies current_data stored_profile) in
  anomalies = [] \/ anomalies = ["robotic_mouse_movements"] \/
  anomalies = ["browser_fingerprint_mismatch"] \/
  anomalies = ["robotic_mouse_movements"; "browser_fingerprint_mismatch"].
Proof.
  cbv zeta. unfold _detect_web_anomalies. run_block; cbn; auto.
Qed.

Lemma py_le_num_mono difference x y :
  py_le_num difference x = Ok true -> x <= y -> py_le_num difference y = Ok true.
Proof.
  unfold py_le_num. destruct (as_num difference) as [q |]; [| discriminate].
  intros [= H] Hxy. f_equal. apply Qle_bool_iff. apply Qle_bool_iff in H. lra.
Qed.

Ltac found :=
  repeat match goal with
         | H : negb ?b = true |- _ => apply negb_true_iff in H; try subst b
         | H : negb ?b = false |- _ => apply negb_false_iff in H; try subst b
         end;
  repeat eexists; repeat split;
  first [ reflexivity | eassumption
        | eapply py_le_num_mono; [eassumption | lra] ].

(** Where the typing score comes from: a positive score means that the
    average hold time of the sample is within 40% of [avg_typing_speed]. *)
Lemma _verify_typing_pattern_positive current_typing stored_profile :
  0 < fst (_verify_typing_pattern current_typing stored_profile) ->
  exists current_avg stored_avg difference,
    feature "avg_hold_time" (fst (_extract_typing_features current_typing)) = Ok current_avg /\
    py_get stored_profile "avg_typing_speed" (PInt 0) = Ok stored_avg /\
    relative_difference stored_avg current_avg = Ok difference /\
    py_le_num difference (4 # 10) = Ok true.
Proof.
  unfold _verify_typing_pattern. run_block; cbn [fst]; intros H;
    try (exfalso; revert H; qminmax; lra); subst; found.
Qed.

(** Where the tag [typing_speed_anomaly] comes from. *)
Lemma typing_speed_anomaly_reported current_data stored_profile :
  In "typing_speed_anomaly" (fst (_detect_anomalies current_data stored_profile)) ->
  exists typing_pattern current_speed stored_speed difference,
    py_get current_data "typing_pattern" (PDict []) = Ok typing_pattern /\
    feature "avg_hold_time" (fst (_extract_typing_features typing_pattern)) = Ok current_speed /\
    py_item stored_profile "avg_typing_speed" = Ok stored_speed /\
    relative_difference stored_speed current_speed = Ok difference /\
    py_gt_num difference (5 # 10) = Ok true.
Proof.
  unfold _detect_anomalies. run_block; cbn [fst app]; intros H;
    try (exfalso; simpl in H; intuition discriminate); subst; found.
Qed.

(** Where the full device score comes from. *)
Lemma _verify_device_exact current_device stored_profile :
  fst (_verify_device current_device stored_profile) == 1 ->
  exists device_id trusted_devices,
    py_get current_device "device_id" PNone = Ok device_id /\
    truthy device_id = true /\
    py_get stored_profile "trusted_devices" (PList []) = Ok trusted_devices /\
    py_in device_id trusted_devices = Ok true.
Proof.
  unfold _verify_device. run_block; cbn [fst]; intros H;
    try (exfalso; lra); subst; found.
Qed.

(** Where the tag [unfamiliar_device] comes from. *)
Lemma unfamiliar_device_reported current_data stored_profile :
  In "unfamiliar_device" (fst (_detect_anomalies current_data stored_profile)) ->
  exists current_device device_id trusted_devices,
    py_get current_data "device_characteristics" (PDict []) = Ok current_device /\
    py_get current_device "device_id" PNone = Ok device_id /\
    truthy device_id = true /\
    py_get stored_profile "trusted_devices" (PList []) = Ok trusted_devices /\
    py_in device_id trusted_devices = Ok false.
Proof.
  unfold _detect_anomalies. run_block; cbn [fst app]; intros H;
    try (exfalso; simpl in H; intuition discriminate); subst; found.
Qed.

Lemma py_item_get v k default x : py_item v k = Ok x -> py_get v k default = Ok x.
Proof.
  destruct v; simpl; try discriminate.
  destruct (lookup k d); [auto | discriminate].
Qed.

Lemma le_and_gt difference x y :
  py_le_num difference x = Ok true -> py_gt_num difference y = Ok true -> x <= y -> False.
Proof.
  unfold py_le_num, py_gt_num. destruct (as_num difference) as [q |]; [| discriminate].
  intros [= H1] [= H2] Hxy. apply negb_true_iff in H2.
  apply Qle_bool_iff in H1. apply Qle_bool_false_iff in H2. lra.
Qed.

(** A typing channel that scored excludes the typing anomaly: both compare
    the average hold time of the sample with [avg_typing_speed]. *)
Lemma typing_score_excludes_anomaly current_data stored_profile typing_pattern :
  py_item current_data "typing_pattern" = Ok typing_pattern ->
  0 < fst (_verify_typing_pattern typing_pattern stored_profile) ->
  ~ In "typing_speed_anomaly" (fst (_detect_anomalies current_data stored_profile)).
Proof.
  intros Hitem Hpos Hin.
  apply _verify_typing_pattern_positive in Hpos.
  destruct Hpos as (cur & sto & diff & Hcur & Hsto & Hdiff & Hle).
  apply typing_speed_anomaly_reported in Hin.
  destruct Hin as (tp & cur' & sto' & diff' & Htp & Hcur' & Hsto' & Hdiff' & Hgt).
  rewrite (py_item_get _ _ (PDict []) _ Hitem) in Htp. injection Htp as <-.
  rewrite Hcur in Hcur'. injection Hcur' as <-.
  rewrite (py_item_get _ _ (PInt 0) _ Hsto') in Hsto. injection Hsto as <-.
  rewrite Hdiff in Hdiff'. injection Hdiff' as <-.
  apply (le_and_gt _ _ _ Hle Hgt). lra.
Qed.

(** A device scored as an exact match is not reported as unfamiliar. *)
Lemma exact_device_is_familiar current_data stored_profile current_device :
  py_item current_data "device_characteristics" = Ok current_device ->
  fst (_verify_device current_device stored_profile) == 1 ->
  ~ In "unfamiliar_device" (fst (_detect_anomalies current_data stored_profile)).
Proof.
  intros Hitem Hone Hin.
  apply _verify_device_exact in Hone. destruct Hone as (id & td & Hid & Htr & Htd & Hknown).
  apply unfamiliar_device_reported in Hin.
  destruct Hin as (dev & id' & td' & Hdev & Hid' & _ & Htd' & Hunknown).
  rewrite (py_item_get _ _ (PDict []) _ Hitem) in Hdev. injection Hdev as <-.
  rewrite Hid in Hid'. injection Hid' as <-.
  rewrite Htd in Htd'. injection Htd' as <-.
  congruence.
Qed.

Lemma _verify_device_known current_device stored_profile device_id trusted_devices :
  py_get current_device "device_id" PNone = Ok device_id ->
  truthy device_id = true ->
  py_get stored_profile "trusted_devices" (PList []) = Ok trusted_devices ->
  py_in device_id trusted_devices = Ok true ->
  fst (_verify_device current_device stored_profile) = 1.
Proof.
  intros Hid Htr Htd Hin.
  unfold _verify_device, try_except, bind, eval, ret.
  rewrite Hid, Htd. cbn. rewrite Htr, Hin. reflexivity.
Qed.

(** When the detector ran through without an exception, a device with an id
    that was not scored as an exact match is reported as unfamiliar. *)
Lemma unfamiliar_device_when_not_exact current_data stored_profile current_device device_id :
  snd (_detect_anomalies current_data stored_profile) = [] ->
  py_item current_data "device_characteristics" = Ok current_device ->
  py_get current_device "device_id" PNone = Ok device_id ->
  truthy device_id = true ->
  fst (_verify_device current_device stored_profile) < 1 ->
  In "unfamiliar_device" (fst (_detect_anomalies current_data stored_profile)).
Proof.
  intros Hlog Hitem Hid Htr Hlt.
  assert (Hnot : forall td, py_get stored_profile "trusted_devices" (PList []) = Ok td ->
                            py_in device_id td = Ok true -> False).
  { intros td Htd Hin.
    rewrite (_verify_device_known _ _ _ _ Hid Htr Htd Hin) in Hlt. lra. }
  apply (py_item_get _ _ (PDict [])) in Hitem.
  revert Hlog. unfold _detect_anomalies. rewrite Hitem.
  run_block; cbn [fst snd app]; intros Hlog;
    try (exfalso; apply app_eq_nil in Hlog; destruct Hlog as [_ Hlog]; discriminate);
    try discriminate;
    try (injection Hid as <-);
    repeat match goal with
           | H : negb ?b = false |- _ => apply negb_false_iff in H; subst b
           | H : negb ?b = true |- _ => apply negb_true_iff in H; subst b
           end;
    try (simpl; tauto);
    try congruence;
    try (exfalso; eapply Hnot; [reflexivity | eassumption]).
Qed.

(** ** Risk of a match *)

Lemma mobile_match_channels
    (current_data stored_profile : pyval) (confidence risk : Q) :
  fst (verify_behavioral_match current_data stored_profile) = (true, confidence, risk) ->
  exists typing_pattern,
    py_item current_data "typing_pattern" = Ok typing_pattern /\
    fst (_verify_typing_pattern typing_pattern stored_profile) == 7 # 10.
Proof.
  intros Hres.
  destruct (verify_behavioral_match_run current_data stored_profile) as [Hrun | Hh];
    [| rewrite Hh in Hres; discriminate].
  rewrite Hres in Hrun.
  destruct Hrun as (typing & touch & device & t & u & v & Hty & Hto & Hde & Ht & Hu & Hv & Heq).
  cbv zeta in Heq. injection Heq as Hm _ _. symmetry in Hm. apply Qle_bool_iff in Hm.
  assert (Ht' : typing = true -> t == 0 \/ t == 3 # 10 \/ t == 7 # 10).
  { intros E. destruct (Ht E) as (x & _ & ->). apply _verify_typing_pattern_values. }
  assert (Hu' : touch = true -> 0 <= u <= 1).
  { intros E. destruct (Hu E) as (x & _ & ->). apply _verify_touch_patterns_range. }
  assert (Hv' : device = true -> 0 <= v <= 1).
  { intros E. destruct (Hv E) as (x & _ & ->). apply _verify_device_range. }
  destruct typing, touch, device; cbn [overall channel app fold_left] in Hm;
    try specialize (Ht' eq_refl); try specialize (Hu' eq_refl); try specialize (Hv' eq_refl);
    try (exfalso;
         repeat match goal with H : _ \/ _ |- _ => destruct H end; lra);
    destruct (Ht eq_refl) as (tp & Htp & ->);
    exists tp; (split; [assumption |]);
    repeat match goal with H : _ \/ _ |- _ => destruct H end; lra.
Qed.

(** X5.  A mobile match carries at most the tag [unfamiliar_device]: its typing
    channel scored, which excludes [typing_speed_anomaly].  So the risk of a
    match is at most 0.3 + 0.2, and the verification log, which records
    [anomaly_detected] when the risk exceeds 0.7, never flags a match. *)
Theorem mobile_match_is_never_flagged
    (current_data stored_profile : pyval) (confidence risk : Q) :
  fst (verify_behavioral_match current_data stored_profile) = (true, confidence, risk) ->
  ~ In "typing_speed_anomaly" (fst (_detect_anomalies current_data stored_profile)) /\
  risk <= 5 # 10 /\
  anomaly_detected risk = false.
Proof.
  clear float_repr set_order set_order_perm.
  intros Hres.
  assert (Hno : ~ In "typing_speed_anomaly"
                  (fst (_detect_anomalies current_data stored_profile))).
  { destruct (mobile_match_channels _ _ _ _ Hres) as (tp & Htp & Hscore).
    apply (typing_score_excludes_anomaly _ _ _ Htp). lra. }
  assert (Hrisk : risk <= 5 # 10).
  { destruct (verify_behavioral_match_cases current_data stored_profile) as [[H _] | [H _]];
      [| rewrite Hres in H; discriminate].
    rewrite Hres in H. destruct H as (Hc & -> & Hm).
    symmetry in Hm. apply Qle_bool_iff in Hm.
    destruct (_detect_anomalies_tags current_data stored_profile) as [E | [E | [E | E]]];
      rewrite E in Hno |- *; unfold risk_of;
      cbn [List.length Z.of_nat Pos.of_succ_nat Pos.succ]; unfold inject_Z;
      try (exfalso; apply Hno; simpl; tauto);
      qminmax; lra. }
  repeat split; try assumption.
  unfold anomaly_detected. apply negb_false_iff. apply Qle_bool_iff. lra.
Qed.

(** X6.  The risk of a web match is at most 0.35 + 2 * 0.15: a match has
    confidence 0.65 or more and the detector reports two tags at most.  So
    the verification log never flags a web match either. *)
Theorem web_match_is_never_flagged
    (current_data stored_profile : pyval) (confidence risk : Q) :
  fst (verify_web_behavior current_data stored_profile) = (true, confidence, risk) ->
  risk <= 65 # 100 /\ anomaly_detected risk = false.
Proof.
  clear float_repr set_order_perm.
  intros Hres.
  assert (Hrisk : risk <= 65 # 100).
  { destruct (verify_web_behavior_cases current_data stored_profile) as [[H _] | [H _]];
      [| rewrite Hres in H; discriminate].
    rewrite Hres in H. destruct H as (Hc & -> & Hm).
    symmetry in Hm. apply Qle_bool_iff in Hm.
    destruct (_detect_web_anomalies_tags current_data stored_profile) as [E | [E | [E | E]]];
      rewrite E; unfold risk_of;
      cbn [List.length Z.of_nat Pos.of_succ_nat Pos.succ]; unfold inject_Z;
      qminmax; lra. }
  split; [assumption |].
  unfold anomaly_detected. apply negb_false_iff. apply Qle_bool_iff. lra.
Qed.

(** ** The decision on the web path *)

(** X7.  [verify_web_behavior] calls a sample a match from confidence 0.65 on, but
    [_prepare_verification_result] asks for 0.7 again: the status is
    [success] exactly when the confidence is at least 0.7, and a match with a
    confidence under 0.7 is answered [suspicious], not verified, with an
    [otp] challenge.  The threshold 0.65 decides nothing. *)
Theorem web_status_ignores_the_web_threshold
    (current_data stored_profile : pyval) (is_match : bool) (confidence risk : Q) :
  fst (verify_web_behavior current_data stored_profile) = (is_match, confidence, risk) ->
  let result := _verify_web_behavior current_data stored_profile in
  (status result = "success" <-> 7 # 10 <= confidence) /\
  (is_verified result = true <-> 7 # 10 <= confidence) /\
  (is_match = true -> confidence < 7 # 10 ->
   status result = "suspicious" /\ is_verified result = false /\
   requires_challenge result = true /\ challenge_type result = Some "otp").
Proof.
  clear float_repr set_order_perm.
  intros Hres. cbv zeta. unfold _verify_web_behavior. rewrite Hres.
  assert (Hm : is_match = true <-> 65 # 100 <= confidence).
  { destruct (verify_web_behavior_cases current_data stored_profile) as [[H _] | [H _]];
      rewrite Hres in H.
    - destruct H as (_ & _ & ->). apply Qle_bool_iff.
    - injection H as -> -> _. split; [discriminate | intros; lra]. }
  unfold _prepare_verification_result.
  destruct (Qle_bool (7 # 10) confidence) eqn:E7;
    [apply Qle_bool_iff in E7 | apply Qle_bool_false_iff in E7];
    (destruct (Qle_bool (5 # 10) confidence) eqn:E5;
     [apply Qle_bool_iff in E5 | apply Qle_bool_false_iff in E5]);
    destruct is_match; cbn;
    repeat split; intros; try reflexivity; try discriminate; try lra;
    try (exfalso; lra);
    try (assert (false = true) by (apply Hm; lra); discriminate);
    try (assert (65 # 100 <= confidence) by (apply Hm; reflexivity); lra).
Qed.

(** ** The anomaly detectors *)

(** X8.  Both detectors report two tags at most, each once and in a fixed order;
    what they return when an exception interrupts them is the tags found so
    far. *)
Theorem anomaly_tags_are_two_at_most (current_data stored_profile : pyval) :
  (let anomalies := fst (_detect_anomalies current_data stored_profile) in
   anomalies = [] \/ anomalies = ["typing_speed_anomaly"] \/
   anomalies = ["unfamiliar_device"] \/
   anomalies = ["typing_speed_anomaly"; "unfamiliar_device"]) /\
  (let anomalies := fst (_detect_web_anomalies current_data stored_profile) in
   anomalies = [] \/ anomalies = ["robotic_mouse_movements"] \/
   anomalies = ["browser_fingerprint_mismatch"] \/
   anomalies = ["robotic_mouse_movements"; "browser_fingerprint_mismatch"]).
Proof.
  split; [apply _detect_anomalies_tags | apply _detect_web_anomalies_tags].
Qed.

(** X9.  The mobile detector agrees with the channel scores.  A typing channel
    that scored (hold time within 40% of the stored value) excludes
    [typing_speed_anomaly] (difference above 50%); a device scored as an
    exact match is not [unfamiliar_device]; and when the detector ran through
    without an exception, a device that has an id and was not scored as an
    exact match is reported as [unfamiliar_device]. *)
Theorem anomalies_agree_with_scores
    (current_data stored_profile typing_pattern current_device device_id : pyval) :
  py_item current_data "typing_pattern" = Ok typing_pattern ->
  py_item current_data "device_characteristics" = Ok current_device ->
  py_get current_device "device_id" PNone = Ok device_id ->
  truthy device_id = true ->
  let anomalies := fst (_detect_anomalies current_data stored_profile) in
  (0 < fst (_verify_typing_pattern typing_pattern stored_profile) ->
   ~ In "typing_speed_anomaly" anomalies) /\
  (fst (_verify_device current_device stored_profile) == 1 ->
   ~ In "unfamiliar_device" anomalies) /\
  (snd (_detect_anomalies current_data stored_profile) = [] ->
   fst (_verify_device current_device stored_profile) < 1 ->
   In "unfamiliar_device" anomalies).
Proof.
  intros Htp Hdev Hid Htr. cbv zeta. repeat split.
  - apply typing_score_excludes_anomaly. exact Htp.
  - apply exact_device_is_familiar. exact Hdev.
  - intros Hlog Hlt. eapply unfamiliar_device_when_not_exact; eassumption.
Qed.

(** ** The confidence of a stored record (models.py) *)

Lemma calculate_confidence_dicts
    (typing_pattern touch_patterns device_characteristics : list (string * pyval)) :
  let typing := truthy (get_or typing_pattern "key_hold_times" PNone) in
  let touch := truthy (get_or touch_patterns "swipe_speeds" PNone) ||
               truthy (get_or touch_patterns "touch_pressures" PNone) in
  let device := truthy (get_or device_characteristics "device_id" PNone) in
  exists confidence,
    calculate_confidence (PDict typing_pattern) (PDict touch_patterns)
                         (PDict device_characteristics) = Ok confidence /\
    0 <= confidence <= 4 # 10 /\
    (confidence == 0 <-> typing = false /\ touch = false /\ device = false) /\
    (~ confidence == 0 -> 3 # 10 <= confidence) /\
    (typing = true -> touch = false -> device = false -> confidence == 4 # 10) /\
    (typing = true -> touch = true -> device = true -> confidence == 1 # 3).
Proof.
  clear. cbv zeta. unfold calculate_confidence, rbind.
  rewrite !get_truthy_dict.
  destruct (truthy (get_or typing_pattern "key_hold_times" PNone));
    destruct (truthy (get_or touch_patterns "swipe_speeds" PNone));
    try rewrite get_truthy_dict;
    try destruct (truthy (get_or touch_patterns "touch_pressures" PNone));
    destruct (truthy (get_or device_characteristics "device_id" PNone));
    cbn [app List.length fold_left Z.of_nat Pos.of_succ_nat Pos.succ orb];
    eexists; (split; [reflexivity |]);
    repeat split; intros; try discriminate; try reflexivity;
    try (unfold Qle, Qeq, Qdiv, Qmult, Qplus, Qinv in *; simpl in *; lia);
    try (exfalso; unfold Qle, Qeq, Qdiv, Qmult, Qplus, Qinv in *; simpl in *; lia).
Qed.

(** X10.  [calculate_confidence] averages the weights of the channels that are
    present, it does not add them: on dict fields it raises nothing, the
    score is 0 exactly when no channel is present and is otherwise between 0.3
    and 0.4; hold times alone give 0.4 and all three channels together give
    one third, so a record with more channels does not score higher.  Flight
    times are not looked at. *)
Theorem calculate_confidence_averages
    (typing_pattern touch_patterns device_characteristics : list (string * pyval)) :
  let typing := truthy (get_or typing_pattern "key_hold_times" PNone) in
  let touch := truthy (get_or touch_patterns "swipe_speeds" PNone) ||
               truthy (get_or touch_patterns "touch_pressures" PNone) in
  let device := truthy (get_or device_characteristics "device_id" PNone) in
  exists confidence,
    calculate_confidence (PDict typing_pattern) (PDict touch_patterns)
                         (PDict device_characteristics) = Ok confidence /\
    0 <= confidence <= 4 # 10 /\
    (confidence == 0 <-> typing = false /\ touch = false /\ device = false) /\
    (~ confidence == 0 -> 3 # 10 <= confidence) /\
    (typing = true -> touch = false -> device = false -> confidence == 4 # 10) /\
    (typing = true -> touch = true -> device = true -> confidence == 1 # 3).
Proof. apply calculate_confidence_dicts. Qed.

(** ** What the collection view stores (views.py) *)

Lemma hex_digit_is_hex n : is_hex_digit (hex_digit n) = true.
Proof.
  destruct n as [| p]; [reflexivity |].
  do 4 (destruct p as [p | p |]; try reflexivity).
Qed.

Lemma hexadecimal_append s t :
  hexadecimal (String.append s t) = hexadecimal s && hexadecimal t.
Proof.
  unfold hexadecimal. induction s as [| a r IH]; [reflexivity |].
  cbn [String.append list_ascii_of_string forallb]. rewrite IH, andb_assoc. reflexivity.
Qed.

Lemma hex8_hexadecimal w : hexadecimal (hex8 w) = true.
Proof.
  unfold hex8, hexadecimal. cbn [list_ascii_of_string forallb].
  rewrite !hex_digit_is_hex. reflexivity.
Qed.

Lemma sha256_hexdigest_hexadecimal data : hexadecimal (sha256_hexdigest data) = true.
Proof.
  unfold sha256_hexdigest. cbv zeta.
  rewrite !hexadecimal_append, !hex8_hexadecimal. reflexivity.
Qed.

Lemma create_biometric_signature_body_digest biometric_data s l v :
  create_biometric_signature_body biometric_data tt = (s, l, Ok v) ->
  exists data, v = sha256_hexdigest data.
Proof.
  intros H.
  assert (Hh : hoare (fun _ => True) (create_biometric_signature_body biometric_data)
                 (fun v => exists data, v = sha256_hexdigest data)).
  { unfold create_biometric_signature_body.
    skip_bind tp. skip_bind tr. skip_bind touch. skip_bind tps. skip_bind dc. skip_bind did.
    apply hoare_ret. eexists. reflexivity. }
  specialize (Hh tt I). rewrite H in Hh. apply Hh.
Qed.

Lemma create_web_behavioral_signature_body_digest web_data s l v :
  create_web_behavioral_signature_body web_data tt = (s, l, Ok v) ->
  exists data, v = sha256_hexdigest data.
Proof.
  intros H.
  assert (Hh : hoare (fun _ => True) (create_web_behavioral_signature_body web_data)
                 (fun v => exists data, v = sha256_hexdigest data)).
  { unfold create_web_behavioral_signature_body.
    skip_bind mm. skip_bind mp. skip_bind se. skip_bind sp. skip_bind kt. skip_bind tr.
    skip_bind bi. skip_bind bf.
    apply hoare_ret. eexists. reflexivity. }
  specialize (Hh tt I). rewrite H in Hh. apply Hh.
Qed.

Lemma get_all_dicts key default (items : list pyval) :
  forallb isinstance_dict items = true ->
  get_all (PList items) key default = Ok (map (field_or key default) items).
Proof.
  intros H. unfold get_all. simpl.
  induction items as [| item r IH]; [reflexivity |].
  simpl in H. apply andb_true_iff in H. destruct H as [Hd Hr].
  destruct item; try discriminate. simpl. rewrite (IH Hr). reflexivity.
Qed.

Lemma py_get_dict d k default : py_get (PDict d) k default = Ok (get_or d k default).
Proof. reflexivity. Qed.

Lemma BiometricDataCollectionView_biometric_data_value
    (swipe_data touch_data : list pyval) (vd device_info : list (string * pyval)) :
  get_or vd "swipe_data" (PList []) = PList swipe_data ->
  forallb isinstance_dict swipe_data = true ->
  get_or vd "touch_data" (PList []) = PList touch_data ->
  forallb isinstance_dict touch_data = true ->
  get_or vd "device_info" (PDict []) = PDict device_info ->
  BiometricDataCollectionView_biometric_data (PDict vd) =
  Ok (PDict [("typing_pattern",
              PDict [("key_hold_times", get_or vd "key_hold_times" (PList []));
                     ("flight_times", get_or vd "flight_times" (PList []))]);
             ("touch_patterns",
              PDict [("swipe_speeds", PList (map (field_or "speed" (PInt 0)) swipe_data));
                     ("touch_pressures",
                      PList (map (field_or "pressure" (PInt 0)) touch_data))]);
             ("device_characteristics",
              PDict [("device_id", get_or device_info "device_id" (PStr EmptyString));
                     ("os", get_or device_info "os" (PStr EmptyString));
                     ("screen_size", get_or device_info "screen_size" (PStr EmptyString));
                     ("sensors", get_or vd "sensor_data" (PList []))])]).
Proof.
  intros Hsw Hswd Hto Htod Hdi.
  unfold BiometricDataCollectionView_biometric_data.
  repeat (rewrite py_get_dict; cbn [rbind]).
  rewrite Hsw, (get_all_dicts _ _ _ Hswd). cbn [rbind].
  repeat (rewrite py_get_dict; cbn [rbind]).
  rewrite Hto, (get_all_dicts _ _ _ Htod). cbn [rbind].
  repeat (rewrite ?py_get_dict, ?Hdi; cbn [rbind]).
  reflexivity.
Qed.

Lemma truthy_map {A} (f : A -> pyval) (l : list A) :
  truthy (PList (map f l)) = match l with [] => false | _ => true end.
Proof. destruct l; reflexivity. Qed.

Lemma truthy_get_or_default d k :
  truthy (get_or d k (PList [])) = truthy (get_or d k PNone).
Proof. unfold get_or. destruct (lookup k d); reflexivity. Qed.

(** X11.  For a request the serializer let through (lists of dicts, a dict of
    device information) [BiometricDataCollectionView.post] computes a record
    without raising.  Its signature is a digest of 64 hexadecimal digits,
    never the empty string of an unsigned sample, because the view itself
    builds [device_characteristics] as a dict.  Its confidence is at most 0.4,
    and it is 0 exactly when the request has no hold times, no swipe or touch
    events and no device id: a request that passed [validate] is then one that
    carries flight times only, which [calculate_confidence] does not count. *)
Theorem collected_record_is_signed
    (validated_data : list (string * pyval)) (swipe_data touch_data : list pyval)
    (device_info : list (string * pyval)) :
  get_or validated_data "swipe_data" (PList []) = PList swipe_data ->
  forallb isinstance_dict swipe_data = true ->
  get_or validated_data "touch_data" (PList []) = PList touch_data ->
  forallb isinstance_dict touch_data = true ->
  get_or validated_data "device_info" (PDict []) = PDict device_info ->
  exists biometric_data signature confidence l,
    BiometricDataCollectionView_record (PDict validated_data) tt
    = (tt, l, Ok (biometric_data, signature, confidence)) /\
    signature = fst (create_biometric_signature biometric_data) /\
    String.length signature = 64%nat /\
    hexadecimal signature = true /\
    0 <= confidence <= 4 # 10 /\
    (confidence == 0 <->
     truthy (get_or validated_data "key_hold_times" PNone) = false /\
     swipe_data = [] /\ touch_data = [] /\
     truthy (get_or device_info "device_id" (PStr EmptyString)) = false) /\
    (BiometricDataCollectionSerializer_validate validated_data = Valid validated_data ->
     confidence == 0 ->
     truthy (get_or validated_data "flight_times" PNone) = true).
Proof.
  intros Hsw Hswd Hto Htod Hdi.
  unfold BiometricDataCollectionView_record.
  rewrite (BiometricDataCollectionView_biometric_data_value
             swipe_data touch_data validated_data device_info Hsw Hswd Hto Htod Hdi).
  set (typing_pattern := [("key_hold_times", get_or validated_data "key_hold_times" (PList []));
                          ("flight_times", get_or validated_data "flight_times" (PList []))]).
  set (touch_patterns := [("swipe_speeds", PList (map (field_or "speed" (PInt 0)) swipe_data));
                          ("touch_pressures",
                           PList (map (field_or "pressure" (PInt 0)) touch_data))]).
  set (device_characteristics :=
         [("device_id", get_or device_info "device_id" (PStr EmptyString));
          ("os", get_or device_info "os" (PStr EmptyString));
          ("screen_size", get_or device_info "screen_size" (PStr EmptyString));
          ("sensors", get_or validated_data "sensor_data" (PList []))]).
  set (biometric_data := [("typing_pattern", PDict typing_pattern);
                          ("touch_patterns", PDict touch_patterns);
                          ("device_characteristics", PDict device_characteristics)]).
  destruct (create_biometric_signature_body_no_raise biometric_data eq_refl tt)
    as (s' & lg & sig & Hbody).
  assert (Hsig : create_biometric_signature (PDict biometric_data) = (sig, lg)).
  { unfold create_biometric_signature. eapply try_except_log_ok. exact Hbody. }
  destruct (calculate_confidence_dicts typing_pattern touch_patterns device_characteristics)
    as (c & Hc & Hrange & Hzero & _).
  exists (PDict biometric_data), sig, c, (lg ++ []).
  split.
  { unfold bind, eval, call, ret. rewrite Hsig. cbn [fst snd].
    change (py_item (PDict biometric_data) "typing_pattern") with (Ok (PDict typing_pattern)).
    change (py_item (PDict biometric_data) "touch_patterns") with (Ok (PDict touch_patterns)).
    change (py_item (PDict biometric_data) "device_characteristics")
      with (Ok (PDict device_characteristics)).
    cbv beta iota. rewrite Hc. cbn [app]. reflexivity. }
  split; [rewrite Hsig; reflexivity |].
  destruct (create_biometric_signature_body_digest _ _ _ _ Hbody) as (data & ->).
  split; [apply sha256_hexdigest_length |].
  split; [apply sha256_hexdigest_hexadecimal |].
  split; [exact Hrange |].
  assert (Hiff : c == 0 <->
     truthy (get_or validated_data "key_hold_times" PNone) = false /\
     swipe_data = [] /\ touch_data = [] /\
     truthy (get_or device_info "device_id" (PStr EmptyString)) = false).
  { rewrite Hzero.
    change (get_or typing_pattern "key_hold_times" PNone)
      with (get_or validated_data "key_hold_times" (PList [])).
    change (get_or touch_patterns "swipe_speeds" PNone)
      with (PList (map (field_or "speed" (PInt 0)) swipe_data)).
    change (get_or touch_patterns "touch_pressures" PNone)
      with (PList (map (field_or "pressure" (PInt 0)) touch_data)).
    change (get_or device_characteristics "device_id" PNone)
      with (get_or device_info "device_id" (PStr EmptyString)).
    rewrite !truthy_map, truthy_get_or_default.
    destruct swipe_data, touch_data; cbn [orb]; intuition discriminate. }
  split; [exact Hiff |].
  intros Hvalid H0. apply Hiff in H0. destruct H0 as (Hk & -> & -> & _).
  unfold BiometricDataCollectionSerializer_validate in Hvalid.
  rewrite Hk in Hvalid.
  assert (Hs : truthy (get_or validated_data "swipe_data" PNone) = false).
  { rewrite <- truthy_get_or_default, Hsw. reflexivity. }
  assert (Ht : truthy (get_or validated_data "touch_data" PNone) = false).
  { rewrite <- truthy_get_or_default, Hto. reflexivity. }
  rewrite Hs, Ht in Hvalid.
  destruct (truthy (get_or validated_data "flight_times" PNone)); [reflexivity |].
  discriminate Hvalid.
Qed.

(** ** A sample verified against the profile derived from it *)














(** ** [==] on values without repeated keys *)













(** ** The cross-platform profile (views.py) *)

Lemma web_features_dict web_data :
  exists l, web_features (PDict web_data) tt = (tt, l, Ok (PDict (enrolled_web_profile web_data))).
Proof.
  unfold web_features, bind, eval, call, ret. rewrite !py_get_dict. cbn beta iota.
  eexists. reflexivity.
Qed.

Lemma _update_cross_platform_profile_dict profile web_data platform platforms :
  preferred_platforms profile = PList platforms ->
  fst (_update_cross_platform_profile profile (PDict web_data) platform) =
  {| web_profile := PDict (enrolled_web_profile web_data);
     preferred_platforms :=
       PList (if mem (PStr platform) platforms
              then platforms else platforms ++ [PStr platform]) |}.
Proof.
  intros Hp. unfold _update_cross_platform_profile, try_except, bind, nested.
  destruct (web_features_dict web_data) as [l ->].
  rewrite Hp. unfold eval, ret, set_local, get_local, py_in, py_append.
  fold (mem (PStr platform) platforms).
  destruct (mem (PStr platform) platforms); reflexivity.
Qed.















(** X13.  [_update_cross_platform_profile] on a data dict and a row whose
    [preferred_platforms] is a list: the web profile becomes the features of
    this sample alone, whatever it was; the platform is listed afterwards,
    after the entries that were there; a second update with the same sample
    changes nothing, so the platform is never listed twice by the update.  A
    profile that only this update has written is 33% complete.  When the data
    is not a dict the row is saved as it was. *)
Theorem cross_platform_update_is_idempotent
    (profile : CrossPlatformProfile) (web_data : list (string * pyval))
    (platform : string) (platforms : list pyval) :
  preferred_platforms profile = PList platforms ->
  let once := fst (_update_cross_platform_profile profile (PDict web_data) platform) in
  let twice := fst (_update_cross_platform_profile once (PDict web_data) platform) in
  web_profile once = PDict (enrolled_web_profile web_data) /\
  (exists added, preferred_platforms once = PList (platforms ++ added) /\
                 mem (PStr platform) (platforms ++ added) = true /\
                 (mem (PStr platform) platforms = true -> added = [])) /\
  twice = once /\
  get_profile_completeness (PDict []) (web_profile once) (PDict []) = 33%Z /\
  (forall v, isinstance_dict v = false ->
             fst (_update_cross_platform_profile profile v platform) = profile).
Proof.
  clear float_repr set_order_perm.
  intros Hpl. cbv zeta.
  rewrite (_update_cross_platform_profile_dict _ _ _ _ Hpl).
  assert (Hin : mem (PStr platform)
                  (if mem (PStr platform) platforms
                   then platforms else platforms ++ [PStr platform]) = true).
  { destruct (mem (PStr platform) platforms) eqn:E; [exact E |].
    rewrite mem_app. simpl. rewrite String.eqb_refl. apply orb_true_r. }
  split; [reflexivity |]. split; [| split; [| split]].
  - cbn [preferred_platforms].
    destruct (mem (PStr platform) platforms) eqn:E.
    + exists []. rewrite app_nil_r. auto.
    + exists [PStr platform]. repeat split; [exact Hin | discriminate].
  - set (listed := if mem (PStr platform) platforms
                   then platforms else platforms ++ [PStr platform]) in *.
    rewrite (_update_cross_platform_profile_dict
               {| web_profile := PDict (enrolled_web_profile web_data);
                  preferred_platforms := PList listed |}
               web_data platform listed eq_refl).
    rewrite Hin. reflexivity.
  - reflexivity.
  - intros v Hv. unfold _update_cross_platform_profile, try_except, bind, nested,
      web_features, eval.
    destruct v; try discriminate; reflexivity.
Qed.

(** X14.  The completeness of a cross-platform profile is 33 for the mobile, 33 for
    the web and 34 for the desktop sub-profile that is not empty: it is 100
    exactly when all three are there, and the cut at 100 never applies. *)
Theorem profile_completeness_counts_platforms
    (mobile_profile web_profile desktop_profile : pyval) :
  let completeness := get_profile_completeness mobile_profile web_profile desktop_profile in
  let share (present : bool) (percent : Z) := if present then percent else 0%Z in
  completeness = (share (truthy mobile_profile) 33 + share (truthy web_profile) 33 +
                  share (truthy desktop_profile) 34)%Z /\
  (0 <= completeness <= 100)%Z /\
  (completeness = 100%Z <->
   truthy mobile_profile = true /\ truthy web_profile = true /\
   truthy desktop_profile = true) /\
  (completeness = 0%Z <->
   truthy mobile_profile = false /\ truthy web_profile = false /\
   truthy desktop_profile = false).
Proof.
  clear. cbv zeta. unfold get_profile_completeness.
  destruct (truthy mobile_profile), (truthy web_profile), (truthy desktop_profile);
    cbn; repeat split; intros; try lia; try discriminate; try reflexivity;
    try (exfalso; lia);
    try (match goal with H : _ /\ _ |- _ => destruct H as (? & ? & ?); discriminate end).
Qed.

(** ** The profile updater off the expected path *)

Lemma update_biometric_profile_without_count d (samples : list pyval) :
  lookup "samples_collected" d = None ->
  well_formed_trusted d = true ->
  well_formed_batch samples = true ->
  samples <> [] ->
  update_biometric_profile (PDict d) (PList samples) =
  (PDict match filter truthy (map (field "device_characteristics") samples) with
         | [] => d
         | _ => dict_set "trusted_devices"
                  (PList (set_order (fold_left add_one (batch_device_ids samples)
                                               (dedup (trusted (PDict d)))))) d
         end,
   [{| lvl := ERROR; msg := "Profile update failed"; cause := KeyError |}]).
Proof.
  intros Ecount Htd Hb Hne.
  destruct samples as [| s0 r]; [contradiction |].
  set (samples := s0 :: r) in *.
  unfold well_formed_batch in Hb. apply andb_true_iff in Hb as [Hb Hids].
  apply andb_true_iff in Hb as [Hdicts Hdcs].
  apply forallb_Forall in Hdicts. apply forallb_Forall in Hdcs.
  unfold well_formed_trusted in Htd.
  unfold update_biometric_profile, try_except.
  assert (Ht : truthy (PList samples) = true) by reflexivity.
  rewrite Ht. cbn [negb].
  unfold bind, eval.
  rewrite !get_all_truthy_dicts by assumption.
  fold samples. unfold batch_device_ids in *.
  assert (Hskip : forall (l : list pyval) (p : pyval),
             (match l with
              | [] => ret tt
              | _ :: _ => bind get_local (fun p0 : pyval => set_local p0)
              end) p = (p, [], Ok tt)).
  { intros l p. destruct l; reflexivity. }
  unfold _update_typing_profile, _update_touch_profile.
  unfold bind. rewrite !Hskip.
  destruct (filter truthy (map (field "device_characteristics") samples))
    as [| dc0 dcr] eqn:Edcs.
  - cbn. rewrite Ecount. reflexivity.
  - unfold get_local, set_local, ret, _update_device_profile, rbind, py_get, trusted.
    destruct (lookup "trusted_devices" d) as [[| | | | | td |] |] eqn:Etd; try discriminate.
    + cbn [py_iter]. rewrite Htd.
      rewrite add_devices_dicts by assumption.
      cbn [py_setitem py_item].
      rewrite lookup_dict_set_other by discriminate. rewrite Ecount.
      reflexivity.
    + cbn [py_iter forallb dedup].
      rewrite add_devices_dicts by assumption.
      cbn [py_setitem py_item].
      rewrite lookup_dict_set_other by discriminate. rewrite Ecount.
      reflexivity.
Qed.

(** X15.  [update_biometric_profile] is not atomic.  It works on the dict it was
    given and adds the sample count last; on a profile without
    [samples_collected] the count raises [KeyError] after the trusted devices
    were already replaced, and the handler returns the profile as it is then:
    one error is logged, the device ids of the batch are trusted, the count is
    still missing.  An empty batch, or no batch at all, leaves any profile
    untouched and logs nothing. *)
Theorem profile_update_is_not_atomic (d : list (string * pyval)) (samples : list pyval) :
  lookup "samples_collected" d = None ->
  well_formed_trusted d = true ->
  well_formed_batch samples = true ->
  samples <> [] ->
  let result := update_biometric_profile (PDict d) (PList samples) in
  snd result = [{| lvl := ERROR; msg := "Profile update failed"; cause := KeyError |}] /\
  (forall x, hashable x = true ->
     mem x (trusted (fst result)) =
     mem x (trusted (PDict d)) || mem x (batch_device_ids samples)) /\
  samples_collected (fst result) = None /\
  (forall profile new_samples,
      truthy new_samples = false ->
      update_biometric_profile profile new_samples = (profile, [])).
Proof using set_order_perm.
  intros Ecount Htd Hb Hne. cbv zeta.
  rewrite (update_biometric_profile_without_count d samples Ecount Htd Hb Hne).
  cbn [fst snd]. split; [reflexivity |].
  assert (Hth : forallb hashable (trusted (PDict d)) = true).
  { unfold trusted, well_formed_trusted in *.
    destruct (lookup "trusted_devices" d) as [[| | | | | td |] |]; try discriminate; auto. }
  pose proof (batch_ids_hashable samples Hb) as Hids.
  split; [| split].
  - intros x Hx.
    destruct (filter truthy (map (field "device_characteristics") samples)) eqn:Edcs.
    + rewrite (batch_ids_nil _ Edcs). simpl mem at 3. rewrite orb_false_r. reflexivity.
    + unfold trusted at 1. rewrite lookup_dict_set_same.
      rewrite (mem_perm x _ _ (set_order_perm _)).
      rewrite mem_fold_add_one by auto using dedup_hashable.
      rewrite mem_dedup by auto. reflexivity.
  - unfold samples_collected.
    destruct (filter truthy (map (field "device_characteristics") samples)).
    + rewrite Ecount. reflexivity.
    + rewrite lookup_dict_set_other by discriminate. rewrite Ecount. reflexivity.
  - intros profile new_samples Hf. unfold update_biometric_profile, try_except.
    rewrite Hf. reflexivity.
Qed.

(** ** The client address (views.py) *)

Lemma before_comma_split s :
  exists rest,
    s = String.append (before_comma s) rest /\
    (rest = EmptyString \/ exists tail, rest = String "," tail).
Proof.
  induction s as [| c r IH].
  - exists EmptyString. split; [reflexivity | left; reflexivity].
  - simpl. destruct (Ascii.eqb_spec c ",") as [-> | Hne].
    + exists (String "," r). split; [reflexivity | right; eexists; reflexivity].
    + destruct IH as (rest & Hr & Hrest). exists rest. split; [| exact Hrest].
      simpl. f_equal. exact Hr.
Qed.

Lemma before_comma_has_no_comma s :
  forall c, In c (list_ascii_of_string (before_comma s)) -> c <> ","%char.
Proof.
  induction s as [| a r IH]; simpl; [intros c [] |].
  destruct (Ascii.eqb_spec a ",") as [-> | Hne]; simpl; [intros c [] |].
  intros c [<- | Hin]; [exact Hne | apply IH; exact Hin].
Qed.

(** X16.  With a non-empty [X-Forwarded-For] header the client address is the text
    of the header before its first comma, as the client sent it: it is not
    trimmed or checked, and [REMOTE_ADDR] is not consulted.  Without the
    header, or with an empty one, it is [REMOTE_ADDR]. *)
Theorem client_ip_is_the_first_forwarded_entry
    (META : list (string * pyval)) (header : string) :
  lookup "HTTP_X_FORWARDED_FOR" META = Some (PStr header) ->
  header <> EmptyString ->
  exists ip rest,
    _get_client_ip (PDict META) = Ok (PStr ip) /\
    header = String.append ip rest /\
    (rest = EmptyString \/ exists tail, rest = String "," tail) /\
    (forall c, In c (list_ascii_of_string ip) -> c <> ","%char) /\
    (forall other,
        truthy (get_or other "HTTP_X_FORWARDED_FOR" PNone) = false ->
        _get_client_ip (PDict other) = Ok (get_or other "REMOTE_ADDR" PNone)).
Proof.
  clear. intros Hh Hne.
  destruct (before_comma_split header) as (rest & Hsplit & Hrest).
  exists (before_comma header), rest.
  split.
  { unfold _get_client_ip, rbind, py_get. rewrite Hh.
    destruct header; [contradiction | reflexivity]. }
  split; [exact Hsplit |]. split; [exact Hrest |].
  split; [apply before_comma_has_no_comma |].
  intros other Hf. unfold _get_client_ip, rbind. rewrite py_get_dict, Hf. reflexivity.
Qed.

(** ** The preferred scroll direction *)

Lemma max_by_spec key best rest :
  let r := max_by key best rest in
  (r = best \/ In r rest) /\ (key best <= key r)%nat /\
  (forall x, In x rest -> (key x <= key r)%nat).
Proof.
  cbv zeta. revert best. induction rest as [| y rest IH]; intros best; simpl.
  - repeat split; auto. intros x [].
  - destruct (IH (if Nat.ltb (key best) (key y) then y else best)) as (Hin & Hge & Hall).
    destruct (Nat.ltb_spec (key best) (key y)) as [Hlt | Hle].
    + repeat split.
      * destruct Hin as [-> | Hin]; auto.
      * lia.
      * intros x [<- | Hx]; [exact Hge | apply Hall; exact Hx].
    + repeat split.
      * destruct Hin as [-> | Hin]; auto.
      * exact Hge.
      * intros x [<- | Hx]; [lia | apply Hall; exact Hx].
Qed.

Lemma In_dedup x l : In x (dedup l) -> In x l.
Proof.
  revert x. induction l as [| a r IH]; intros x; simpl; [auto |].
  intros [<- | H]; [auto |]. right. apply IH. apply filter_In in H. apply H.
Qed.

Lemma py_eq_same_class x y z :
  hashable x = true -> hashable y = true -> hashable z = true ->
  py_eq x y = true -> py_eq x z = py_eq y z.
Proof.
  intros Hx Hy Hz Hxy.
  destruct (py_eq y z) eqn:E.
  - apply py_eq_trans with y; assumption.
  - destruct (py_eq x z) eqn:E'; [| reflexivity].
    rewrite <- E. symmetry. apply py_eq_trans with x; try assumption.
    rewrite py_eq_sym by assumption. exact Hxy.
Qed.

Lemma py_count_same_class l x y :
  forallb hashable l = true -> hashable x = true -> hashable y = true ->
  py_eq x y = true -> py_count l x = py_count l y.
Proof.
  intros Hl Hx Hy Hxy. unfold py_count. f_equal.
  induction l as [| z r IH]; [reflexivity |].
  simpl in Hl. apply andb_true_iff in Hl as [Hz Hr].
  simpl. rewrite (py_eq_same_class x y z) by assumption.
  rewrite (IH Hr). reflexivity.
Qed.

Lemma In_hashable x l : forallb hashable l = true -> In x l -> hashable x = true.
Proof. intros H Hin. rewrite forallb_forall in H. apply H. exact Hin. Qed.

Lemma In_mem x l : hashable x = true -> In x l -> mem x l = true.
Proof.
  intros Hx Hin. unfold mem. apply existsb_exists. exists x.
  split; [exact Hin | apply py_eq_refl; exact Hx].
Qed.

(** [max(set(directions), key=directions.count)]: an element of the list that
    no other element outnumbers. *)
Lemma most_common_spec directions d :
  most_common directions = Ok d ->
  In d directions /\
  forall x, In x directions -> (py_count directions x <= py_count directions d)%nat.
Proof using set_order_perm.
  unfold most_common, py_set, rbind.
  destruct (forallb hashable directions) eqn:Hh; [| discriminate].
  destruct (set_order (dedup directions)) as [| y rest] eqn:Es; [discriminate |].
  intros [= <-].
  pose proof (max_by_spec (py_count directions) y rest) as (Hin & Hge & Hall).
  assert (Hs : forall z, In z (y :: rest) <-> In z (dedup directions)).
  { intros z. rewrite <- Es. split; apply Permutation_in;
      [apply set_order_perm | apply Permutation_sym, set_order_perm]. }
  assert (Hr : In (max_by (py_count directions) y rest) (y :: rest)).
  { destruct Hin as [-> | Hin]; [left; reflexivity | right; exact Hin]. }
  split; [apply In_dedup, Hs, Hr |].
  intros x Hx.
  assert (Hxh := In_hashable x directions Hh Hx).
  assert (Hm : mem x (dedup directions) = true).
  { rewrite mem_dedup by assumption. apply In_mem; assumption. }
  unfold mem in Hm. apply existsb_exists in Hm. destruct Hm as (z & Hz & Hxz).
  assert (Hzh : hashable z = true) by (apply (In_hashable z directions Hh), In_dedup, Hz).
  rewrite (py_count_same_class directions x z Hh Hxh Hzh Hxz).
  apply Hs in Hz. destruct Hz as [<- | Hz]; [exact Hge | apply Hall; exact Hz].
Qed.

Lemma most_common_runs directions :
  forallb hashable directions = true -> directions <> [] ->
  exists d, most_common directions = Ok d.
Proof using set_order_perm.
  intros Hh Hne. unfold most_common, py_set, rbind. rewrite Hh.
  destruct (set_order (dedup directions)) as [| y rest] eqn:Es; [| eexists; reflexivity].
  exfalso. destruct directions as [| a r]; [contradiction |].
  assert (Hin : In a (set_order (dedup (a :: r)))).
  { apply (Permutation_in a (Permutation_sym (set_order_perm _))). left. reflexivity. }
  rewrite Es in Hin. exact Hin.
Qed.

Lemma all_nums_length l qs : all_nums l = Some qs -> List.length qs = List.length l.
Proof.
  revert qs. induction l as [| x r IH]; intros qs; simpl; [intros [= <-]; reflexivity |].
  destruct (as_num x); [| discriminate].
  destruct (all_nums r) as [qr |]; [| discriminate].
  intros [= <-]. simpl. rewrite (IH qr eq_refl). reflexivity.
Qed.

Lemma all_nums_chars s qs : all_nums (chars s) = Some qs -> qs = [].
Proof. destruct s; simpl; [intros [= <-]; reflexivity | discriminate]. Qed.

Lemma all_nums_keys_nil (d : list (string * pyval)) qs :
  all_nums (map (fun kv => PStr (fst kv)) d) = Some qs -> qs = [].
Proof. destruct d; simpl; [intros [= <-]; reflexivity | discriminate]. Qed.

(** What [set_mean_std] can do: fail on the mean and write nothing; write the
    average and fail on the standard deviation, which once the mean is there
    only an overflow can cause; or write both.  It logs nothing itself. *)
Lemma set_mean_std_outcome avg std values s :
  (exists e, set_mean_std avg std values s = (s, [], Raise e)) \/
  (exists m, numeric m /\
             set_mean_std avg std values s = (dict_set avg m s, [], Raise OverflowError)) \/
  (exists m sd, numeric m /\ numeric sd /\
                set_mean_std avg std values s =
                (dict_set std sd (dict_set avg m s), [], Ok tt)).
Proof.
  unfold set_mean_std, bind, eval, set_feature, ret.
  destruct (mean values) as [m | e] eqn:Em; [| left; eexists; reflexivity].
  right. pose proof (mean_numeric _ _ Em) as Hm.
  unfold mean, rbind in Em.
  destruct (py_iter values) as [items |] eqn:Ei; [| discriminate].
  destruct (all_nums items) as [qs |] eqn:En; [| discriminate].
  destruct qs as [| q qr]; [discriminate |].
  assert (Hl : exists l, values = PList l).
  { destruct values; try discriminate.
    - injection Ei as <-. apply all_nums_chars in En. discriminate.
    - eexists; reflexivity.
    - injection Ei as <-. apply all_nums_keys_nil in En. discriminate. }
  destruct Hl as [l ->]. injection Ei as <-.
  cbn [py_len]. cbn beta iota.
  pose proof (all_nums_length _ _ En) as Hlen.
  destruct (Nat.ltb 1 (List.length l)) eqn:E1.
  - unfold stdev, rbind. cbn [py_iter]. rewrite En.
    assert (E2 : Nat.ltb (List.length (q :: qr)) 2 = false).
    { apply Nat.ltb_ge. apply Nat.ltb_lt in E1. lia. }
    rewrite E2.
    destruct (float_sqrt (Qred (Qvariance (q :: qr)))) as [root |].
    + right. exists m, (PFloat root).
      split; [exact Hm |]. split; [eexists; reflexivity | reflexivity].
    + left. exists m. split; [exact Hm | reflexivity].
  - right. exists m, (PInt 0). split; [exact Hm |].
    split; [eexists; reflexivity | reflexivity].
Qed.

(** On two numbers or more whose standard deviation overflows, the average
    stays behind alone. *)
Lemma set_mean_std_overflow avg std l qs s :
  all_nums l = Some qs -> (2 <= List.length l)%nat ->
  float_sqrt (Qred (Qvariance qs)) = None ->
  exists m, mean (PList l) = Ok m /\
            set_mean_std avg std (PList l) s = (dict_set avg m s, [], Raise OverflowError).
Proof.
  intros Hn Hlen Hsqrt. pose proof (all_nums_length l qs Hn) as Hl.
  unfold set_mean_std, bind, eval, set_feature, ret, mean, stdev, rbind.
  cbn [py_iter py_len]. rewrite Hn.
  destruct qs as [| q qr]; [simpl in Hl; lia |].
  cbn beta iota.
  assert (E1 : Nat.ltb 1 (List.length l) = true) by (apply Nat.ltb_lt; lia).
  assert (E2 : Nat.ltb (List.length (q :: qr)) 2 = false) by (apply Nat.ltb_ge; lia).
  rewrite E1, E2, Hsqrt. eexists. split; reflexivity.
Qed.

(** X17.  The preferred direction, when [_extract_scroll_features] stores one, is a
    direction that occurs in the events and that no other direction
    outnumbers, whatever order the set of directions is iterated in (which
    decides between directions that tie).  It is stored whenever the speed
    statistics were: when there was no speed, or when [scroll_speed_std] is
    among the features. *)
Theorem preferred_direction_is_most_frequent (events : list pyval) :
  Forall (fun event => isinstance_dict event = true) events ->
  let speeds := filter truthy (map (field "speed") events) in
  let directions := filter truthy (map (field "direction") events) in
  forallb hashable directions = true ->
  directions <> [] ->
  let features := fst (_extract_scroll_features (PList events)) in
  (forall d, lookup "preferred_direction" features = Some d ->
     In d directions /\
     forall x, In x directions -> (py_count directions x <= py_count directions d)%nat) /\
  (speeds = [] \/ has_key "scroll_speed_std" features = true ->
   exists d, lookup "preferred_direction" features = Some d).
Proof using set_order_perm.
  clear float_repr.
  intros Hd speeds directions Hh Hne. cbv zeta.
  destruct (most_common_runs directions Hh Hne) as [d Hmc].
  assert (Hfeatures :
            (exists s1, fst (_extract_scroll_features (PList events))
                        = dict_set "preferred_direction" d s1) \/
            (speeds <> [] /\
             lookup "preferred_direction" (fst (_extract_scroll_features (PList events)))
             = None /\
             has_key "scroll_speed_std" (fst (_extract_scroll_features (PList events)))
             = false)).
  { assert (Hev : truthy (PList events) = true).
    { destruct events; [| reflexivity]. exfalso. apply Hne. reflexivity. }
    assert (Hsp : (exists s1, (match speeds with
                               | [] => ret tt
                               | _ :: _ =>
                                   set_mean_std "avg_scroll_speed" "scroll_speed_std"
                                                (PList speeds)
                               end) [] = (s1, [], Ok tt)) \/
                  (exists s1 e, speeds <> [] /\
                                lookup "preferred_direction" s1 = None /\
                                has_key "scroll_speed_std" s1 = false /\
                                (match speeds with
                                 | [] => ret tt
                                 | _ :: _ =>
                                     set_mean_std "avg_scroll_speed" "scroll_speed_std"
                                                  (PList speeds)
                                 end) [] = (s1, [], Raise e))).
    { destruct speeds as [| s0 sr] eqn:Es; [left; eexists; reflexivity |].
      destruct (set_mean_std_outcome "avg_scroll_speed" "scroll_speed_std"
                  (PList (s0 :: sr)) [])
        as [[e ->] | [(m & _ & ->) | (m & sd & _ & _ & ->)]].
      - right. exists [], e. repeat split; first [discriminate | reflexivity].
      - right. eexists _, OverflowError. repeat split; first [discriminate | reflexivity].
      - left. eexists. reflexivity. }
    destruct Hsp as [[s1 Hsp] | (s1 & e & Hs & Hnone & Hstd & Hsp)].
    - left. exists s1.
      unfold _extract_scroll_features, try_except. rewrite Hev. cbn [negb].
      unfold bind at 1, eval at 1. rewrite (get_all_truthy_dicts "speed" _ events Hd).
      fold speeds.
      unfold bind at 1. rewrite Hsp.
      unfold bind at 1, eval at 1. rewrite (get_all_truthy_dicts "direction" _ events Hd).
      fold directions.
      destruct directions as [| d0 dr] eqn:Ed; [contradiction |].
      unfold bind, eval, set_feature, get_local. rewrite Hmc. reflexivity.
    - right.
      assert (Hval : fst (_extract_scroll_features (PList events)) = s1).
      { unfold _extract_scroll_features, try_except. rewrite Hev. cbn [negb].
        unfold bind at 1, eval at 1. rewrite (get_all_truthy_dicts "speed" _ events Hd).
        fold speeds.
        unfold bind at 1. rewrite Hsp. reflexivity. }
      rewrite Hval. auto. }
  destruct Hfeatures as [[s1 ->] | (Hs & -> & Hstd)].
  - rewrite lookup_dict_set_same. split.
    + intros d' [= <-]. apply most_common_spec. exact Hmc.
    + intros _. exists d. reflexivity.
  - split.
    + intros d' Hd'. discriminate Hd'.
    + intros [Hempty | Hkey]; [contradiction | rewrite Hstd in Hkey; discriminate].
Qed.

(** ** What the extractors return *)

Lemma hoare_set_mean_std_pair (I : list (string * pyval) -> Prop) avg std values :
  (forall s m, I s -> numeric m -> I (dict_set avg m s)) ->
  (forall s m sd, I s -> numeric m -> numeric sd ->
                  I (dict_set std sd (dict_set avg m s))) ->
  hoare I (set_mean_std avg std values) (fun _ => True).
Proof.
  intros Havg Hboth s Hs.
  destruct (set_mean_std_outcome avg std values s)
    as [[e ->] | [(m & Hm & ->) | (m & sd & Hm & Hsd & ->)]]; auto.
Qed.

Lemma has_key_dict_set_same k v d : has_key k (dict_set k v d) = true.
Proof. unfold has_key. rewrite lookup_dict_set_same. reflexivity. Qed.

Lemma has_key_dict_set_other k k' v d :
  k <> k' -> has_key k (dict_set k' v d) = has_key k d.
Proof. intros H. unfold has_key. rewrite lookup_dict_set_other by exact H. reflexivity. Qed.

Lemma features_among_set keys k x d :
  In k keys -> (k <> "preferred_direction" -> numeric x) ->
  features_among keys d -> features_among keys (dict_set k x d).
Proof.
  intros Hin Hx Hd k' v.
  destruct (String.eqb_spec k' k) as [-> | Hne].
  - rewrite lookup_dict_set_same. intros [= <-]. auto.
  - rewrite lookup_dict_set_other by exact Hne. apply Hd.
Qed.

Ltac keep_invariant :=
  intros;
  repeat match goal with H : _ /\ _ |- _ => destruct H end;
  repeat match goal with |- _ /\ _ => split end;
  [ repeat (apply features_among_set;
            [ simpl; tauto
            | first [ intros _; assumption
                    | let H := fresh in intros H; exfalso; apply H; reflexivity ]
            | ]);
    assumption
  | unfold with_average in *;
    repeat first
      [ rewrite has_key_dict_set_same
      | rewrite has_key_dict_set_other by discriminate ];
    first [ reflexivity | assumption ] .. ].

Ltac features_block :=
  lazymatch goal with
  | |- hoare _ (bind (eval (mean _)) _) _ =>
      apply hoare_bind with (P := numeric);
      [ apply hoare_eval; intros ?; apply mean_numeric
      | intros ? ?; features_block ]
  | |- hoare _ (bind _ _) _ =>
      apply hoare_bind with (P := fun _ => True);
      [ features_block | intros ? _; features_block ]
  | |- hoare _ (set_mean_std _ _ _) _ =>
      apply hoare_set_mean_std_pair; keep_invariant
  | |- hoare _ (set_feature _ _) _ =>
      apply hoare_set_feature; [keep_invariant | exact I]
  | |- hoare _ (eval _) _ => apply hoare_eval; auto
  | |- hoare _ (ret _) _ => apply hoare_ret; exact I
  | |- hoare _ get_local _ => apply hoare_get_local; auto
  | |- hoare _ (match ?l with [] => _ | _ :: _ => _ end) _ => destruct l; features_block
  | |- hoare _ (if _ then _ else _) _ => apply hoare_if; intros _; features_block
  end.

Lemma features_among_nil keys : features_among keys [].
Proof. intros k v H. discriminate H. Qed.

Lemma with_average_nil avg std : with_average avg std [].
Proof. intros H. discriminate H. Qed.

Lemma typing_features_invariant typing_pattern :
  let features := fst (_extract_typing_features typing_pattern) in
  features_among ["avg_hold_time"; "hold_time_std"; "avg_flight_time"; "flight_time_std"]
                 features /\
  with_average "avg_hold_time" "hold_time_std" features /\
  with_average "avg_flight_time" "flight_time_std" features.
Proof.
  cbv zeta. unfold _extract_typing_features.
  apply try_except_value with
    (I := fun s =>
            features_among
              ["avg_hold_time"; "hold_time_std"; "avg_flight_time"; "flight_time_std"] s /\
            with_average "avg_hold_time" "hold_time_std" s /\
            with_average "avg_flight_time" "flight_time_std" s)
    (Q := fun s =>
            features_among
              ["avg_hold_time"; "hold_time_std"; "avg_flight_time"; "flight_time_std"] s /\
            with_average "avg_hold_time" "hold_time_std" s /\
            with_average "avg_flight_time" "flight_time_std" s).
  - split; [apply features_among_nil | split; apply with_average_nil].
  - features_block.
  - auto.
Qed.

Lemma touch_features_invariant touch_patterns :
  let features := fst (_extract_touch_features touch_patterns) in
  features_among ["avg_swipe_speed"; "swipe_speed_std"; "avg_touch_pressure";
                  "touch_pressure_std"] features /\
  with_average "avg_swipe_speed" "swipe_speed_std" features /\
  with_average "avg_touch_pressure" "touch_pressure_std" features.
Proof.
  cbv zeta. unfold _extract_touch_features.
  apply try_except_value with
    (I := fun s =>
            features_among ["avg_swipe_speed"; "swipe_speed_std"; "avg_touch_pressure";
                            "touch_pressure_std"] s /\
            with_average "avg_swipe_speed" "swipe_speed_std" s /\
            with_average "avg_touch_pressure" "touch_pressure_std" s)
    (Q := fun s =>
            features_among ["avg_swipe_speed"; "swipe_speed_std"; "avg_touch_pressure";
                            "touch_pressure_std"] s /\
            with_average "avg_swipe_speed" "swipe_speed_std" s /\
            with_average "avg_touch_pressure" "touch_pressure_std" s).
  - split; [apply features_among_nil | split; apply with_average_nil].
  - features_block.
  - auto.
Qed.

Lemma web_typing_features_invariant keystroke_timing :
  let features := fst (_extract_web_typing_features keystroke_timing) in
  features_among ["avg_hold_time"; "hold_time_std"; "avg_flight_time"; "flight_time_std"]
                 features /\
  with_average "avg_hold_time" "hold_time_std" features /\
  with_average "avg_flight_time" "flight_time_std" features.
Proof.
  cbv zeta. unfold _extract_web_typing_features.
  apply try_except_value with
    (I := fun s =>
            features_among
              ["avg_hold_time"; "hold_time_std"; "avg_flight_time"; "flight_time_std"] s /\
            with_average "avg_hold_time" "hold_time_std" s /\
            with_average "avg_flight_time" "flight_time_std" s)
    (Q := fun s =>
            features_among
              ["avg_hold_time"; "hold_time_std"; "avg_flight_time"; "flight_time_std"] s /\
            with_average "avg_hold_time" "hold_time_std" s /\
            with_average "avg_flight_time" "flight_time_std" s).
  - split; [apply features_among_nil | split; apply with_average_nil].
  - features_block.
  - auto.
Qed.

Lemma mouse_features_invariant mouse_movements :
  let features := fst (_extract_mouse_features mouse_movements) in
  features_among ["avg_mouse_speed"; "mouse_speed_std"; "avg_movement_angle"] features /\
  with_average "avg_mouse_speed" "mouse_speed_std" features.
Proof.
  cbv zeta. unfold _extract_mouse_features.
  apply try_except_value with
    (I := fun s =>
            features_among ["avg_mouse_speed"; "mouse_speed_std"; "avg_movement_angle"] s /\
            with_average "avg_mouse_speed" "mouse_speed_std" s)
    (Q := fun s =>
            features_among ["avg_mouse_speed"; "mouse_speed_std"; "avg_movement_angle"] s /\
            with_average "avg_mouse_speed" "mouse_speed_std" s).
  - split; [apply features_among_nil | apply with_average_nil].
  - features_block.
  - auto.
Qed.

Lemma scroll_features_invariant scroll_events :
  let features := fst (_extract_scroll_features scroll_events) in
  features_among ["avg_scroll_speed"; "scroll_speed_std"; "preferred_direction"] features /\
  with_average "avg_scroll_speed" "scroll_speed_std" features.
Proof.
  cbv zeta. unfold _extract_scroll_features.
  apply try_except_value with
    (I := fun s =>
            features_among ["avg_scroll_speed"; "scroll_speed_std"; "preferred_direction"] s /\
            with_average "avg_scroll_speed" "scroll_speed_std" s)
    (Q := fun s =>
            features_among ["avg_scroll_speed"; "scroll_speed_std"; "preferred_direction"] s /\
            with_average "avg_scroll_speed" "scroll_speed_std" s).
  - split; [apply features_among_nil | apply with_average_nil].
  - features_block.
  - auto.
Qed.

(** X18.  Whatever it is given and whatever is raised on the way, every
    extractor returns features of its own short list only and, the preferred
    direction apart, numbers; and a standard deviation is never there without
    its average.  (The converse fails: an overflow in [statistics.stdev]
    leaves the average alone, see X20.) *)
Theorem extracted_features_are_numbers_of_the_list (v : pyval) :
  (let features := fst (_extract_typing_features v) in
   features_among ["avg_hold_time"; "hold_time_std"; "avg_flight_time"; "flight_time_std"]
                  features /\
   with_average "avg_hold_time" "hold_time_std" features /\
   with_average "avg_flight_time" "flight_time_std" features) /\
  (let features := fst (_extract_touch_features v) in
   features_among ["avg_swipe_speed"; "swipe_speed_std"; "avg_touch_pressure";
                   "touch_pressure_std"] features /\
   with_average "avg_swipe_speed" "swipe_speed_std" features /\
   with_average "avg_touch_pressure" "touch_pressure_std" features) /\
  (let features := fst (_extract_web_typing_features v) in
   features_among ["avg_hold_time"; "hold_time_std"; "avg_flight_time"; "flight_time_std"]
                  features /\
   with_average "avg_hold_time" "hold_time_std" features /\
   with_average "avg_flight_time" "flight_time_std" features) /\
  (let features := fst (_extract_mouse_features v) in
   features_among ["avg_mouse_speed"; "mouse_speed_std"; "avg_movement_angle"] features /\
   with_average "avg_mouse_speed" "mouse_speed_std" features) /\
  (let features := fst (_extract_scroll_features v) in
   features_among ["avg_scroll_speed"; "scroll_speed_std"; "preferred_direction"] features /\
   with_average "avg_scroll_speed" "scroll_speed_std" features).
Proof.
  split; [apply typing_features_invariant |].
  split; [apply touch_features_invariant |].
  split; [apply web_typing_features_invariant |].
  split; [apply mouse_features_invariant | apply scroll_features_invariant].
Qed.

(** ** What the web signature depends on *)

Lemma create_web_behavioral_signature_fields (d d' : list (string * pyval)) :
  get_or d "mouse_movements" (PList []) = get_or d' "mouse_movements" (PList []) ->
  get_or d "scroll_events" (PList []) = get_or d' "scroll_events" (PList []) ->
  get_or d "keystroke_timing" (PList []) = get_or d' "keystroke_timing" (PList []) ->
  get_or d "browser_info" (PDict []) = get_or d' "browser_info" (PDict []) ->
  create_web_behavioral_signature (PDict d) = create_web_behavioral_signature (PDict d').
Proof.
  intros Hm Hs Hk Hb.
  unfold create_web_behavioral_signature, create_web_behavioral_signature_body.
  rewrite !py_get_dict, Hm, Hs, Hk, Hb. reflexivity.
Qed.

Lemma get_or_agree (d d' : list (string * pyval)) k default :
  lookup k d = lookup k d' -> get_or d k default = get_or d' k default.
Proof. intros H. unfold get_or. rewrite H. reflexivity. Qed.

(** X19.  On a dict [create_web_behavioral_signature] returns a digest of 64
    hexadecimal digits, never the empty string of a failure, and the digest is
    decided by the mouse movements, the scroll events, the keystroke timing
    and the browser information alone: two dicts that agree on these four
    keys have the same signature, whatever else they hold. *)
Theorem web_signature_ignores_interactions (web_data web_data' : list (string * pyval)) :
  (forall k, In k ["mouse_movements"; "scroll_events"; "keystroke_timing"; "browser_info"] ->
             lookup k web_data = lookup k web_data') ->
  String.length (fst (create_web_behavioral_signature (PDict web_data))) = 64%nat /\
  hexadecimal (fst (create_web_behavioral_signature (PDict web_data))) = true /\
  create_web_behavioral_signature (PDict web_data)
  = create_web_behavioral_signature (PDict web_data').
Proof.
  intros Hsame.
  destruct (create_web_behavioral_signature_body_no_raise web_data tt)
    as (s' & lg & sig & Hbody).
  assert (Hsig : create_web_behavioral_signature (PDict web_data) = (sig, lg)).
  { unfold create_web_behavioral_signature. eapply try_except_log_ok. exact Hbody. }
  rewrite Hsig. cbn [fst].
  destruct (create_web_behavioral_signature_body_digest _ _ _ _ Hbody) as (data & ->).
  split; [apply sha256_hexdigest_length |].
  split; [apply sha256_hexdigest_hexadecimal |].
  rewrite <- Hsig. apply create_web_behavioral_signature_fields;
    apply (get_or_agree web_data web_data'); apply Hsame; simpl; tauto.
Qed.

(** ** The first failure ends an extraction *)

Lemma mean_not_numbers l : all_nums l = None -> mean (PList l) = Raise TypeError.
Proof. intros H. unfold mean, rbind. cbn [py_iter]. rewrite H. reflexivity. Qed.

Lemma all_nums_head x r qs : all_nums (x :: r) = Some qs -> isinstance_dict x = false.
Proof. simpl. destruct x; try reflexivity. discriminate. Qed.

(** The block of [_extract_typing_features] that handles the hold times. *)
Lemma hold_times_block_outcome (hold_times : pyval) :
  let block :=
    (if truthy hold_times then
       first <- eval (py_index hold_times 0) ;;
       hold_values <- (if isinstance_dict first
                       then l <- eval (get_all_truthy hold_times "hold_time" (PInt 0)) ;;
                            ret (PList l)
                       else ret hold_times) ;;
       if truthy hold_values
       then set_mean_std "avg_hold_time" "hold_time_std" hold_values
       else ret tt
     else ret tt)%stmt in
  exists s r, block [] = (s, [], r) /\
              has_key "avg_flight_time" s = false /\ has_key "flight_time_std" s = false.
Proof.
  cbv zeta. destruct (truthy hold_times); [| do 2 eexists; repeat split; reflexivity].
  unfold bind at 1, eval at 1.
  destruct (py_index hold_times 0) as [first | e];
    [| do 2 eexists; repeat split; reflexivity].
  cbn beta iota.
  assert (Hvalues : forall hold_values,
             exists s r,
               (if truthy hold_values
                then set_mean_std "avg_hold_time" "hold_time_std" hold_values
                else ret tt) [] = (s, [], r) /\
               has_key "avg_flight_time" s = false /\ has_key "flight_time_std" s = false).
  { intros hold_values. destruct (truthy hold_values);
      [| do 2 eexists; repeat split; reflexivity].
    destruct (set_mean_std_outcome "avg_hold_time" "hold_time_std" hold_values [])
      as [[e ->] | [(m & _ & ->) | (m & sd & _ & _ & ->)]];
      do 2 eexists; repeat split; reflexivity. }
  destruct (isinstance_dict first).
  - unfold bind at 1. unfold bind at 1, eval at 1.
    destruct (get_all_truthy hold_times "hold_time" (PInt 0)) as [l | e];
      [| do 2 eexists; repeat split; reflexivity].
    cbn beta iota. unfold ret at 1. cbn beta iota.
    destruct (Hvalues (PList l)) as (s & r & -> & H1 & H2).
    exists s, r. repeat split; assumption.
  - unfold bind at 1, ret at 1. cbn beta iota.
    destruct (Hvalues hold_times) as (s & r & -> & H1 & H2).
    exists s, r. repeat split; assumption.
Qed.

(** X20.  [_extract_typing_features] handles the hold times before the flight
    times, and one handler covers both, so the first failure ends the
    extraction.  Hold times that are not numbers cost the flight-time features
    as well, whatever the flight times are.  Flight times that are not numbers
    leave exactly the features the hold times alone give, and one warning.
    Whole-number hold times with a whole-number average whose standard
    deviation overflows leave that average behind without a standard
    deviation, and the flight times are not looked at. *)
Theorem malformed_hold_times_hide_flight_times
    (typing_pattern : list (string * pyval)) (hold_times flight_times : list pyval) :
  get_or typing_pattern "key_hold_times" (PList []) = PList hold_times ->
  get_or typing_pattern "flight_times" (PList []) = PList flight_times ->
  let warning cause :=
    {| lvl := WARNING; msg := "Failed to extract typing features"; cause := cause |} in
  (all_nums hold_times = None ->
   (forall item, hd_error hold_times = Some item -> isinstance_dict item = false) ->
   _extract_typing_features (PDict typing_pattern) = ([], [warning TypeError])) /\
  (all_nums flight_times = None ->
   fst (_extract_typing_features (PDict typing_pattern))
   = fst (_extract_typing_features (PDict [("key_hold_times", PList hold_times)])) /\
   has_key "avg_flight_time" (fst (_extract_typing_features (PDict typing_pattern))) = false /\
   List.length (snd (_extract_typing_features (PDict typing_pattern))) = 1%nat) /\
  (forall numbers average,
      all_nums hold_times = Some numbers -> (2 <= List.length hold_times)%nat ->
      mean (PList hold_times) = Ok (PInt average) ->
      float_sqrt (Qred (Qvariance numbers)) = None ->
      _extract_typing_features (PDict typing_pattern)
      = ([("avg_hold_time", PInt average)], [warning OverflowError])).
Proof.
  intros Hh Hf. cbv zeta. split; [| split].
  - intros Hnone Hhead.
    unfold _extract_typing_features, try_except, bind, eval, ret.
    rewrite !py_get_dict, Hh, Hf.
    destruct hold_times as [| x r]; [discriminate Hnone |].
    specialize (Hhead x eq_refl).
    cbn [truthy py_index nth_error negb]. cbn beta iota.
    rewrite Hhead. cbn beta iota. cbn [truthy negb]. cbn beta iota.
    unfold set_mean_std, bind, eval. rewrite (mean_not_numbers _ Hnone). reflexivity.
  - intros Hnone.
    assert (Htruthy : truthy (PList flight_times) = true).
    { destruct flight_times; [discriminate Hnone | reflexivity]. }
    assert (Hflight : forall s,
               set_mean_std "avg_flight_time" "flight_time_std" (PList flight_times) s
               = (s, [], Raise TypeError)).
    { intros s. unfold set_mean_std, bind, eval.
      rewrite (mean_not_numbers _ Hnone). reflexivity. }
    destruct (hold_times_block_outcome (PList hold_times)) as (s & r & Hblock & Hk & _).
    cbv zeta in Hblock.
    assert (Hrun : exists c,
               _extract_typing_features (PDict typing_pattern)
               = (s, [{| lvl := WARNING; msg := "Failed to extract typing features";
                         cause := c |}])).
    { unfold _extract_typing_features, try_except.
      unfold bind at 1, eval at 1. rewrite py_get_dict, Hh. cbn beta iota.
      unfold bind at 1, eval at 1. rewrite py_get_dict, Hf. cbn beta iota.
      unfold bind at 1. rewrite Hblock. rewrite Htruthy.
      destruct r as [[] | e]; cbn beta iota.
      - unfold bind at 1. rewrite Hflight. eexists. reflexivity.
      - eexists. reflexivity. }
    assert (Halone : fst (_extract_typing_features
                            (PDict [("key_hold_times", PList hold_times)])) = s).
    { unfold _extract_typing_features, try_except.
      unfold bind at 1, eval at 1. cbn [py_get lookup String.eqb Ascii.eqb Bool.eqb].
      cbn beta iota.
      unfold bind at 1, eval at 1. cbn [py_get lookup String.eqb Ascii.eqb Bool.eqb].
      cbn beta iota.
      unfold bind at 1. rewrite Hblock. cbn [truthy].
      destruct r as [[] | e]; reflexivity. }
    destruct Hrun as [c ->]. rewrite Halone. cbn [fst snd List.length].
    repeat split. exact Hk.
  - intros numbers average Hnum Hlen Hmean Hsqrt.
    destruct (set_mean_std_overflow "avg_hold_time" "hold_time_std" hold_times numbers []
                Hnum Hlen Hsqrt) as (m & Hm & Hrun).
    rewrite Hmean in Hm. injection Hm as <-.
    unfold _extract_typing_features, try_except, bind, eval, ret.
    rewrite !py_get_dict, Hh, Hf.
    destruct hold_times as [| x r]; [simpl in Hlen; lia |].
    pose proof (all_nums_head _ _ _ Hnum) as Hhead.
    cbn [truthy py_index nth_error negb]. cbn beta iota.
    rewrite Hhead. cbn beta iota. cbn [truthy negb]. cbn beta iota.
    rewrite Hrun. reflexivity.
Qed.

End Engine.

(* ================================================================== *)
(** * Part III - the properties on concrete samples                    *)
(* ================================================================== *)

(** The three scenarios of the decision mapping: confidence 0.75 with a match,
    0.55, and 0.2. *)
Lemma decision_mapping_witness :
  (status (_prepare_verification_result true (75 # 100) (25 # 100)) = "success" /\
   is_verified (_prepare_verification_result true (75 # 100) (25 # 100)) = true /\
   requires_challenge (_prepare_verification_result true (75 # 100) (25 # 100)) = false) /\
  (status (BiometricVerificationView_result false (55 # 100) (45 # 100)) = "suspicious" /\
   is_verified (BiometricVerificationView_result false (55 # 100) (45 # 100)) = false /\
   requires_challenge (BiometricVerificationView_result false (55 # 100) (45 # 100)) = true /\
   challenge_type (BiometricVerificationView_result false (55 # 100) (45 # 100)) = Some "otp") /\
  (status (_prepare_verification_result false (2 # 10) (8 # 10)) = "failed" /\
   is_verified (_prepare_verification_result false (2 # 10) (8 # 10)) = false /\
   requires_challenge (_prepare_verification_result false (2 # 10) (8 # 10)) = false).
Proof.
  split; [| split].
  - apply (decision_mapping true (75 # 100) (25 # 100) _ (or_introl eq_refl)).
    split; [reflexivity | unfold Qle; simpl; lia].
  - apply (decision_mapping false (55 # 100) (45 # 100) _ (or_intror eq_refl)).
    + intros [H _]. discriminate H.
    + unfold Qle; simpl; lia.
  - apply (decision_mapping false (2 # 10) (8 # 10) _ (or_introl eq_refl)).
    + intros [H _]. discriminate H.
    + unfold Qle; simpl; lia.
Defined.

(** A sample that is a list, not a dict: [current_data.get] raises in the body
    of either analyzer, and the handler answers. *)
Lemma fail_closed_at_the_boundary_witness :
  fst (verify_behavioral_match sqrt_ten_decimals (PList []) (PDict [])) = (false, 0, 1) /\
  fst (verify_web_behavior sqrt_ten_decimals insertion_order (PList []) (PDict []))
  = (false, 0, 1) /\
  no_raise (verify_behavioral_match_body sqrt_ten_decimals (PDict []) (PDict [])).
Proof.
  destruct (fail_closed_at_the_boundary sqrt_ten_decimals insertion_order
              (PList []) (PDict [])) as (Hm & Hw & _).
  destruct (fail_closed_at_the_boundary sqrt_ten_decimals insertion_order
              (PDict []) (PDict [])) as (_ & _ & Hd).
  split; [| split].
  - rewrite (Hm tt [] AttributeError); reflexivity.
  - rewrite (Hw tt [] AttributeError); reflexivity.
  - apply Hd; reflexivity.
Defined.

(** C1 as stated fails.  Mobile: the hold times are strings, [statistics.mean]
    raises [TypeError] inside [_extract_typing_features], which catches it (two
    warnings are logged, one per extraction); the device is trusted and the
    result is confidence 0.2 and risk 0.8, not the fail-closed triple.  Web:
    the hold time is a string, the browser matches; confidence 0.1, risk
    0.9. *)
Lemma fail_closed_counterexample :
  (map cause (snd (verify_behavioral_match sqrt_ten_decimals
                     sample_malformed_hold_times profile_trusting_d1))
   = [TypeError; TypeError] /\
   let '(is_match, confidence, risk) :=
     fst (verify_behavioral_match sqrt_ten_decimals
            sample_malformed_hold_times profile_trusting_d1) in
   is_match = false /\ confidence == 2 # 10 /\ risk == 8 # 10) /\
  (map cause (snd (verify_web_behavior sqrt_ten_decimals insertion_order
                     web_sample_malformed_hold_time web_profile_ua))
   = [TypeError] /\
   let '(is_match, confidence, risk) :=
     fst (verify_web_behavior sqrt_ten_decimals insertion_order
            web_sample_malformed_hold_time web_profile_ua) in
   is_match = false /\ confidence == 1 # 10 /\ risk == 9 # 10) /\
  ~ fail_closed_on_any_exception_mobile sqrt_ten_decimals /\
  ~ fail_closed_on_any_exception_web sqrt_ten_decimals insertion_order.
Proof.
  split; [vm_compute; repeat split | split; [vm_compute; repeat split | split; intros H]].
  - specialize (H sample_malformed_hold_times profile_trusting_d1 eq_refl eq_refl).
    vm_compute in H.
    destruct H as (_ & Hc & _); [intros E; discriminate E | discriminate Hc].
  - specialize (H web_sample_malformed_hold_time web_profile_ua eq_refl eq_refl).
    vm_compute in H.
    destruct H as (_ & Hc & _); [intros E; discriminate E | discriminate Hc].
Qed.

Lemma risk_formula_witness :
  (let '(_, confidence, risk) :=
     fst (verify_behavioral_match sqrt_ten_decimals sample_unfamiliar_device profile_typing_100) in
   confidence == 75 # 100 /\ risk == Qmin 1 (1 - confidence + (2 # 10) * 1)) /\
  (let '(_, confidence, risk) :=
     fst (verify_web_behavior sqrt_ten_decimals insertion_order
            web_sample_one_event web_profile_new) in
   confidence == 28 # 100 /\ risk == Qmin 1 (1 - confidence + (15 # 100) * 2)).
Proof.
  destruct (risk_formula sqrt_ten_decimals insertion_order
              sample_unfamiliar_device profile_typing_100) as [Hm _].
  destruct (risk_formula sqrt_ten_decimals insertion_order
              web_sample_one_event web_profile_new) as [_ Hw].
  specialize (Hm eq_refl). specialize (Hw eq_refl).
  split.
  - split; [reflexivity | exact (proj2 Hm)].
  - split; [reflexivity | exact (proj2 Hw)].
Defined.

(** The anomaly scenario: stored typing speed 100, current 160, relative
    difference 0.6; the device is not trusted.  Both tags are reported and
    risk reaches the cap. *)
Lemma anomaly_scenario :
  let sample :=
    PDict [("typing_pattern", PDict [("key_hold_times", PList [PInt 160])]);
           ("device_characteristics", PDict [("device_id", PStr "dev-9")])] in
  relative_difference (PFloat 100) (PInt 160) = Ok (PFloat (3 # 5)) /\
  fst (_detect_anomalies sqrt_ten_decimals sample profile_typing_100)
  = ["typing_speed_anomaly"; "unfamiliar_device"] /\
  let '(_, confidence, risk) :=
    fst (verify_behavioral_match sqrt_ten_decimals sample profile_typing_100) in
  confidence == 0 /\ risk == 1.
Proof. vm_compute. repeat split. Qed.

Lemma typing_only_confidence_witness :
  let '(_, confidence, _) :=
    fst (verify_behavioral_match sqrt_ten_decimals sample_hold_175 profile_speed_150) in
  confidence ==
  fst (_verify_typing_pattern sqrt_ten_decimals
         (PDict [("key_hold_times",
                  PList [PDict [("key", PStr "a"); ("hold_time", PInt 170)];
                         PDict [("key", PStr "e"); ("hold_time", PInt 180)]])])
         profile_speed_150) * (5 # 10).
Proof.
  apply (typing_only_confidence sqrt_ten_decimals sample_hold_175 profile_speed_150);
    reflexivity.
Defined.

Lemma update_profile_union_and_count_witness :
  let once := fst (update_biometric_profile insertion_order profile_one_device
                     (PList batch_two_samples)) in
  let twice := fst (update_biometric_profile insertion_order once (PList batch_two_samples)) in
  samples_collected once = Some 5%Z /\
  samples_collected twice = Some 7%Z /\
  (forall x, hashable x = true -> mem x (trusted twice) = mem x (trusted once)) /\
  Permutation (trusted twice) (trusted once) /\
  trusted once = [PStr "dev-1"; PStr "dev-2"] /\
  distinct (trusted once) = true.
Proof.
  destruct (update_profile_union_and_count insertion_order
              (fun l => Permutation_refl l)
              profile_one_device batch_two_samples 3%Z eq_refl eq_refl eq_refl)
    as (_ & _ & Hc1 & Hi & Hc2 & Hsame & Hdistinct).
  split; [exact Hc1 | split; [exact Hc2 | split; [exact Hi | split; [exact Hsame |]]]].
  split; [reflexivity | apply Hdistinct; discriminate].
Defined.

Lemma empty_fingerprint_always_mismatch_witness :
  In "browser_fingerprint_mismatch"
     (fst (_detect_web_anomalies sqrt_ten_decimals
             (PDict [("browser_info", PDict [("userAgent", PStr "UA")])])
             (PDict [("mouse_patterns", PDict [])]))).
Proof.
  apply (empty_fingerprint_always_mismatch sqrt_ten_decimals
           [("browser_info", PDict [("userAgent", PStr "UA")])]
           [("mouse_patterns", PDict [])] eq_refl).
Defined.

Lemma single_speed_flags_robotic_witness :
  lookup "mouse_speed_std"
    (fst (_extract_mouse_features sqrt_ten_decimals
            (PList [PDict [("x", PInt 100); ("y", PInt 200); ("speed", PFloat (5 # 2))]])))
  = Some (PInt 0) /\
  In "robotic_mouse_movements"
     (fst (_detect_web_anomalies sqrt_ten_decimals web_sample_one_event web_profile_new)).
Proof.
  destruct (single_speed_flags_robotic sqrt_ten_decimals
              [("mouse_movements",
                PList [PDict [("x", PInt 100); ("y", PInt 200); ("speed", PFloat (5 # 2))]])]
              web_profile_new
              [PDict [("x", PInt 100); ("y", PInt 200); ("speed", PFloat (5 # 2))]]
              (PFloat (5 # 2)) (5 # 2)) as (H1 & _ & H2).
  - repeat constructor.
  - reflexivity.
  - reflexivity.
  - reflexivity.
  - split; [exact H1 | exact H2].
Defined.

Lemma signature_independent_of_insertion_order_witness :
  sample_in_order <> sample_reordered /\
  fst (create_biometric_signature sqrt_ten_decimals six_decimals sample_in_order) =
  fst (create_biometric_signature sqrt_ten_decimals six_decimals sample_reordered) /\
  fst (create_web_behavioral_signature sqrt_ten_decimals six_decimals insertion_order
         sample_in_order) =
  fst (create_web_behavioral_signature sqrt_ten_decimals six_decimals insertion_order
         sample_reordered) /\
  fst (create_biometric_signature sqrt_ten_decimals six_decimals
         (PDict [("device_characteristics", PStr "unknown")])) = EmptyString.
Proof.
  destruct (signature_independent_of_insertion_order sqrt_ten_decimals six_decimals
              insertion_order sample_in_order sample_reordered eq_refl)
    as ((Hm & Hw) & _).
  destruct (signature_independent_of_insertion_order sqrt_ten_decimals six_decimals
              insertion_order (PDict [("device_characteristics", PStr "unknown")])
              (PDict [("device_characteristics", PStr "unknown")]) eq_refl)
    as (_ & He & _).
  split; [discriminate |].
  split; [exact Hm |]. split; [exact Hw |].
  apply (He tt [] AttributeError). reflexivity.
Defined.

(** The second half of C3 as stated fails: the hold times are strings, the
    extractor raises [TypeError] and catches it, and the builder returns the
    digest of the features it is left with, not the empty string. *)
Lemma empty_signature_counterexample :
  (map cause (snd (create_biometric_signature sqrt_ten_decimals six_decimals
                     sample_malformed_hold_times))
   = [TypeError] /\
   fst (create_biometric_signature sqrt_ten_decimals six_decimals sample_malformed_hold_times)
   = "ae2eb8d3ea2a9b704af4584fdb9292160fa87b65b0e21c3f95d2ccabefb01ae8") /\
  ~ empty_signature_on_any_exception sqrt_ten_decimals six_decimals.
Proof.
  split.
  - vm_compute. split; reflexivity.
  - intros H.
    specialize (H sample_malformed_hold_times eq_refl).
    vm_compute in H.
    assert (E : "ae2eb8d3ea2a9b704af4584fdb9292160fa87b65b0e21c3f95d2ccabefb01ae8"
                = EmptyString).
    { apply H. intros E. discriminate E. }
    discriminate E.
Qed.


(* ================================================================== *)
(** * Part IV - the further properties on concrete samples             *)
(* ================================================================== *)

Lemma mobile_match_needs_every_channel_witness :
  exists confidence risk,
    fst (verify_behavioral_match sqrt_ten_decimals sample_unfamiliar_device profile_typing_100)
    = (true, confidence, risk) /\
    both_present sample_unfamiliar_device "typing_pattern"
                 profile_typing_100 "typical_hold_times" = Ok true /\
    both_present sample_unfamiliar_device "touch_patterns"
                 profile_typing_100 "avg_swipe_speed" = Ok true /\
    get_truthy sample_unfamiliar_device "device_characteristics" = Ok true.
Proof.
  do 2 eexists. split; [vm_compute; reflexivity |].
  destruct (mobile_match_needs_every_channel sqrt_ten_decimals
              sample_unfamiliar_device profile_typing_100 _ _ eq_refl)
    as (H1 & H2 & H3 & _).
  split; [exact H1 | split; [exact H2 | exact H3]].
Defined.

(** The sample verified against the profile its own enrolment derived. *)
Lemma web_match_needs_mouse_and_keystrokes_witness :
  let stored := PDict (enrolled_web_profile sqrt_ten_decimals insertion_order web_data_full) in
  exists confidence risk,
    fst (verify_web_behavior sqrt_ten_decimals insertion_order (PDict web_data_full) stored)
    = (true, confidence, risk) /\
    both_present (PDict web_data_full) "mouse_movements" stored "mouse_patterns" = Ok true /\
    both_present (PDict web_data_full) "keystroke_timing" stored "typing_rhythm" = Ok true.
Proof.
  cbv zeta. do 2 eexists. split; [vm_compute; reflexivity |].
  destruct (web_match_needs_mouse_and_keystrokes sqrt_ten_decimals insertion_order
              (PDict web_data_full)
              (PDict (enrolled_web_profile sqrt_ten_decimals insertion_order web_data_full))
              _ _ eq_refl)
    as (H1 & H2 & _).
  split; [exact H1 | exact H2].
Defined.

Lemma profile_without_baselines_rejects_witness :
  exists is_match confidence risk,
    fst (verify_behavioral_match sqrt_ten_decimals sample_unfamiliar_device
           (PDict profile_defaults))
    = (is_match, confidence, risk) /\
    is_match = false /\ confidence == 0 /\ risk == 1 /\
    status (BiometricVerificationView_result is_match confidence risk) = "failed".
Proof.
  do 3 eexists. split; [vm_compute; reflexivity |].
  apply (profile_without_baselines_rejects sqrt_ten_decimals sample_unfamiliar_device
           profile_defaults _ _ _ eq_refl eq_refl eq_refl eq_refl eq_refl).
Defined.

Lemma profile_without_web_features_rejects_witness :
  exists is_match confidence risk,
    fst (verify_web_behavior sqrt_ten_decimals insertion_order (PDict web_data_full)
           (web_profile row_defaults))
    = (is_match, confidence, risk) /\
    is_match = false /\ confidence == 0 /\ risk == 1 /\
    status (_verify_web_behavior sqrt_ten_decimals insertion_order (PDict web_data_full)
              (web_profile row_defaults)) = "failed".
Proof.
  do 3 eexists. split; [vm_compute; reflexivity |].
  destruct (profile_without_web_features_rejects sqrt_ten_decimals insertion_order
              (PDict web_data_full) [] _ _ _ eq_refl eq_refl eq_refl eq_refl eq_refl)
    as (H1 & H2 & H3 & H4 & _).
  split; [exact H1 | split; [exact H2 | split; [exact H3 | exact H4]]].
Defined.

Lemma mobile_match_is_never_flagged_witness :
  exists confidence risk,
    fst (verify_behavioral_match sqrt_ten_decimals sample_unfamiliar_device profile_typing_100)
    = (true, confidence, risk) /\
    fst (_detect_anomalies sqrt_ten_decimals sample_unfamiliar_device profile_typing_100)
    = ["unfamiliar_device"] /\
    risk <= 5 # 10 /\ anomaly_detected risk = false.
Proof.
  do 2 eexists. split; [vm_compute; reflexivity |].
  split; [reflexivity |].
  destruct (mobile_match_is_never_flagged sqrt_ten_decimals
              sample_unfamiliar_device profile_typing_100 _ _ eq_refl)
    as (_ & H2 & H3).
  split; [exact H2 | exact H3].
Defined.

Lemma web_match_is_never_flagged_witness :
  let stored := PDict (enrolled_web_profile sqrt_ten_decimals insertion_order web_data_full) in
  exists confidence risk,
    fst (verify_web_behavior sqrt_ten_decimals insertion_order (PDict web_data_full) stored)
    = (true, confidence, risk) /\
    risk <= 65 # 100 /\ anomaly_detected risk = false.
Proof.
  cbv zeta. do 2 eexists. split; [vm_compute; reflexivity |].
  apply (web_match_is_never_flagged sqrt_ten_decimals insertion_order
           (PDict web_data_full)
           (PDict (enrolled_web_profile sqrt_ten_decimals insertion_order web_data_full))
           _ _ eq_refl).
Defined.

(** Without scroll events the enrolled sample reaches 0.28 + 0.3 + 0.1: a
    match for the analyzer, [suspicious] for the view. *)
Lemma web_status_ignores_the_web_threshold_witness :
  let stored :=
    PDict (enrolled_web_profile sqrt_ten_decimals insertion_order web_data_no_scroll) in
  let result :=
    _verify_web_behavior sqrt_ten_decimals insertion_order (PDict web_data_no_scroll) stored in
  exists confidence risk,
    fst (verify_web_behavior sqrt_ten_decimals insertion_order
           (PDict web_data_no_scroll) stored)
    = (true, confidence, risk) /\
    confidence == 68 # 100 /\
    status result = "suspicious" /\ is_verified result = false /\
    requires_challenge result = true /\ challenge_type result = Some "otp".
Proof.
  cbv zeta. do 2 eexists. split; [vm_compute; reflexivity |].
  split; [reflexivity |].
  destruct (web_status_ignores_the_web_threshold sqrt_ten_decimals insertion_order
              (PDict web_data_no_scroll)
              (PDict (enrolled_web_profile sqrt_ten_decimals insertion_order
                        web_data_no_scroll))
              _ _ _ eq_refl)
    as (_ & _ & H).
  apply H; reflexivity.
Defined.

Lemma anomalies_agree_with_scores_witness :
  let anomalies :=
    fst (_detect_anomalies sqrt_ten_decimals sample_unfamiliar_device profile_typing_100) in
  ~ In "typing_speed_anomaly" anomalies /\ In "unfamiliar_device" anomalies.
Proof.
  cbv zeta.
  destruct (anomalies_agree_with_scores sqrt_ten_decimals
              sample_unfamiliar_device profile_typing_100
              (PDict [("key_hold_times", PList [PInt 110])])
              (PDict [("device_id", PStr "dev-9"); ("os", PStr "android")])
              (PStr "dev-9") eq_refl eq_refl eq_refl eq_refl)
    as (H1 & _ & H3).
  split.
  - apply H1. reflexivity.
  - apply H3; reflexivity.
Defined.

Lemma collected_record_is_signed_witness :
  exists biometric_data signature confidence l,
    BiometricDataCollectionView_record sqrt_ten_decimals six_decimals
      (PDict validated_mobile_request) tt
    = (tt, l, Ok (biometric_data, signature, confidence)) /\
    String.length signature = 64%nat /\
    hexadecimal signature = true /\
    0 <= confidence <= 4 # 10.
Proof.
  destruct (collected_record_is_signed sqrt_ten_decimals six_decimals
              validated_mobile_request
              [PDict [("speed", PFloat (5 # 2)); ("direction", PStr "left")]] []
              [("device_id", PStr "dev-1"); ("os", PStr "android")]
              eq_refl eq_refl eq_refl eq_refl eq_refl)
    as (biometric_data & signature & confidence & l & H1 & _ & H3 & H4 & H5 & _).
  exists biometric_data, signature, confidence, l.
  split; [exact H1 | split; [exact H3 | split; [exact H4 | exact H5]]].
Defined.


Lemma cross_platform_update_is_idempotent_witness :
  let once :=
    fst (_update_cross_platform_profile sqrt_ten_decimals insertion_order
           row_defaults (PDict web_data_full) "web") in
  let twice :=
    fst (_update_cross_platform_profile sqrt_ten_decimals insertion_order
           once (PDict web_data_full) "web") in
  preferred_platforms once = PList [PStr "web"] /\ twice = once /\
  get_profile_completeness (PDict []) (web_profile once) (PDict []) = 33%Z.
Proof.
  cbv zeta.
  destruct (cross_platform_update_is_idempotent sqrt_ten_decimals insertion_order
              row_defaults web_data_full "web" [] eq_refl)
    as (_ & _ & H3 & H4 & _).
  split; [reflexivity | split; [exact H3 | exact H4]].
Defined.

Lemma profile_update_is_not_atomic_witness :
  let result :=
    update_biometric_profile insertion_order (PDict profile_without_count)
      (PList batch_two_samples) in
  snd result = [{| lvl := ERROR; msg := "Profile update failed"; cause := KeyError |}] /\
  mem (PStr "dev-2") (trusted (fst result)) = true /\
  samples_collected (fst result) = None.
Proof.
  cbv zeta.
  destruct (profile_update_is_not_atomic insertion_order (fun l => Permutation_refl l)
              profile_without_count batch_two_samples eq_refl eq_refl eq_refl)
    as (H1 & H2 & H3 & _).
  - discriminate.
  - split; [exact H1 | split; [| exact H3]].
    rewrite (H2 (PStr "dev-2") eq_refl). reflexivity.
Defined.

Lemma client_ip_is_the_first_forwarded_entry_witness :
  exists ip rest,
    _get_client_ip (PDict META_forwarded) = Ok (PStr ip) /\
    "203.0.113.7, 10.0.0.1" = String.append ip rest /\
    (rest = EmptyString \/ exists tail, rest = String "," tail) /\
    (forall c, In c (list_ascii_of_string ip) -> c <> ","%char).
Proof.
  destruct (client_ip_is_the_first_forwarded_entry META_forwarded "203.0.113.7, 10.0.0.1"
              eq_refl)
    as (ip & rest & H1 & H2 & H3 & H4 & _).
  - discriminate.
  - exists ip, rest. split; [exact H1 | split; [exact H2 | split; [exact H3 | exact H4]]].
Defined.

Lemma preferred_direction_is_most_frequent_witness :
  let directions := filter truthy (map (field "direction") scroll_three_events) in
  exists d,
    lookup "preferred_direction"
      (fst (_extract_scroll_features sqrt_ten_decimals insertion_order
              (PList scroll_three_events))) = Some d /\
    In d directions /\
    forall x, In x directions -> (py_count directions x <= py_count directions d)%nat.
Proof.
  cbv zeta.
  destruct (preferred_direction_is_most_frequent sqrt_ten_decimals insertion_order
              (fun l => Permutation_refl l) scroll_three_events) as [Hmost Hstored].
  - repeat constructor.
  - reflexivity.
  - vm_compute. discriminate.
  - destruct Hstored as [d Hd]; [right; reflexivity |].
    exists d. split; [exact Hd | apply Hmost; exact Hd].
Defined.

Lemma web_signature_ignores_interactions_witness :
  web_data_full <> web_data_with_form /\
  String.length (fst (create_web_behavioral_signature sqrt_ten_decimals six_decimals
                        insertion_order (PDict web_data_full))) = 64%nat /\
  create_web_behavioral_signature sqrt_ten_decimals six_decimals insertion_order
    (PDict web_data_full)
  = create_web_behavioral_signature sqrt_ten_decimals six_decimals insertion_order
      (PDict web_data_with_form).
Proof.
  split; [discriminate |].
  destruct (web_signature_ignores_interactions sqrt_ten_decimals six_decimals insertion_order
              web_data_full web_data_with_form)
    as (Hlength & _ & Hsame).
  - intros k [<- | [<- | [<- | [<- | []]]]]; reflexivity.
  - split; [exact Hlength | exact Hsame].
Defined.

Lemma malformed_hold_times_hide_flight_times_witness :
  let warning cause :=
    {| lvl := WARNING; msg := "Failed to extract typing features"; cause := cause |} in
  _extract_typing_features sqrt_ten_decimals (PDict typing_bad_hold_times)
  = ([], [warning TypeError]) /\
  fst (_extract_typing_features sqrt_ten_decimals (PDict typing_bad_flight_times))
  = fst (_extract_typing_features sqrt_ten_decimals
           (PDict [("key_hold_times", PList [PInt 100; PInt 120])])) /\
  _extract_typing_features sqrt_ten_decimals (PDict typing_huge_hold_times)
  = ([("avg_hold_time", PInt (10 ^ 309 + 2))], [warning OverflowError]).
Proof.
  cbv zeta. split; [| split].
  - apply (proj1 (malformed_hold_times_hide_flight_times sqrt_ten_decimals
                    typing_bad_hold_times [PStr "fast"] [PInt 50; PInt 70]
                    eq_refl eq_refl)).
    + reflexivity.
    + intros item [= <-]. reflexivity.
  - apply (proj1 (proj2 (malformed_hold_times_hide_flight_times sqrt_ten_decimals
                           typing_bad_flight_times [PInt 100; PInt 120] [PStr "slow"]
                           eq_refl eq_refl))).
    reflexivity.
  - apply (proj2 (proj2 (malformed_hold_times_hide_flight_times sqrt_ten_decimals
                           typing_huge_hold_times
                           [PInt 2; PInt (2 * 10 ^ 309 + 2)] [PInt 50; PInt 70]
                           eq_refl eq_refl))
             [inject_Z 2; inject_Z (2 * 10 ^ 309 + 2)] (10 ^ 309 + 2)%Z).
    + reflexivity.
    + simpl. lia.
    + vm_compute. reflexivity.
    + vm_compute. reflexivity.
Defined.
